(** * Sleep data synchronisation pipeline (update_garmin_sleep.py)

    A shallow embedding of the five synchronisation steps of
    [update_garmin_sleep.py] (step0 .. step4) and of the helpers they call
    ([daterange], [converter], [download]), followed by the properties of
    the archive merger, the request chunking, the legacy-data reconciler,
    the calendar features and the sunrise/sunset archive.  The trimming
    script [data_mod.py] and the data selection of the overview graph of
    [app.py] ([react_clicks], [update_graph], the slider settings of the
    last sync callback) are embedded as well.

    Modelling conventions.
    - A calendar date is the number of days since 1970-01-01 (a [Z]);
      [days_from_civil] and [civil_from_days] convert to and from
      year/month/day, [weekday] is Python's [date.weekday()].
      Dates are compared by calendar day, whichever of [datetime.date]
      and [pd.Timestamp] holds them in the script.
    - A pandas column cell that may hold NaT / NaN / None is an [option].
    - A data frame is the list of its rows, in row order.  A table the
      script builds row by row from an empty one ([converter], [sun_df])
      has the positions as index labels, so [df.loc[len(df)] = row] appends
      to it.  [all_df] keeps the labels of the archive and of the legacy
      files it is appended from; the row lists do not carry them, so they
      are an input ([all_df_index]), and [df.loc[len(df)] = row] overwrites
      where that label exists.
    - A float time of day ([hour + minute/60]) is an exact rational.
    - Python exceptions are the [Raise] results of the [result] type.
    - Network collaborators, the time-zone database, the holiday calendar
      and the legacy CSV files are the fields of a [World] record.  A reply
      of the sleep service is told apart as [download_to_json] does: an
      ASCII body is the JSON array of the nights, any other body is what
      [brotli.decompress] makes of it. *)

From Stdlib Require Import String.
From Stdlib Require Import ZArith List Bool Lia QArith Sorted Permutation.
Import ListNotations.
Open Scope Z_scope.

Set Implicit Arguments.

(* ------------------------------------------------------------------ *)
(** ** Calendar dates *)

Module Calendar.

(** Days since 1970-01-01 of the proleptic Gregorian date [y-m-d]. *)
Definition days_from_civil (y m d : Z) : Z :=
  let y' := if m <=? 2 then y - 1 else y in
  let era := y' / 400 in
  let yoe := y' - era * 400 in
  let mp := if 2 <? m then m - 3 else m + 9 in
  let doy := (153 * mp + 2) / 5 + d - 1 in
  let doe := yoe * 365 + yoe / 4 - yoe / 100 + doy in
  era * 146097 + doe - 719468.

(** Year, month and day of a day number. *)
Definition civil_from_days (z : Z) : Z * Z * Z :=
  let z' := z + 719468 in
  let era := z' / 146097 in
  let doe := z' - era * 146097 in
  let yoe := (doe - doe / 1460 + doe / 36524 - doe / 146096) / 365 in
  let doy := doe - (365 * yoe + yoe / 4 - yoe / 100) in
  let mp := (5 * doy + 2) / 153 in
  let d := doy - (153 * mp + 2) / 5 + 1 in
  let m := if mp <? 10 then mp + 3 else mp - 9 in
  let y := yoe + era * 400 in
  ((if m <=? 2 then y + 1 else y), m, d).

Definition year (z : Z) : Z := fst (fst (civil_from_days z)).
Definition month (z : Z) : Z := snd (fst (civil_from_days z)).
Definition day (z : Z) : Z := snd (civil_from_days z).

(** [date.weekday()]: Monday is 0, Sunday is 6.  1970-01-01 was a
    Thursday. *)
Definition weekday (z : Z) : Z := (z + 3) mod 7.

End Calendar.
Import Calendar.

(* ------------------------------------------------------------------ *)
(** ** Exceptions and results *)

Inductive exn : Type :=
| IndexError (position : Z)     (* positional access out of bounds *)
| ResponseError (status : Z)    (* [raise Exception] after a non-200 reply *)
| ValueError                    (* min()/max() of an empty column *)
| TypeError                     (* subscripting an item that is no record *)
| BrotliError                   (* [brotli.decompress] of a body it cannot read *)
| LoginError                    (* the browser login of step1 failed *)
| OutOfFuel.                    (* artefact of the loop bound, never returned *)

Inductive result (A : Type) : Type :=
| Ok (a : A)
| Raise (e : exn).
Arguments Ok {A} a.
Arguments Raise {A} e.

Definition bind {A B} (r : result A) (k : A -> result B) : result B :=
  match r with
  | Ok a => k a
  | Raise e => Raise e
  end.

Notation "x <- r ;; k" := (bind r (fun x => k))
  (at level 61, r at next level, right associativity).
Notation "' p <- r ;; k" := (bind r (fun x => match x with p => k end))
  (at level 61, p pattern, r at next level, right associativity).

(* ------------------------------------------------------------------ *)
(** ** Generic column helpers *)

(** [Series.isin]. *)
Definition isin (d : Z) (col : list Z) : bool := existsb (Z.eqb d) col.

(** [pd.isnull] of one cell. *)
Definition isnull {A} (c : option A) : bool :=
  match c with None => true | Some _ => false end.

(** [df.sort_values(key)]: rows in ascending key order.  pandas leaves the
    order of rows with equal keys unspecified; the model keeps them in
    their original order. *)
Section SortValues.
Variable A : Type.
Variable key : A -> Z.

Fixpoint insert_row (r : A) (l : list A) : list A :=
  match l with
  | [] => [r]
  | x :: t => if key r <=? key x then r :: l else x :: insert_row r t
  end.

Fixpoint sort_values (l : list A) : list A :=
  match l with
  | [] => []
  | r :: t => insert_row r (sort_values t)
  end.
End SortValues.

(** [np.unique] of a column of dates: sorted, without repetition. *)
Fixpoint dedup_sorted (l : list Z) : list Z :=
  match l with
  | [] => []
  | x :: t =>
      match t with
      | [] => [x]
      | y :: _ => if x =? y then dedup_sorted t else x :: dedup_sorted t
      end
  end.

Definition unique (l : list Z) : list Z :=
  dedup_sorted (sort_values (fun d => d) l).

(** [np.setdiff1d(a, b)]: the unique values of [a] that are not in [b],
    ascending. *)
Definition setdiff1d (a b : list Z) : list Z :=
  filter (fun d => negb (isin d b)) (unique a).

(** [df.iloc[k]] on the rows of a frame: non-negative positions count from
    the front, negative ones from the back, anything else raises. *)
Definition iloc {A} (df : list A) (k : Z) : result A :=
  let n := Z.of_nat (length df) in
  let pos := if k <? 0 then n + k else k in
  if (0 <=? pos) && (pos <? n) then
    match nth_error df (Z.to_nat pos) with
    | Some r => Ok r
    | None => Raise (IndexError k)
    end
  else Raise (IndexError k).

(** [min(col)] and [max(col)]. *)
Definition min_date (l : list Z) : result Z :=
  match l with
  | [] => Raise ValueError
  | x :: t => Ok (fold_left Z.min t x)
  end.

Definition max_date (l : list Z) : result Z :=
  match l with
  | [] => Raise ValueError
  | x :: t => Ok (fold_left Z.max t x)
  end.

(** [daterange(date1, date2)]: all dates of [date1 .. date2]; the list
    always starts with [date1], also when [date2] is earlier. *)
Definition daterange (date1 date2 : Z) : list Z :=
  map (fun n => date1 + Z.of_nat n) (seq 0 (S (Z.to_nat (date2 - date1)))).

(* ------------------------------------------------------------------ *)
(** ** Data model *)

(** A time-zone aware timestamp: the instant in milliseconds since the
    epoch and the UTC offset (seconds east) of the zone it is shown in. *)
Record Timestamp : Type := mkTimestamp {
  instant_ms : Z;
  utc_offset : Z
}.

Definition local_seconds (t : Timestamp) : Z :=
  instant_ms t / 1000 + utc_offset t.

(** [.dt.hour], [.dt.minute] and [.dt.date] of a timestamp. *)
Definition hour (t : Timestamp) : Z := (local_seconds t mod 86400) / 3600.
Definition minute (t : Timestamp) : Z := (local_seconds t mod 3600) / 60.
Definition date_of (t : Timestamp) : Z := local_seconds t / 86400.

(** One entry of the provider's [dailySleepsByDate] JSON array. *)
Record RawNight : Type := mkRawNight {
  sleepStartTimestampGMT : option Z;
  sleepEndTimestampGMT : option Z;
  calendarDate : Z * Z * Z;              (* the 'YYYY-MM-DD' string, split *)
  deepSleepSeconds : option Z;
  lightSleepSeconds : option Z;
  sleepTimeSeconds : option Z;
  awakeSleepSeconds : option Z;
  napTimeSeconds : option Z;
  sleepWindowConfirmed : option bool
}.

(** A row of the primary night archive ([nights_df]); durations are in
    seconds. *)
Record Night : Type := mkNight {
  Prev_Day : Z;
  Bed_Time : option Timestamp;
  Wake_Time : option Timestamp;
  Awake_Dur : option Z;
  Light_Dur : option Z;
  Deep_Dur : option Z;
  Total_Dur : option Z;
  Nap_Dur : option Z;
  Window_Conf : option bool
}.

(** A row of the legacy [Activity_Summary_*.csv] tables.  The two clock
    columns are naive local date-times, in seconds since the epoch. *)
Record ActivityRow : Type := mkActivityRow {
  Event_Type : String.string;
  Date : Z;
  Start_Time : option Z;
  Wake_Up_Time : option Z;
  Seconds_Asleep_Light : option Z;
  Seconds_Asleep_Restful : option Z;
  Seconds_Awake : option Z
}.

(** A row of the combined data set ([garmin_df], [ms3_df], [all_df]). *)
Record SleepRow : Type := mkSleepRow {
  s_Prev_Day : Z;
  s_Bed_Time : option Timestamp;
  s_Wake_Time : option Timestamp;
  s_Awake_Dur : option Z;
  s_Light_Dur : option Z;
  s_Deep_Dur : option Z;
  s_Total_Dur : option Z;
  s_Bed_ToD : option Q;
  s_Wake_ToD : option Q
}.

Inductive DayName : Type :=
| Monday | Tuesday | Wednesday | Thursday | Friday | Saturday | Sunday.

(** A row of [all_descr_df]. *)
Record DescrRow : Type := mkDescrRow {
  d_Sleep_Session_ID : Z;
  d_Prev_Day : Z;
  d_Awake_Dur : option Z;
  d_Light_Dur : option Z;
  d_Deep_Dur : option Z;
  d_Total_Dur : option Z;
  d_Year : Z;
  d_Day : option DayName;
  d_Is_Holiday : bool;
  d_Is_Workday : bool
}.

Inductive EventName : Type := Fell_Asleep | Woke_Up.

(** A row of [all_event_df]. *)
Record EventRow : Type := mkEventRow {
  e_Sleep_Session_ID : Z;
  e_Prev_Day : Z;
  e_Event : EventName;
  e_DateTime : option Timestamp;
  e_ToD : option Q;
  e_DateTimeStr : option String.string
}.

(** A row of [sun_df]. *)
Record SunRow : Type := mkSunRow {
  sun_Date : Z;
  Sunrise : Timestamp;
  Sunrise_ToD : Q;
  Sunset : Timestamp;
  Sunset_ToD : Q
}.

(** An HTTP reply: status code and body. *)
Record Response (A : Type) : Type := mkResponse {
  status_code : Z;
  content : A
}.

(** The body of a reply of the sleep service, as [download_to_json] tells
    bodies apart: one that [chardet] detects as ASCII, which is the JSON
    array of the nights of the period; any other body that
    [brotli.decompress] accepts, with the bytes it returns; any other body,
    on which [brotli.decompress] raises. *)
Inductive Body : Type :=
| Ascii (js : list RawNight)
| Brotli (bytes : list Z)
| Undecodable.

(** An item of the list step2 puts together with [chain.from_iterable]: a
    record of a JSON array, or one byte of a decompressed body (the script
    does not parse what it decompresses). *)
Inductive Item : Type :=
| Record_item (r : RawNight)
| Byte_item (b : Z).

(** The files of the data directory; [None] is a file that does not
    exist. *)
Record Disk : Type := mkDisk {
  garmin_sleep_df_pkl : option (list Night);
  new_garmin_sleep_json : option (list Item);
  all_sleep_descr_df_pkl : option (list DescrRow);
  all_sleep_event_df_pkl : option (list EventRow);
  sun_df_pkl : option (list SunRow)
}.

(** Everything the script reads from outside itself. *)
Record World : Type := mkWorld {
  start_date : Z;                         (* '2017-03-01' in the script *)
  end_date : Z;                           (* yesterday, at import time *)
  login : bool;                           (* does the browser login succeed *)
  dailySleepsByDate : Z -> Z -> Response Body;
  eastern_offset : Z -> Z;                (* pytz: offset at an instant (s) *)
  eastern_offset_wall : Z -> option Z;    (* pytz: offset of a wall-clock
                                             time, [None] when ambiguous *)
  activity_summary : list ActivityRow;    (* the three CSV files, appended *)
  all_df_index : list SleepRow -> nat -> Z;
                                          (* the index label of each row of
                                             [all_df], by position *)
  federal_holidays : Z -> Z -> list Z;    (* USFederalHolidayCalendar *)
  sunrise_sunset : Z -> Response ((Z * Z * Z) * (Z * Z * Z));
                                          (* UTC clock times h, m, s *)
  strftime : Timestamp -> String.string   (* '%B %d, %Y, %r' *)
}.

(* ------------------------------------------------------------------ *)
(** ** download and converter *)

(** [download]: the reply, or the exception raised for a status other than
    200 (the error body is parsed for its message first; an exception
    raised there is not told apart from the one raised after it).  Request
    headers and the session id are left out. *)
Definition download (w : World) (start_d end_d : Z) : result (Response Body) :=
  let response := dailySleepsByDate w start_d end_d in
  if status_code response =? 200 then Ok response
  else Raise (ResponseError (status_code response)).

(** [download_to_json]: the parsed JSON array of an ASCII body; for any
    other body what [brotli.decompress] returns, which is bytes and is not
    parsed.  Either is given as the items an iteration over it yields. *)
Definition download_to_json (w : World) (start_d end_d : Z)
  : result (list Item) :=
  response <- download w start_d end_d ;;
  match content response with
  | Ascii js => Ok (map Record_item js)
  | Brotli bytes => Ok (map Byte_item bytes)
  | Undecodable => Raise BrotliError
  end.

(** [sleep_timestamp]: a UTC timestamp, [None] passed through. *)
Definition sleep_timestamp (val : option Z) : option Timestamp :=
  match val with
  | None => None
  | Some v => Some (mkTimestamp v 0)
  end.

Definition converter_row (d : RawNight) : Night :=
  let '(y, m, dd) := calendarDate d in
  {| Prev_Day := days_from_civil y m dd - 1;
     Bed_Time := sleep_timestamp (sleepStartTimestampGMT d);
     Wake_Time := sleep_timestamp (sleepEndTimestampGMT d);
     Awake_Dur := awakeSleepSeconds d;
     Light_Dur := lightSleepSeconds d;
     Deep_Dur := deepSleepSeconds d;
     Total_Dur := sleepTimeSeconds d;
     Nap_Dur := napTimeSeconds d;
     Window_Conf := sleepWindowConfirmed d |}.

(** [converter] on the records of a JSON array. *)
Definition converter (data : list RawNight) : list Night :=
  map converter_row data.

(** The loop of [converter] subscripts every item of [data]; an item that
    is no record (a byte of a decompressed body) raises [TypeError], and
    the rows made so far are lost with the local table. *)
Fixpoint json_records (data : list Item) : result (list RawNight) :=
  match data with
  | [] => Ok []
  | Record_item r :: t => records <- json_records t ;; Ok (r :: records)
  | Byte_item _ :: _ => Raise TypeError
  end.

(* ------------------------------------------------------------------ *)
(** ** Step 0: which dates are missing from the archive *)

Inductive Step0Msg : Type :=
| Up_to_date
| Nights_needed (n : nat).

Definition step0 (w : World) (disk : Disk)
  : Step0Msg * list Night * list Z :=
  let req_dates_ls := daterange (start_date w) (end_date w) in
  let nights_df :=
    match garmin_sleep_df_pkl disk with
    | Some df => df
    | None => []
    end in
  let new_req_dates_ls :=
    if (0 <? length nights_df)%nat
    then setdiff1d req_dates_ls (map Prev_Day nights_df)
    else req_dates_ls in
  let msg :=
    if (length new_req_dates_ls =? 0)%nat then Up_to_date
    else Nights_needed (length new_req_dates_ls) in
  (msg, nights_df, new_req_dates_ls).

(* ------------------------------------------------------------------ *)
(** ** Step 2: download the missing dates, at most 31 days per request *)

Definition max_period_delta : Z := 31.

(** The [while len(get_dates_ls) > 0] loop.  [requests] records the
    [period_start, period_end] of every request issued, in order. *)
Fixpoint step2_loop (w : World) (fuel : nat) (get_dates_ls : list Z)
    (data : list (list Item)) (requests : list (Z * Z))
  : list (Z * Z) * result (list (list Item)) :=
  match get_dates_ls with
  | [] => (requests, Ok data)
  | d0 :: rest =>
      match fuel with
      | O => (requests, Raise OutOfFuel)
      | S fuel' =>
          let period_start := fold_left Z.min rest d0 in
          let latest := fold_left Z.max rest d0 in
          let period_end :=
            if max_period_delta - 1 <? latest - period_start
            then period_start + max_period_delta
            else latest in
          let requests' := requests ++ [(period_start, period_end)] in
          match download_to_json w period_start period_end with
          | Raise e => (requests', Raise e)
          | Ok js =>
              step2_loop w fuel'
                (filter (fun d => period_end <? d) get_dates_ls)
                (data ++ [js]) requests'
          end
      end
  end.

(** [step2]: the requests issued, the disk afterwards and the combined
    JSON.  The raw JSON file is written only when every request
    succeeded. *)
Definition step2 (w : World) (disk : Disk) (new_req_dates_ls : list Z)
  : list (Z * Z) * Disk * result (list Item) :=
  let '(requests, r) :=
    step2_loop w (length new_req_dates_ls) new_req_dates_ls [] [] in
  match r with
  | Ok chunks =>
      let data := concat chunks in
      (requests,
       {| garmin_sleep_df_pkl := garmin_sleep_df_pkl disk;
          new_garmin_sleep_json := Some data;
          all_sleep_descr_df_pkl := all_sleep_descr_df_pkl disk;
          all_sleep_event_df_pkl := all_sleep_event_df_pkl disk;
          sun_df_pkl := sun_df_pkl disk |},
       Ok data)
  | Raise e => (requests, disk, Raise e)
  end.

(* ------------------------------------------------------------------ *)
(** ** Step 3, first half: clean, fill, merge and trim the night archive *)

(** [.dt.tz_convert(local_tz)]: same instant, shown in US/Eastern. *)
Definition tz_convert (w : World) (t : Timestamp) : Timestamp :=
  mkTimestamp (instant_ms t) (eastern_offset w (instant_ms t / 1000)).

Definition clean_night (w : World) (r : Night) : Night :=
  {| Prev_Day := Prev_Day r;
     Bed_Time := option_map (tz_convert w) (Bed_Time r);
     Wake_Time := option_map (tz_convert w) (Wake_Time r);
     Awake_Dur := Awake_Dur r;
     Light_Dur := Light_Dur r;
     Deep_Dur := Deep_Dur r;
     Total_Dur := Total_Dur r;
     Nap_Dur := Nap_Dur r;
     Window_Conf := Window_Conf r |}.

(** [[d] + new_missing_row]: a date with nothing known about it. *)
Definition new_missing_row (d : Z) : Night :=
  mkNight d None None None None None None None None.

(** Rows for the requested dates the provider returned nothing for. *)
Definition fill_missing (new_req_dates_ls : list Z) (new_nights_df : list Night)
  : list Night :=
  let new_missing_dates_ls :=
    setdiff1d new_req_dates_ls (map Prev_Day new_nights_df) in
  new_nights_df ++ map new_missing_row new_missing_dates_ls.

(** Drop the new nights already archived, append, sort by [Prev_Day]. *)
Definition merge_nights (nights_df new_nights_df : list Night) : list Night :=
  if (0 <? length nights_df)%nat then
    let kept :=
      filter (fun r => negb (isin (Prev_Day r) (map Prev_Day nights_df)))
             new_nights_df in
    sort_values Prev_Day (nights_df ++ kept)
  else sort_values Prev_Day new_nights_df.

(** The [while pd.isnull(Total_Dur.iloc[-i]) & (len(nights_df) >= i)]
    loop: the row is read before the length is compared. *)
Fixpoint trim_loop (fuel : nat) (nights_df : list Night) (i : Z)
    (unknown_nights_ls : list Z) : result (list Z) :=
  match fuel with
  | O => Raise OutOfFuel
  | S fuel' =>
      r <- iloc nights_df (- i) ;;
      if isnull (Total_Dur r) && (i <=? Z.of_nat (length nights_df))
      then trim_loop fuel' nights_df (i + 1)
             (unknown_nights_ls ++ [Prev_Day r])
      else Ok unknown_nights_ls
  end.

Definition unknown_nights (nights_df : list Night) : result (list Z) :=
  trim_loop (S (length nights_df)) nights_df 1 [].

Definition trim_trailing (nights_df : list Night) : result (list Night) :=
  unknown_nights_ls <- unknown_nights nights_df ;;
  Ok (filter (fun r => negb (isin (Prev_Day r) unknown_nights_ls)) nights_df).

(** The merged table before the trailing trim. *)
Definition merged_nights (w : World) (nights_df : list Night)
    (data : list RawNight) (new_req_dates_ls : list Z) : list Night :=
  let new_nights_df := map (clean_night w) (converter data) in
  merge_nights nights_df (fill_missing new_req_dates_ls new_nights_df).

(** The archive that step3 pickles. *)
Definition archive_merger (w : World) (nights_df : list Night)
    (data : list RawNight) (new_req_dates_ls : list Z) : result (list Night) :=
  trim_trailing (merged_nights w nights_df data new_req_dates_ls).

(* ------------------------------------------------------------------ *)
(** ** Time of day *)

(** [hour + minute/60]. *)
Definition time_of_day (t : Timestamp) : Q :=
  inject_Z (hour t) + inject_Z (minute t) / 60.

Definition Qgtb (x y : Q) : bool := negb (Qle_bool x y).

(** [x -= 24*(x > 12)]: afternoon and evening times become negative. *)
Definition make_pm_negative (x : Q) : Q :=
  x - 24 * (if Qgtb x 12 then 1 else 0).

Definition Bed_ToD_of (bed : option Timestamp) : option Q :=
  option_map (fun t => make_pm_negative (time_of_day t)) bed.

Definition Wake_ToD_of (wake : option Timestamp) : option Q :=
  option_map time_of_day wake.

(** [garmin_df]: the archive without [Nap_Dur] and [Window_Conf], with the
    two time-of-day columns. *)
Definition garmin_row (r : Night) : SleepRow :=
  {| s_Prev_Day := Prev_Day r;
     s_Bed_Time := Bed_Time r;
     s_Wake_Time := Wake_Time r;
     s_Awake_Dur := Awake_Dur r;
     s_Light_Dur := Light_Dur r;
     s_Deep_Dur := Deep_Dur r;
     s_Total_Dur := Total_Dur r;
     s_Bed_ToD := Bed_ToD_of (Bed_Time r);
     s_Wake_ToD := Wake_ToD_of (Wake_Time r) |}.

(* ------------------------------------------------------------------ *)
(** ** Step 3, legacy data *)

(** [.dt.tz_localize("US/Eastern", ambiguous="NaT")] of a naive local
    date-time given in seconds. *)
Definition tz_localize (w : World) (naive : option Z) : option Timestamp :=
  match naive with
  | None => None
  | Some s =>
      match eastern_offset_wall w s with
      | None => None
      | Some off => Some (mkTimestamp ((s - off) * 1000) off)
      end
  end.

(** Replace the row at position [i]. *)
Fixpoint set_row {A} (i : nat) (r : A) (df : list A) : list A :=
  match df, i with
  | [], _ => []
  | _ :: t, O => r :: t
  | x :: t, S j => x :: set_row j r t
  end.

(** The [for i_row in range(len(ms2_df)-1)] loop over the first two
    columns of [ms2_df]: a session that began before noon belongs to the
    day before.  [NaT.hour < 12] is false. *)
Definition adjust_step (df : list (Z * option Timestamp)) (i_row : nat)
  : list (Z * option Timestamp) :=
  match nth_error df i_row with
  | Some (prev_day, Some bed) =>
      if hour bed <? 12 then set_row i_row (prev_day - 1, Some bed) df
      else df
  | _ => df
  end.

Definition adjust_prev_day (ms2_df : list (Z * option Timestamp))
  : list (Z * option Timestamp) :=
  fold_left adjust_step (seq 0 (length ms2_df - 1)) ms2_df.

(** Sum of timedelta cells; NaT when any is missing. *)
Definition add_dur (a b : option Z) : option Z :=
  match a, b with
  | Some x, Some y => Some (x + y)
  | _, _ => None
  end.

(** [ms2_df]: the legacy sleep rows in the shape of [garmin_df]. *)
Definition ms2_rows (w : World) (ms_df : list ActivityRow) : list SleepRow :=
  let first_cols :=
    adjust_prev_day
      (map (fun a => (Date a, tz_localize w (Start_Time a))) ms_df) in
  map (fun '((prev_day, bed), a) =>
         let wake := tz_localize w (Wake_Up_Time a) in
         let light := Seconds_Asleep_Light a in
         let deep := Seconds_Asleep_Restful a in
         {| s_Prev_Day := prev_day;
            s_Bed_Time := bed;
            s_Wake_Time := wake;
            s_Awake_Dur := None;
            s_Light_Dur := light;
            s_Deep_Dur := deep;
            s_Total_Dur := add_dur (add_dur (Seconds_Awake a) light) deep;
            s_Bed_ToD := Bed_ToD_of bed;
            s_Wake_ToD := Wake_ToD_of wake |})
      (combine first_cols ms_df).

(** Comparisons with a missing cell are false. *)
Definition brief_sleep_bool (r : SleepRow) : bool :=
  match s_Total_Dur r with
  | Some s => s <? 4 * 3600
  | None => false
  end.

Definition daytime_asleep_bool (r : SleepRow) : bool :=
  match s_Bed_ToD r with
  | Some x => Qgtb x (-3) || negb (Qle_bool 7 x)
  | None => false
  end.

Definition unknown_dur_bool (r : SleepRow) : bool := isnull (s_Total_Dur r).

Definition nap_bool (r : SleepRow) : bool :=
  brief_sleep_bool r && daytime_asleep_bool r.

(** The rows kept in [ms3_df]. *)
Definition ms3_keep (r : SleepRow) : bool :=
  negb (nap_bool r) && negb (unknown_dur_bool r).

Definition ms3_rows (w : World) : list SleepRow :=
  let ms_df :=
    filter (fun a => String.eqb (Event_Type a) "Sleep"%string)
           (activity_summary w) in
  filter ms3_keep (ms2_rows w ms_df).

(* ------------------------------------------------------------------ *)
(** ** Step 3, second half: the combined data set and its two views *)

(** The row inserted for a calendar day nothing is known about. *)
Definition placeholder_row (d : Z) : SleepRow :=
  mkSleepRow d None None None None None None None None.

(** The rows of a table, each with its index label; [index] gives the
    label by position. *)
Definition with_index {A} (index : nat -> Z) (df : list A) : list (Z * A) :=
  combine (map index (seq 0 (length df))) df.

(** [df.loc[len(df)] = row] on a table with index labels: every row that
    carries the label [len(df)] is overwritten and the table keeps its
    length; if no row carries it, the row is added under that label. *)
Definition loc_set_len {A} (df : list (Z * A)) (row : A) : list (Z * A) :=
  let label := Z.of_nat (length df) in
  if isin label (map fst df)
  then map (fun x => if fst x =? label then (label, row) else x) df
  else df ++ [(label, row)].

(** The gap fill of [all_df]: a row is written at the label [len(all_df)]
    for every day between the first and the last date that no row has;
    then the table is sorted and its index reset.  The result comes with
    [complete_dates_ls].  [all_df] still has the labels of the tables it
    was appended from, given by [index]. *)
Definition complete_all_df (index : nat -> Z) (all_df : list SleepRow)
  : result (list SleepRow * list Z) :=
  first_day <- min_date (map s_Prev_Day all_df) ;;
  last_day <- max_date (map s_Prev_Day all_df) ;;
  let complete_dates_ls := daterange first_day last_day in
  let missing_dates_ls :=
    setdiff1d complete_dates_ls (map s_Prev_Day all_df) in
  let filled :=
    fold_left (fun df date => loc_set_len df (placeholder_row date))
              missing_dates_ls (with_index index all_df) in
  Ok (sort_values s_Prev_Day (map snd filled), complete_dates_ls).

(** [all_df["Sleep_Session_ID"] = list(range(len(all_df)))]. *)
Definition with_session_id (all_df : list SleepRow) : list (Z * SleepRow) :=
  combine (map Z.of_nat (seq 0 (length all_df))) all_df.

(** [day_map], applied to [weekday]. *)
Definition day_map (k : Z) : option DayName :=
  match k with
  | 0 => Some Monday
  | 1 => Some Tuesday
  | 2 => Some Wednesday
  | 3 => Some Thursday
  | 4 => Some Friday
  | 5 => Some Saturday
  | 6 => Some Sunday
  | _ => None
  end.

(** [Day.isin(["Friday", "Saturday"])]. *)
Definition is_weekend_bool (d : option DayName) : bool :=
  match d with
  | Some Friday | Some Saturday => true
  | _ => false
  end.

(** The holidays counted by the script: the federal ones of the spanned
    range, plus the day after Thanksgiving, without Presidents Day,
    Columbus Day and Veterans Day. *)
Definition holidays_of (w : World) (first_day last_day : Z) : list Z :=
  let holidays := federal_holidays w first_day last_day in
  let nov_holidays := filter (fun h => month h =? 11) holidays in
  let tg_holidays := filter (fun h => 20 <? day h) nov_holidays in
  let bf_holidays := map (fun h => h + 1) tg_holidays in
  let holidays := holidays ++ bf_holidays in
  let holidays :=
    filter (fun h => negb (month h =? 2) && negb (month h =? 10)) holidays in
  filter (fun h => negb ((month h =? 11) && (day h <? 20))) holidays.

(** [pd.date_range(a, b)]: empty when [b] is before [a]. *)
Definition date_range (a b : Z) : list Z :=
  if b <? a then [] else daterange a b.

(** First day of the leave period: [datetime.date(2019, 10, 28)]. *)
Definition layoff_start : Z := days_from_civil 2019 10 28.

(** [vacay]: the day before and the six days after every December
    holiday, and the leave period up to [end_date]. *)
Definition vacay_of (w : World) (holidays : list Z) : list Z :=
  let christmas_holidays := filter (fun h => month h =? 12) holidays in
  let vacay := map (fun h => h - 1) christmas_holidays in
  let vacay :=
    fold_left (fun v n => v ++ map (fun h => h + n) christmas_holidays)
              [1; 2; 3; 4; 5; 6] vacay in
  vacay ++ date_range layoff_start (end_date w).

Definition is_holiday (holidays : list Z) (prev_day : Z) : bool :=
  if is_weekend_bool (day_map (weekday prev_day)) then false
  else isin prev_day holidays.

Definition is_workday (holidays vacay : list Z) (prev_day : Z) : bool :=
  if is_weekend_bool (day_map (weekday prev_day)) then false
  else negb (is_holiday holidays prev_day || isin prev_day vacay).

Definition descr_row (holidays vacay : list Z) (x : Z * SleepRow) : DescrRow :=
  let '(id, r) := x in
  {| d_Sleep_Session_ID := id;
     d_Prev_Day := s_Prev_Day r;
     d_Awake_Dur := s_Awake_Dur r;
     d_Light_Dur := s_Light_Dur r;
     d_Deep_Dur := s_Deep_Dur r;
     d_Total_Dur := s_Total_Dur r;
     d_Year := year (s_Prev_Day r);
     d_Day := day_map (weekday (s_Prev_Day r));
     d_Is_Holiday := is_holiday holidays (s_Prev_Day r);
     d_Is_Workday := is_workday holidays vacay (s_Prev_Day r) |}.

(** [all_descr_df]. *)
Definition all_descr_df_of (w : World) (all_df : list (Z * SleepRow))
  : result (list DescrRow) :=
  first_day <- min_date (map (fun x => s_Prev_Day (snd x)) all_df) ;;
  last_day <- max_date (map (fun x => s_Prev_Day (snd x)) all_df) ;;
  let holidays := holidays_of w first_day last_day in
  let vacay := vacay_of w holidays in
  Ok (map (descr_row holidays vacay) all_df).

(** [pd.melt] of the two timestamp columns, then of the two time-of-day
    columns, with the column names already replaced by the event names. *)
Definition melt_DateTime (all_df : list (Z * SleepRow))
  : list (Z * Z * EventName * option Timestamp) :=
  map (fun '(id, r) => (id, s_Prev_Day r, Fell_Asleep, s_Bed_Time r)) all_df
  ++ map (fun '(id, r) => (id, s_Prev_Day r, Woke_Up, s_Wake_Time r)) all_df.

Definition melt_ToD (all_df : list (Z * SleepRow))
  : list (Z * Z * EventName * option Q) :=
  map (fun '(id, r) => (id, s_Prev_Day r, Fell_Asleep, s_Bed_ToD r)) all_df
  ++ map (fun '(id, r) => (id, s_Prev_Day r, Woke_Up, s_Wake_ToD r)) all_df.

Definition event_eqb (a b : EventName) : bool :=
  match a, b with
  | Fell_Asleep, Fell_Asleep | Woke_Up, Woke_Up => true
  | _, _ => false
  end.

(** [pd.merge] on the shared columns: session, day and event. *)
Definition merge_events (w : World)
    (dt_df : list (Z * Z * EventName * option Timestamp))
    (tod_df : list (Z * Z * EventName * option Q)) : list EventRow :=
  flat_map
    (fun '(id, prev_day, ev, dt) =>
       map (fun '(_, _, _, tod) =>
              mkEventRow id prev_day ev dt tod (option_map (strftime w) dt))
           (filter (fun '(id', prev_day', ev', _) =>
                      (id =? id') && (prev_day =? prev_day')
                      && event_eqb ev ev')
                   tod_df))
    dt_df.

(** Sort key for [sort_values(["Sleep_Session_ID", "Event"])]. *)
Definition event_key (e : EventRow) : Z :=
  2 * e_Sleep_Session_ID e
  + match e_Event e with Fell_Asleep => 0 | Woke_Up => 1 end.

Definition all_event_df_of (w : World) (all_df : list (Z * SleepRow))
  : list EventRow :=
  sort_values event_key (merge_events w (melt_DateTime all_df) (melt_ToD all_df)).

(** The derived tables and [complete_dates_ls] computed from the
    trimmed archive. *)
Definition derive (w : World) (nights_df : list Night)
  : result (list DescrRow * list EventRow * list Z) :=
  let garmin_df := map garmin_row nights_df in
  let all_df := garmin_df ++ ms3_rows w in
  '(sorted_df, complete_dates_ls) <-
    complete_all_df (all_df_index w all_df) all_df ;;
  let all_df := with_session_id sorted_df in
  all_descr_df <- all_descr_df_of w all_df ;;
  Ok (all_descr_df, all_event_df_of w all_df, complete_dates_ls).

(** [step3]: the disk afterwards and the two derived tables with
    [complete_dates_ls].  The night archive is pickled right after the
    trim, the derived tables at the very end. *)
Definition step3 (w : World) (disk : Disk) (nights_df : list Night)
    (data : list Item) (new_req_dates_ls : list Z)
  : Disk * result (list DescrRow * list EventRow * list Z) :=
  match (records <- json_records data ;;
         archive_merger w nights_df records new_req_dates_ls) with
  | Raise e => (disk, Raise e)
  | Ok nights_df =>
      let disk1 :=
        {| garmin_sleep_df_pkl := Some nights_df;
           new_garmin_sleep_json := new_garmin_sleep_json disk;
           all_sleep_descr_df_pkl := all_sleep_descr_df_pkl disk;
           all_sleep_event_df_pkl := all_sleep_event_df_pkl disk;
           sun_df_pkl := sun_df_pkl disk |} in
      match derive w nights_df with
      | Raise e => (disk1, Raise e)
      | Ok (all_descr_df, all_event_df, complete_dates_ls) =>
          ({| garmin_sleep_df_pkl := Some nights_df;
              new_garmin_sleep_json := new_garmin_sleep_json disk;
              all_sleep_descr_df_pkl := Some all_descr_df;
              all_sleep_event_df_pkl := Some all_event_df;
              sun_df_pkl := sun_df_pkl disk |},
           Ok (all_descr_df, all_event_df, complete_dates_ls))
      end
  end.

(* ------------------------------------------------------------------ *)
(** ** Step 4: sunrise and sunset of the dates not yet archived *)

(** The UTC clock time [h:m:s] on [w_date], shown in US/Eastern. *)
Definition sun_timestamp (w : World) (w_date : Z) (clock : Z * Z * Z)
  : Timestamp :=
  let '(h, m, s) := clock in
  tz_convert w (mkTimestamp ((w_date * 86400 + h * 3600 + m * 60 + s) * 1000) 0).

Definition sun_row (w : World) (w_date : Z)
    (times : (Z * Z * Z) * (Z * Z * Z)) : SunRow :=
  let sunrise := sun_timestamp w w_date (fst times) in
  let sunset := sun_timestamp w w_date (snd times) in
  {| sun_Date := w_date;
     Sunrise := sunrise;
     Sunrise_ToD := make_pm_negative (time_of_day sunrise);
     Sunset := sunset;
     Sunset_ToD := make_pm_negative (time_of_day sunset) |}.

(** The [for i, w_date in enumerate(new_sun_dates_ls)] loop.
    [requests] records the dates asked for, in order. *)
Fixpoint step4_loop (w : World) (new_sun_dates_ls : list Z)
    (sun_df : list SunRow) (requests : list Z)
  : list Z * result (list SunRow) :=
  match new_sun_dates_ls with
  | [] => (requests, Ok sun_df)
  | w_date :: rest =>
      let response := sunrise_sunset w w_date in
      let requests' := requests ++ [w_date] in
      if status_code response =? 200 then
        step4_loop w rest (sun_df ++ [sun_row w w_date (content response)])
                   requests'
      else (requests', Raise (ResponseError (status_code response)))
  end.

Definition new_sun_dates (sun_df : list SunRow) (complete_dates_ls : list Z)
  : list Z :=
  if (0 <? length sun_df)%nat then
    filter (fun n => negb (isin n (map sun_Date sun_df))) complete_dates_ls
  else complete_dates_ls.

(** [step4]: the requests issued, the disk afterwards and [sun_df].  The
    pickle is written after the loop, so not when a request failed. *)
Definition step4 (w : World) (disk : Disk) (complete_dates_ls : list Z)
  : list Z * Disk * result (list SunRow) :=
  let sun_df :=
    match sun_df_pkl disk with
    | Some df => df
    | None => []
    end in
  let '(requests, r) :=
    step4_loop w (new_sun_dates sun_df complete_dates_ls) sun_df [] in
  match r with
  | Raise e => (requests, disk, Raise e)
  | Ok sun_df =>
      (requests,
       {| garmin_sleep_df_pkl := garmin_sleep_df_pkl disk;
          new_garmin_sleep_json := new_garmin_sleep_json disk;
          all_sleep_descr_df_pkl := all_sleep_descr_df_pkl disk;
          all_sleep_event_df_pkl := all_sleep_event_df_pkl disk;
          sun_df_pkl := Some sun_df |},
       Ok sun_df)
  end.

(* ------------------------------------------------------------------ *)
(** ** The whole synchronisation, as the dashboard callbacks chain it *)

(** What one run did: the provider requests of step2, of step4, the disk
    it left and how it ended. *)
Record Run : Type := mkRun {
  missing_dates : list Z;
  sleep_requests : list (Z * Z);
  sun_requests : list Z;
  disk_after : Disk;
  outcome : result unit
}.

Definition run_pipeline (w : World) (disk : Disk) : Run :=
  let '(_, nights_df, new_req_dates_ls) := step0 w disk in
  if login w then
    let '(requests, disk2, r2) := step2 w disk new_req_dates_ls in
    match r2 with
    | Raise e => mkRun new_req_dates_ls requests [] disk2 (Raise e)
    | Ok data =>
        let '(disk3, r3) := step3 w disk2 nights_df data new_req_dates_ls in
        match r3 with
        | Raise e => mkRun new_req_dates_ls requests [] disk3 (Raise e)
        | Ok (_, _, complete_dates_ls) =>
            let '(sun_reqs, disk4, r4) := step4 w disk3 complete_dates_ls in
            match r4 with
            | Raise e => mkRun new_req_dates_ls requests sun_reqs disk4 (Raise e)
            | Ok _ => mkRun new_req_dates_ls requests sun_reqs disk4 (Ok tt)
            end
        end
    end
  else mkRun new_req_dates_ls [] [] disk (Raise LoginError).

(* ------------------------------------------------------------------ *)
(** ** daterange, as the loop the script runs *)

(** [date_ls[-1]]; the list is never empty where the script reads it. *)
Definition last_date (date_ls : list Z) : Z := last date_ls 0.

(** [date_ls = [date1]; for n in range((date2 - date1).days):
    date_ls.append(date_ls[-1] + timedelta(days=1))]. *)
Definition daterange_loop (date1 date2 : Z) : list Z :=
  fold_left (fun date_ls (_ : nat) => date_ls ++ [last_date date_ls + 1])
            (seq 0 (Z.to_nat (date2 - date1))) [date1].


(* ================================================================== *)
(** * data_mod.py: the tables of [data_backup/], cut at the trim date *)

Definition trim_date : Z := days_from_civil 2019 12 6.

(** The script reads each table from [data_backup/] and writes its rows of
    up to [trim_date] to [data/], one table after the other.  The result
    is the [data/] directory afterwards and, if [pd.read_pickle] found no
    file, the name of that file ([FileNotFoundError]). *)
Definition data_mod (data_backup data : Disk) : Disk * option string :=
  match all_sleep_descr_df_pkl data_backup with
  | None => (data, Some "data_backup/all_sleep_descr_df.pkl"%string)
  | Some sleep_descr_df =>
  let sleep_descr_df_trim :=
    filter (fun r => d_Prev_Day r <=? trim_date) sleep_descr_df in
  let data :=
    {| garmin_sleep_df_pkl := garmin_sleep_df_pkl data;
       new_garmin_sleep_json := new_garmin_sleep_json data;
       all_sleep_descr_df_pkl := Some sleep_descr_df_trim;
       all_sleep_event_df_pkl := all_sleep_event_df_pkl data;
       sun_df_pkl := sun_df_pkl data |} in
  match all_sleep_event_df_pkl data_backup with
  | None => (data, Some "data_backup/all_sleep_event_df.pkl"%string)
  | Some sleep_event_df =>
  let sleep_event_df_trim :=
    filter (fun r => e_Prev_Day r <=? trim_date) sleep_event_df in
  let data :=
    {| garmin_sleep_df_pkl := garmin_sleep_df_pkl data;
       new_garmin_sleep_json := new_garmin_sleep_json data;
       all_sleep_descr_df_pkl := all_sleep_descr_df_pkl data;
       all_sleep_event_df_pkl := Some sleep_event_df_trim;
       sun_df_pkl := sun_df_pkl data |} in
  match sun_df_pkl data_backup with
  | None => (data, Some "data_backup/sun_df.pkl"%string)
  | Some sun_df =>
  let sun_df_trim := filter (fun r => sun_Date r <=? trim_date) sun_df in
  let data :=
    {| garmin_sleep_df_pkl := garmin_sleep_df_pkl data;
       new_garmin_sleep_json := new_garmin_sleep_json data;
       all_sleep_descr_df_pkl := all_sleep_descr_df_pkl data;
       all_sleep_event_df_pkl := all_sleep_event_df_pkl data;
       sun_df_pkl := Some sun_df_trim |} in
  match garmin_sleep_df_pkl data_backup with
  | None => (data, Some "data_backup/garmin_sleep_df.pkl"%string)
  | Some garmin_df =>
  let garmin_df_trim :=
    filter (fun r => Prev_Day r <=? trim_date) garmin_df in
  ({| garmin_sleep_df_pkl := Some garmin_df_trim;
      new_garmin_sleep_json := new_garmin_sleep_json data;
      all_sleep_descr_df_pkl := all_sleep_descr_df_pkl data;
      all_sleep_event_df_pkl := all_sleep_event_df_pkl data;
      sun_df_pkl := sun_df_pkl data |},
   None)
  end end end end.

(* ================================================================== *)
(** * app.py: what the overview graph shows *)

(** [react_clicks]: a filter button is on after an even number of clicks;
    [color_opts[mask]] is the second colour when the mask is true. *)
Definition react_clicks (n : option Z) : bool * string :=
  let n := match n with None => 0 | Some n => n end in
  let mask := n mod 2 =? 0 in
  (mask, if mask then "primary"%string else "light"%string).

(** [[val for i, val in enumerate(vals) if mask[i]]], for lists of the same
    length. *)
Definition enumerate_if {A} (vals : list A) (mask : list bool) : list A :=
  map fst (filter snd (combine vals mask)).

Definition react_tod_clicks (wn_clicks offn_clicks : option Z)
  : string * string * list bool :=
  let '(wn_mask, wn_color) := react_clicks wn_clicks in
  let '(offn_mask, offn_color) := react_clicks offn_clicks in
  let tod_mask := [wn_mask; offn_mask] in
  let tod_vals := [true; false] in
  (wn_color, offn_color, enumerate_if tod_vals tod_mask).

(** The seven colours, Monday first, and [dow_filter]. *)
Definition react_dow_clicks
    (mon_clicks tue_clicks wed_clicks thu_clicks fri_clicks sat_clicks
     sun_clicks : option Z) : list string * list DayName :=
  let '(mon_mask, mon_color) := react_clicks mon_clicks in
  let '(tue_mask, tue_color) := react_clicks tue_clicks in
  let '(wed_mask, wed_color) := react_clicks wed_clicks in
  let '(thu_mask, thu_color) := react_clicks thu_clicks in
  let '(fri_mask, fri_color) := react_clicks fri_clicks in
  let '(sat_mask, sat_color) := react_clicks sat_clicks in
  let '(sun_mask, sun_color) := react_clicks sun_clicks in
  let dow_mask := [mon_mask; tue_mask; wed_mask; thu_mask;
                   fri_mask; sat_mask; sun_mask] in
  let dow_vals := [Monday; Tuesday; Wednesday; Thursday;
                   Friday; Saturday; Sunday] in
  ([mon_color; tue_color; wed_color; thu_color; fri_color; sat_color;
    sun_color],
   enumerate_if dow_vals dow_mask).

(** A bound of a Python slice over [len] rows: negative bounds count from
    the end, and every bound is clipped to the rows there are. *)
Definition slice_bound (len i : Z) : Z :=
  if i <? 0 then Z.max (i + len) 0 else Z.min i len.

(** [df.iloc[start:stop, :]]. *)
Definition iloc_slice {A} (df : list A) (start stop : Z) : list A :=
  let len := Z.of_nat (length df) in
  let start := slice_bound len start in
  let stop := slice_bound len stop in
  firstn (Z.to_nat (stop - start)) (skipn (Z.to_nat start) df).

Definition DayName_eqb (a b : DayName) : bool :=
  match a, b with
  | Monday, Monday | Tuesday, Tuesday | Wednesday, Wednesday
  | Thursday, Thursday | Friday, Friday | Saturday, Saturday
  | Sunday, Sunday => true
  | _, _ => false
  end.

(** [mask_df["Day"].isin(dow_filter)] for one row; a missing day is in no
    list of day names. *)
Definition Day_isin (dow_filter : list DayName) (r : DescrRow) : bool :=
  match d_Day r with
  | Some d => existsb (DayName_eqb d) dow_filter
  | None => false
  end.

Definition Is_Workday_isin (tod_filter : list bool) (r : DescrRow) : bool :=
  existsb (Bool.eqb (d_Is_Workday r)) tod_filter.

(** The rows [update_graph] plots: the slider's slice of the description
    table, then the day and type-of-day filters. *)
Definition mask_df_of (date_range : option (Z * Z))
    (dow_filter : list DayName) (tod_filter : list bool)
    (sleep_descr_df : list DescrRow) : list DescrRow :=
  let mask_df :=
    match date_range with
    | None => sleep_descr_df
    | Some (first, last) => iloc_slice sleep_descr_df first last
    end in
  filter (fun r => Day_isin dow_filter r && Is_Workday_isin tod_filter r)
         mask_df.

(** [sleep_event_df[Sleep_Session_ID.isin(mask_df.Sleep_Session_ID)]]. *)
Definition data_df_of (mask_df : list DescrRow)
    (sleep_event_df : list EventRow) : list EventRow :=
  filter (fun e => isin (e_Sleep_Session_ID e)
                        (map d_Sleep_Session_ID mask_df))
         sleep_event_df.

(** The data selection of [update_graph]: [mask_df] and [data_df]. *)
Definition update_graph (date_range : option (Z * Z))
    (mon_clicks tue_clicks wed_clicks thu_clicks fri_clicks sat_clicks
     sun_clicks wn_clicks offn_clicks : option Z)
    (sleep_descr_df : list DescrRow) (sleep_event_df : list EventRow)
  : list DescrRow * list EventRow :=
  let '(_, _, tod_filter) := react_tod_clicks wn_clicks offn_clicks in
  let '(_, dow_filter) :=
    react_dow_clicks mon_clicks tue_clicks wed_clicks thu_clicks fri_clicks
                     sat_clicks sun_clicks in
  let mask_df := mask_df_of date_range dow_filter tod_filter sleep_descr_df in
  (mask_df, data_df_of mask_df sleep_event_df).

(** The slider settings the last sync callback returns: minimum, maximum
    and the two handles.  The right handle always moves to the maximum. *)
Definition overview_slider (overview_slider_vals : option (Z * Z))
    (sleep_descr_df : list DescrRow) : Z * Z * (Z * Z) :=
  let overview_slider_min := 0 in
  let overview_slider_max := Z.of_nat (length sleep_descr_df) - 1 in
  (overview_slider_min, overview_slider_max,
   match overview_slider_vals with
   | None => (0, overview_slider_max)
   | Some (left_val, _) => (left_val, overview_slider_max)
   end).

(** [ls.index(x)]: the first position of [x]; [ValueError] without one. *)
Fixpoint index (x : Z) (ls : list Z) : result nat :=
  match ls with
  | [] => Raise ValueError
  | y :: t => if y =? x then Ok 0%nat else k <- index x t ;; Ok (S k)
  end.

(** [[prev_day_ls.index(dt.datetime(year, 1, 1)) for year in year_ls]]. *)
Fixpoint mark_dict_keys (prev_day_ls : list Z) (year_ls : list Z)
  : result (list nat) :=
  match year_ls with
  | [] => Ok []
  | y :: t =>
      k <- index (days_from_civil y 1 1) prev_day_ls ;;
      keys <- mark_dict_keys prev_day_ls t ;;
      Ok (k :: keys)
  end.

(** The marks of the slider: the position of 1 January of every year of
    the table but the first, with that year as label. *)
Definition overview_slider_marks (sleep_descr_df : list DescrRow)
  : result (list (nat * Z)) :=
  let prev_day_ls := map d_Prev_Day sleep_descr_df in
  let year_ls := tl (unique (map year prev_day_ls)) in
  mark_dict_keys <- mark_dict_keys prev_day_ls year_ls ;;
  Ok (combine mark_dict_keys year_ls).

(* ================================================================== *)
(** * Vocabulary of the properties *)

Unset Implicit Arguments.

(** Ascending in [key], every row against every later row. *)
Definition ascending {A} (key : A -> Z) (l : list A) : Prop :=
  StronglySorted (fun a b => key a <= key b) l.

(** Dates of the rows with a null total at the head of [rows], up to the
    first row with a known total; [None] when there is no such row. *)
Fixpoint leading_unknown (rows : list Night) : option (list Z) :=
  match rows with
  | [] => None
  | r :: t =>
      if isnull (Total_Dur r)
      then option_map (cons (Prev_Day r)) (leading_unknown t)
      else Some []
  end.

(** What the merge is a rearrangement of. *)
Definition merge_input (nights_df new_nights_df : list Night) : list Night :=
  nights_df
  ++ filter (fun r => negb (isin (Prev_Day r) (map Prev_Day nights_df)))
            new_nights_df.

(** The tables a disk holds, an absent file read as the empty table. *)
Definition stored_nights (disk : Disk) : list Night :=
  match garmin_sleep_df_pkl disk with Some df => df | None => [] end.

Definition stored_sun (disk : Disk) : list SunRow :=
  match sun_df_pkl disk with Some df => df | None => [] end.

(** The records among the items of a JSON list. *)
Definition records_of (data : list Item) : list RawNight :=
  flat_map (fun i => match i with
                     | Record_item r => [r]
                     | Byte_item _ => []
                     end) data.

Definition stored_json (disk : Disk) : list RawNight :=
  match new_garmin_sleep_json disk with
  | Some data => records_of data
  | None => []
  end.

(** A fetched record brings nothing new for an archive when its night is
    archived already, or when its total duration is still unknown and its
    night comes after every archived one. *)
Definition nothing_new (archive : list Night) (raw : RawNight) : Prop :=
  In (Prev_Day (converter_row raw)) (map Prev_Day archive)
  \/ (sleepTimeSeconds raw = None
      /\ Forall (fun a => Prev_Day a < Prev_Day (converter_row raw)) archive).

(** The period the loop asks for when [d0 :: rest] is still missing. *)
Definition next_period (d0 : Z) (rest : list Z) : Z * Z :=
  let period_start := fold_left Z.min rest d0 in
  let latest := fold_left Z.max rest d0 in
  (period_start,
   if max_period_delta - 1 <? latest - period_start
   then period_start + max_period_delta
   else latest).

(** A request covers at most 31 days from its first to its last date. *)
Definition within_window (q : Z * Z) : Prop :=
  fst q <= snd q <= fst q + max_period_delta.

(** Request [a] ends before request [b] starts. *)
Definition ends_before (a b : Z * Z) : Prop := snd a < fst b.

Definition covers (q : Z * Z) (d : Z) : Prop := fst q <= d <= snd q.

(** The items of the body of the reply to a request: the records of an
    ASCII body, the bytes of a decompressed one. *)
Definition reply (w : World) (q : Z * Z) : list Item :=
  match content (dailySleepsByDate w (fst q) (snd q)) with
  | Ascii js => map Record_item js
  | Brotli bytes => map Byte_item bytes
  | Undecodable => []
  end.

(** The request for the period [q] is served: the provider accepts it with
    status 200 and the body can be read. *)
Definition request_ok (w : World) (q : Z * Z) : Prop :=
  status_code (dailySleepsByDate w (fst q) (snd q)) = 200
  /\ content (dailySleepsByDate w (fst q) (snd q)) <> Undecodable.

(** The exception a request that is not served ends in. *)
Definition refusal (w : World) (q : Z * Z) : exn :=
  if status_code (dailySleepsByDate w (fst q) (snd q)) =? 200
  then BrotliError
  else ResponseError (status_code (dailySleepsByDate w (fst q) (snd q))).

(** [x] is the normalised time of day of the clock time [t]: the decimal
    hour itself up to noon, 24 less after noon, and so in (-12, 12]. *)
Definition normalized_from (t : Timestamp) (x : Q) : Prop :=
  ((time_of_day t <= 12 -> x == time_of_day t)
   /\ (12 < time_of_day t -> x == time_of_day t - 24)
   /\ -12 < x /\ x <= 12)%Q.

Definition almanac_ok (w : World) (d : Z) : Prop :=
  status_code (sunrise_sunset w d) = 200.

Definition almanac_row (w : World) (d : Z) : SunRow :=
  sun_row w d (content (sunrise_sunset w d)).

(** What the loop does to a row it visits. *)
Definition adjust_row (x : Z * option Timestamp) : Z * option Timestamp :=
  match x with
  | (prev_day, Some bed) =>
      if hour bed <? 12 then (prev_day - 1, Some bed) else x
  | _ => x
  end.

(** A request that starts at a missing date and does not reach beyond the
    missing dates. *)
Definition inside_missing (dates : list Z) (q : Z * Z) : Prop :=
  In (fst q) dates /\ exists d, In d dates /\ snd q <= d.

(** The two event rows of a session: falling asleep, then waking up. *)
Definition events_of_session (w : World) (x : Z * SleepRow) : list EventRow :=
  [mkEventRow (fst x) (s_Prev_Day (snd x)) Fell_Asleep (s_Bed_Time (snd x))
              (s_Bed_ToD (snd x)) (option_map (strftime w) (s_Bed_Time (snd x)));
   mkEventRow (fst x) (s_Prev_Day (snd x)) Woke_Up (s_Wake_Time (snd x))
              (s_Wake_ToD (snd x))
              (option_map (strftime w) (s_Wake_Time (snd x)))].

(** Session, date and kind of an event row. *)
Definition event_head (e : EventRow) : Z * Z * EventName :=
  (e_Sleep_Session_ID e, e_Prev_Day e, e_Event e).

(** The two event heads that belong to a description row. *)
Definition expected_events (d : DescrRow) : list (Z * Z * EventName) :=
  [(d_Sleep_Session_ID d, d_Prev_Day d, Fell_Asleep);
   (d_Sleep_Session_ID d, d_Prev_Day d, Woke_Up)].

(** [disk] with the solar archive replaced. *)
Definition with_sun_df (disk : Disk) (sun_df : list SunRow) : Disk :=
  {| garmin_sleep_df_pkl := garmin_sleep_df_pkl disk;
     new_garmin_sleep_json := new_garmin_sleep_json disk;
     all_sleep_descr_df_pkl := all_sleep_descr_df_pkl disk;
     all_sleep_event_df_pkl := all_sleep_event_df_pkl disk;
     sun_df_pkl := Some sun_df |}.

(** The clock time in decimal hours that a normalised time of day stands
    for. *)
Definition clock_of_tod (x : Q) : Q :=
  if Qgtb 0 x then (x + 24)%Q else x.

(** The row [ms2_df] holds for a legacy entry; [visited] tells whether the
    after-midnight loop looked at it. *)
Definition legacy_row (w : World) (visited : bool) (a : ActivityRow) : SleepRow :=
  let bed := tz_localize w (Start_Time a) in
  let wake := tz_localize w (Wake_Up_Time a) in
  {| s_Prev_Day :=
       if visited then fst (adjust_row (Date a, bed)) else Date a;
     s_Bed_Time := bed;
     s_Wake_Time := wake;
     s_Awake_Dur := None;
     s_Light_Dur := Seconds_Asleep_Light a;
     s_Deep_Dur := Seconds_Asleep_Restful a;
     s_Total_Dur :=
       add_dur (add_dur (Seconds_Awake a) (Seconds_Asleep_Light a))
               (Seconds_Asleep_Restful a);
     s_Bed_ToD := Bed_ToD_of bed;
     s_Wake_ToD := Wake_ToD_of wake |}.

(** The rows of a table of up to the trim date of data_mod.py. *)
Definition trimmed {A} (date : A -> Z) (df : list A) : list A :=
  filter (fun r => date r <=? trim_date) df.

(** All four tables of a directory are there. *)
Definition four_tables (d : Disk) : Prop :=
  all_sleep_descr_df_pkl d <> None /\ all_sleep_event_df_pkl d <> None
  /\ sun_df_pkl d <> None /\ garmin_sleep_df_pkl d <> None.

(** The button has been clicked an even number of times (never clicked
    counts as zero times). *)
Definition button_on (n : option Z) : bool :=
  Z.even (match n with None => 0 | Some n => n end).

(** The clicks of the button of a day. *)
Definition day_clicks (mon tue wed thu fri sat sun : option Z) (d : DayName)
  : option Z :=
  match d with
  | Monday => mon | Tuesday => tue | Wednesday => wed | Thursday => thu
  | Friday => fri | Saturday => sat | Sunday => sun
  end.

(** [s] holds some of the rows of [l], in the order of [l]. *)
Inductive subtable {A : Type} : list A -> list A -> Prop :=
| subtable_nil : subtable [] []
| subtable_skip x s l : subtable s l -> subtable s (x :: l)
| subtable_keep x s l : subtable s l -> subtable (x :: s) (x :: l).

(** No row of the table has an index label as large as the number of its
    rows: [df.loc[len(df)] = row] then adds a row.  Positional labels are
    of this kind, and so are the labels a table keeps when rows are taken
    out of it. *)
Definition labels_below {A} (index : nat -> Z) (df : list A) : Prop :=
  forall i, (i < length df)%nat -> index i < Z.of_nat (length df).

(** Some row of the table has the number of rows as its index label:
    [df.loc[len(df)] = row] then overwrites. *)
Definition label_len_present {A} (index : nat -> Z) (df : list A) : Prop :=
  exists i, (i < length df)%nat /\ index i = Z.of_nat (length df).

(** The table in which [row] has taken the place of every row labelled
    [label]. *)
Definition overwritten {A} (label : Z) (row : A) (df : list (Z * A))
  : list (Z * A) :=
  map (fun x => if fst x =? label then (label, row) else x) df.

(** [all_df] of step3: the archive in the shape of the combined table,
    followed by the legacy rows. *)
Definition all_df_of (w : World) (nights_df : list Night) : list SleepRow :=
  map garmin_row nights_df ++ ms3_rows w.

(** Days from 1 March of the first year of a 400-year era to 1 March of
    its year [yoe]. *)
Definition year_start (yoe : Z) : Z := 365 * yoe + yoe / 4 - yoe / 100.

(* ================================================================== *)
(** * Example data *)

(** Eastern Standard Time all year round. *)
Definition est : Z := -18000.

Definition jan (d : Z) : Z := days_from_civil 2020 1 d.

(** Seconds since the epoch of the naive local time [h:m] on [y-mo-d]. *)
Definition naive (y mo d h m : Z) : Z :=
  days_from_civil y mo d * 86400 + h * 3600 + m * 60.

(** A night of which only the date and the total duration matter. *)
Definition night_of (d : Z) (total : option Z) : Night :=
  mkNight d None None None None None total None None.

(** A provider record for the night that ended on [ymd]: asleep at 04:00
    UTC, awake at 12:00 UTC of that day, with the given total. *)
Definition raw_night (ymd : Z * Z * Z) (total : option Z) : RawNight :=
  let '(y, m, d) := ymd in
  let midnight := days_from_civil y m d * 86400 in
  {| sleepStartTimestampGMT := Some ((midnight + 4 * 3600) * 1000);
     sleepEndTimestampGMT := Some ((midnight + 12 * 3600) * 1000);
     calendarDate := ymd;
     deepSleepSeconds := Some 7200;
     lightSleepSeconds := Some 18000;
     sleepTimeSeconds := total;
     awakeSleepSeconds := Some 3600;
     napTimeSeconds := None;
     sleepWindowConfirmed := Some true |}.

(** A legacy sleep entry of the given date, start and end, all of it light
    sleep. *)
Definition legacy_sleep (date start wake : Z) : ActivityRow :=
  {| Event_Type := "Sleep"%string;
     Date := date;
     Start_Time := Some start;
     Wake_Up_Time := Some wake;
     Seconds_Asleep_Light := Some (wake - start);
     Seconds_Asleep_Restful := Some 0;
     Seconds_Awake := Some 0 |}.

(** A provider that knows the listed records and answers a request with
    those whose calendar date lies in the requested period. *)
Definition provider_of (records : list RawNight) (s e : Z)
  : Response Body :=
  mkResponse 200
    (Ascii (filter (fun r => let '(y, m, d) := calendarDate r in
                             (s <=? days_from_civil y m d)
                             && (days_from_civil y m d <=? e))
                   records)).

(** Some federal holidays of 2018 to 2020. *)
Definition some_holidays : list Z :=
  [days_from_civil 2018 1 1; days_from_civil 2018 2 19;
   days_from_civil 2018 11 22; days_from_civil 2018 12 25;
   days_from_civil 2019 11 28; days_from_civil 2019 12 25;
   days_from_civil 2020 1 1; days_from_civil 2020 1 20].

(** Index labels that are the positions of the rows. *)
Definition positional_index (all_df : list SleepRow) (i : nat) : Z :=
  Z.of_nat i.

(** A world with the given date range, provider and legacy rows; the
    almanac always answers with sunrise 12:05 and sunset 22:30 UTC, and
    [all_df] has positional labels. *)
Definition demo_world (first last : Z)
    (provider : Z -> Z -> Response Body)
    (legacy : list ActivityRow) : World :=
  {| start_date := first;
     end_date := last;
     login := true;
     dailySleepsByDate := provider;
     eastern_offset := fun _ => est;
     eastern_offset_wall := fun _ => Some est;
     activity_summary := legacy;
     all_df_index := positional_index;
     federal_holidays :=
       fun a b => filter (fun h => (a <=? h) && (h <=? b)) some_holidays;
     sunrise_sunset := fun _ => mkResponse 200 ((12, 5, 0), (22, 30, 0));
     strftime := fun _ => EmptyString |}.

Definition empty_disk : Disk := mkDisk None None None None None.

(** The range is 10 and 11 January 2020; the provider only knows the
    night that ended on the 11th, which began on the 10th. *)
Definition one_night_world : World :=
  demo_world (jan 10) (jan 11)
    (provider_of [raw_night (2020, 1, 11) (Some 27000)]) [].

(** Two runs in [one_night_world], the first one on an empty data
    directory. *)
Definition first_run : Run := run_pipeline one_night_world empty_disk.
Definition second_run : Run :=
  run_pipeline one_night_world (disk_after first_run).

(** A night in bed from 23:00 to 14:30 local time (04:00 to 19:30 UTC). *)
Definition long_morning : Night :=
  {| Prev_Day := jan 10;
     Bed_Time := Some (mkTimestamp ((jan 11 * 86400 + 4 * 3600) * 1000) est);
     Wake_Time :=
       Some (mkTimestamp ((jan 11 * 86400 + 19 * 3600 + 1800) * 1000) est);
     Awake_Dur := Some 1800;
     Light_Dur := Some 36000;
     Deep_Dur := Some 18000;
     Total_Dur := Some 54000;
     Nap_Dur := None;
     Window_Conf := Some true |}.

(** Saturday 22, Monday 24 and Wednesday 26 December 2018, nothing else
    known. *)
Definition christmas_rows : list (Z * SleepRow) :=
  with_session_id [placeholder_row (days_from_civil 2018 12 22);
                   placeholder_row (days_from_civil 2018 12 24);
                   placeholder_row (days_from_civil 2018 12 26)].

Definition christmas_world : World :=
  demo_world (days_from_civil 2018 12 1) (days_from_civil 2018 12 31)
             (provider_of []) [].

Definition christmas_descr : list DescrRow :=
  Eval vm_compute in
    match all_descr_df_of christmas_world christmas_rows with
    | Ok descr => descr
    | Raise _ => []
    end.

(** Saturday 3 to Monday 5 March 2018; the provider knows the nights that
    ended on the 4th and on the 5th. *)
Definition march_world : World :=
  demo_world (days_from_civil 2018 3 3) (days_from_civil 2018 3 5)
    (provider_of [raw_night (2018, 3, 4) (Some 27000);
                  raw_night (2018, 3, 5) (Some 27000)]) [].

(** A world whose almanac refuses 11 January 2020 with status 400. *)
Definition refusing_world : World :=
  {| start_date := jan 9;
     end_date := jan 12;
     login := true;
     dailySleepsByDate := provider_of [];
     eastern_offset := fun _ => est;
     eastern_offset_wall := fun _ => Some est;
     activity_summary := [];
     all_df_index := positional_index;
     federal_holidays := fun _ _ => [];
     sunrise_sunset :=
       fun d => mkResponse (if d =? jan 11 then 400 else 200)
                           ((12, 5, 0), (22, 30, 0));
     strftime := fun _ => EmptyString |}.

(** A disk whose solar archive holds 9 January 2020 only. *)
Definition disk_with_one_sun_row : Disk :=
  {| garmin_sleep_df_pkl := None;
     new_garmin_sleep_json := None;
     all_sleep_descr_df_pkl := None;
     all_sleep_event_df_pkl := None;
     sun_df_pkl := Some [almanac_row refusing_world (jan 9)] |}.

(** Three hours asleep from 23:30 on 2 May 2016, followed by a full night;
    the script reads both from the legacy files. *)
Definition short_night_then_full_night : list ActivityRow :=
  [legacy_sleep (days_from_civil 2016 5 2)
                (naive 2016 5 2 23 30) (naive 2016 5 3 2 30);
   legacy_sleep (days_from_civil 2016 5 3)
                (naive 2016 5 3 22 0) (naive 2016 5 4 6 0)].

Definition short_night_world : World :=
  demo_world (jan 1) (jan 2) (provider_of []) short_night_then_full_night.

(** Two legacy sessions that both began after midnight: at 00:40 on 2 May
    and at 01:15 on 3 May 2016. *)
Definition two_late_nights : list ActivityRow :=
  [legacy_sleep (days_from_civil 2016 5 2)
                (naive 2016 5 2 0 40) (naive 2016 5 2 8 0);
   legacy_sleep (days_from_civil 2016 5 3)
                (naive 2016 5 3 1 15) (naive 2016 5 3 8 30)].

Definition two_late_nights_world : World :=
  demo_world (jan 1) (jan 2) (provider_of []) two_late_nights.

(** A provider that accepts the requests starting up to 1 February 2020
    and answers the later ones with status 429. *)
Definition busy_provider (s e : Z) : Response Body :=
  mkResponse (if jan 1 + 31 <? s then 429 else 200) (Ascii []).

Definition busy_world : World :=
  demo_world (jan 1) (jan 1 + 64) busy_provider [].


(** [one_night_world] with an almanac that is out of service. *)
Definition dark_world : World :=
  {| start_date := start_date one_night_world;
     end_date := end_date one_night_world;
     login := true;
     dailySleepsByDate := dailySleepsByDate one_night_world;
     eastern_offset := eastern_offset one_night_world;
     eastern_offset_wall := eastern_offset_wall one_night_world;
     activity_summary := [];
     all_df_index := positional_index;
     federal_holidays := federal_holidays one_night_world;
     sunrise_sunset := fun _ => mkResponse 503 ((0, 0, 0), (0, 0, 0));
     strftime := strftime one_night_world |}.

(** A backup directory with nights before and after 6 December 2019. *)
Definition backup_disk : Disk :=
  {| garmin_sleep_df_pkl :=
       Some [night_of (days_from_civil 2019 12 5) (Some 27000);
             night_of (days_from_civil 2019 12 6) (Some 25200);
             night_of (days_from_civil 2019 12 7) (Some 28800)];
     new_garmin_sleep_json := None;
     all_sleep_descr_df_pkl := Some [];
     all_sleep_event_df_pkl := Some [];
     sun_df_pkl := Some [] |}.

(** A backup directory without the solar archive. *)
Definition backup_without_sun : Disk :=
  {| garmin_sleep_df_pkl := garmin_sleep_df_pkl backup_disk;
     new_garmin_sleep_json := None;
     all_sleep_descr_df_pkl := Some christmas_descr;
     all_sleep_event_df_pkl := Some [];
     sun_df_pkl := None |}.

(** A range from 1 December 2019 to 10 December 2019. *)
Definition december_world : World :=
  demo_world (days_from_civil 2019 12 1) (days_from_civil 2019 12 10)
             (provider_of []) [].

(** An archive with the nights of Saturday 3 and Monday 5 March 2018, and
    the tables step3 derives from it. *)
Definition march_archive : list Night :=
  [night_of (days_from_civil 2018 3 3) (Some 27000);
   night_of (days_from_civil 2018 3 5) (Some 25200)].

Definition march_tables : list DescrRow * list EventRow * list Z :=
  match derive march_world march_archive with
  | Ok tables => tables
  | Raise _ => ([], [], [])
  end.

(** An archive with the nights of 30 December 2019 and 2 January 2020,
    and the tables step3 derives from it. *)
Definition new_year_archive : list Night :=
  [night_of (days_from_civil 2019 12 30) (Some 27000);
   night_of (days_from_civil 2020 1 2) (Some 25200)].

Definition new_year_tables : list DescrRow * list EventRow * list Z :=
  match derive one_night_world new_year_archive with
  | Ok tables => tables
  | Raise _ => ([], [], [])
  end.

(** An archive of three nights around the turn of the year 2020 whose
    middle row carries the index label 3, as a row keeps the label of the
    download it came with, and the tables step3 derives from it. *)
Definition stale_archive : list Night :=
  [night_of (days_from_civil 2019 12 30) (Some 27000);
   night_of (days_from_civil 2019 12 31) (Some 26100);
   night_of (days_from_civil 2020 1 3) (Some 25200)].

Definition stale_index (all_df : list SleepRow) (i : nat) : Z :=
  nth i [0; 3; 1] 0.

Definition stale_world : World :=
  {| start_date := start_date one_night_world;
     end_date := end_date one_night_world;
     login := true;
     dailySleepsByDate := dailySleepsByDate one_night_world;
     eastern_offset := eastern_offset one_night_world;
     eastern_offset_wall := eastern_offset_wall one_night_world;
     activity_summary := [];
     all_df_index := stale_index;
     federal_holidays := federal_holidays one_night_world;
     sunrise_sunset := sunrise_sunset one_night_world;
     strftime := strftime one_night_world |}.

Definition stale_tables : list DescrRow * list EventRow * list Z :=
  match derive stale_world stale_archive with
  | Ok tables => tables
  | Raise _ => ([], [], [])
  end.

(** [one_night_world] with a provider whose reply is not ASCII and
    decompresses to two bytes. *)
Definition brotli_world : World :=
  demo_world (jan 10) (jan 11)
    (fun _ _ => mkResponse 200 (Brotli [91; 93])) [].

(* ================================================================== *)
(** * Properties *)

(** ** Facts about the column helpers *)

Lemma isin_In (d : Z) (col : list Z) : isin d col = true <-> In d col.
Proof.
  unfold isin. rewrite existsb_exists. split.
  - intros [x [Hx Heq]]. apply Z.eqb_eq in Heq. now subst.
  - intros H. exists d. split; [assumption | apply Z.eqb_refl].
Qed.

Lemma isin_false (d : Z) (col : list Z) : isin d col = false <-> ~ In d col.
Proof.
  rewrite <- isin_In. destruct (isin d col); split; congruence.
Qed.

Section SortFacts.
Context {A : Type}.
Variable key : A -> Z.

Lemma insert_row_perm (r : A) (l : list A) :
  Permutation (insert_row key r l) (r :: l).
Proof.
  induction l as [|x t IH]; simpl.
  - apply Permutation_refl.
  - destruct (key r <=? key x).
    + apply Permutation_refl.
    + eapply perm_trans; [apply perm_skip, IH | apply perm_swap].
Qed.

Lemma sort_values_perm (l : list A) : Permutation (sort_values key l) l.
Proof.
  induction l as [|r t IH]; simpl.
  - constructor.
  - eapply perm_trans; [apply insert_row_perm | now apply perm_skip].
Qed.

Lemma sort_values_In (l : list A) (r : A) :
  In r (sort_values key l) <-> In r l.
Proof.
  split; apply Permutation_in;
    [apply sort_values_perm | apply Permutation_sym, sort_values_perm].
Qed.

Lemma sort_values_length (l : list A) :
  length (sort_values key l) = length l.
Proof. apply Permutation_length, sort_values_perm. Qed.

Lemma insert_row_ascending (r : A) (l : list A) :
  ascending key l -> ascending key (insert_row key r l).
Proof.
  unfold ascending. induction 1 as [|x t Ht IH Hx]; simpl.
  - repeat constructor.
  - destruct (key r <=? key x) eqn:E.
    + apply Z.leb_le in E. constructor.
      * now constructor.
      * constructor; [assumption|].
        eapply Forall_impl; [|exact Hx]. simpl. intros; lia.
    + apply Z.leb_gt in E. constructor; [assumption|].
      eapply Permutation_Forall;
        [apply Permutation_sym, insert_row_perm|].
      constructor; [lia | assumption].
Qed.

Lemma sort_values_ascending (l : list A) : ascending key (sort_values key l).
Proof.
  induction l as [|r t IH]; simpl.
  - constructor.
  - now apply insert_row_ascending.
Qed.

(** Sorting a table that is already in order changes nothing. *)
Lemma sort_values_fixed (l : list A) : ascending key l -> sort_values key l = l.
Proof.
  unfold ascending. induction 1 as [|x t Ht IH Hx]; simpl; [reflexivity|].
  rewrite IH. destruct t as [|y t']; simpl; [reflexivity|].
  inversion Hx as [|? ? Hxy _]; subst.
  apply Z.leb_le in Hxy. now rewrite Hxy.
Qed.

Lemma filter_ascending (f : A -> bool) (l : list A) :
  ascending key l -> ascending key (filter f l).
Proof.
  unfold ascending. induction 1 as [|x t Ht IH Hx]; simpl.
  - constructor.
  - destruct (f x); [|assumption].
    constructor; [assumption|].
    rewrite Forall_forall in *. intros y Hy.
    apply filter_In in Hy. now apply Hx.
Qed.

Lemma ascending_map_Sorted (l : list A) :
  ascending key l -> Sorted Z.le (map key l).
Proof.
  unfold ascending. induction 1 as [|x t Ht IH Hx]; simpl.
  - constructor.
  - constructor; [assumption|].
    destruct t as [|y t']; simpl; constructor.
    now inversion Hx.
Qed.

Lemma NoDup_keys_filter (f : A -> bool) (l : list A) :
  NoDup (map key l) -> NoDup (map key (filter f l)).
Proof.
  induction l as [|x t IH]; simpl; intros H; [constructor|].
  inversion H as [|? ? Hnin Hnd]; subst.
  destruct (f x); simpl; [|now apply IH].
  constructor; [|now apply IH].
  intros Hin. apply Hnin.
  apply in_map_iff in Hin. destruct Hin as [y [Hy Hin]].
  apply filter_In in Hin. apply in_map_iff. exists y. tauto.
Qed.
End SortFacts.

Lemma dedup_sorted_In (d : Z) (l : list Z) :
  In d (dedup_sorted l) <-> In d l.
Proof.
  induction l as [|x t IH]; [reflexivity|].
  destruct t as [|y t']; [reflexivity|].
  change (dedup_sorted (x :: y :: t'))
    with (if x =? y then dedup_sorted (y :: t')
          else x :: dedup_sorted (y :: t')).
  destruct (x =? y) eqn:E.
  - apply Z.eqb_eq in E. subst. rewrite IH. simpl. tauto.
  - simpl In at 1. rewrite IH. simpl. tauto.
Qed.

Lemma dedup_sorted_strict (l : list Z) :
  StronglySorted Z.le l -> StronglySorted Z.lt (dedup_sorted l).
Proof.
  induction 1 as [|x t Ht IH Hx]; [constructor|].
  destruct t as [|y t']; [repeat constructor|].
  change (dedup_sorted (x :: y :: t'))
    with (if x =? y then dedup_sorted (y :: t')
          else x :: dedup_sorted (y :: t')).
  destruct (x =? y) eqn:E; [assumption|].
  apply Z.eqb_neq in E. constructor; [assumption|].
  rewrite Forall_forall in *. intros z Hz.
  apply -> dedup_sorted_In in Hz.
  assert (x <= y) by (apply Hx; now left).
  inversion Ht as [|? ? _ Hy]; subst. rewrite Forall_forall in Hy.
  destruct Hz as [<- | Hz]; [lia|]. specialize (Hy z Hz). lia.
Qed.

Lemma strict_NoDup (l : list Z) : StronglySorted Z.lt l -> NoDup l.
Proof.
  induction 1 as [|x t Ht IH Hx]; constructor; [|assumption].
  intros Hin. rewrite Forall_forall in Hx. specialize (Hx x Hin). lia.
Qed.

Lemma unique_In (d : Z) (l : list Z) : In d (unique l) <-> In d l.
Proof.
  unfold unique. rewrite dedup_sorted_In. apply sort_values_In.
Qed.

Lemma unique_strict (l : list Z) : StronglySorted Z.lt (unique l).
Proof.
  unfold unique. apply dedup_sorted_strict.
  exact (sort_values_ascending (fun d => d) l).
Qed.

Lemma setdiff1d_In (d : Z) (a b : list Z) :
  In d (setdiff1d a b) <-> In d a /\ ~ In d b.
Proof.
  unfold setdiff1d. rewrite filter_In, unique_In, negb_true_iff, isin_false.
  reflexivity.
Qed.

Lemma filter_strict (f : Z -> bool) (l : list Z) :
  StronglySorted Z.lt l -> StronglySorted Z.lt (filter f l).
Proof.
  induction 1 as [|x t Ht IH Hx]; simpl; [constructor|].
  destruct (f x); [|assumption].
  constructor; [assumption|].
  rewrite Forall_forall in *. intros y Hy. apply filter_In in Hy. now apply Hx.
Qed.

Lemma setdiff1d_strict (a b : list Z) : StronglySorted Z.lt (setdiff1d a b).
Proof. apply filter_strict, unique_strict. Qed.

Lemma setdiff1d_NoDup (a b : list Z) : NoDup (setdiff1d a b).
Proof. apply strict_NoDup, setdiff1d_strict. Qed.

Lemma daterange_In (a b d : Z) :
  In d (daterange a b) <-> a <= d /\ (d <= b \/ d = a).
Proof.
  unfold daterange. rewrite in_map_iff. split.
  - intros [n [<- Hn]]. apply in_seq in Hn. lia.
  - intros H. exists (Z.to_nat (d - a)). split; [lia|].
    apply in_seq. lia.
Qed.

(* ------------------------------------------------------------------ *)
(** ** The trailing-null trim *)

Lemma iloc_from_end {A} (df : list A) (k : nat) (r : A) :
  nth_error (rev df) k = Some r ->
  iloc df (- (Z.of_nat k + 1)) = Ok r.
Proof.
  intros H. rewrite nth_error_rev in H.
  destruct (k <? length df)%nat eqn:E; [|discriminate].
  apply Nat.ltb_lt in E. unfold iloc.
  replace (- (Z.of_nat k + 1) <? 0) with true by (symmetry; apply Z.ltb_lt; lia).
  replace (Z.of_nat (length df) + - (Z.of_nat k + 1))
    with (Z.of_nat (length df - S k)) by lia.
  replace ((0 <=? Z.of_nat (length df - S k))
           && (Z.of_nat (length df - S k) <? Z.of_nat (length df)))
    with true by (symmetry; apply andb_true_iff; split;
                  [apply Z.leb_le | apply Z.ltb_lt]; lia).
  rewrite Nat2Z.id. now rewrite H.
Qed.

Lemma iloc_past_front {A} (df : list A) :
  iloc df (- (Z.of_nat (length df) + 1))
  = Raise (IndexError (- (Z.of_nat (length df) + 1))).
Proof.
  unfold iloc.
  replace (- (Z.of_nat (length df) + 1) <? 0) with true
    by (symmetry; apply Z.ltb_lt; lia).
  replace (0 <=? Z.of_nat (length df) + - (Z.of_nat (length df) + 1))
    with false by (symmetry; apply Z.leb_gt; lia).
  reflexivity.
Qed.

Lemma skipn_all_rev {A} (df : list A) : skipn (length df) (rev df) = [].
Proof. apply skipn_all2. rewrite length_rev. lia. Qed.

Lemma skipn_cons_nth {A} (l : list A) (k : nat) (r : A) :
  nth_error l k = Some r -> skipn k l = r :: skipn (S k) l.
Proof.
  revert k. induction l as [|x t IH]; intros [|k] H; try discriminate.
  - now inversion H.
  - simpl in H. now apply IH.
Qed.

(** The loop, started at [i = k + 1] with enough fuel, computes
    [leading_unknown] of the rows not yet looked at, last row first. *)
Lemma trim_loop_scan (df : list Night) (fuel k : nat) (acc : list Z) :
  (k <= length df)%nat -> (S (length df) <= fuel + k)%nat ->
  trim_loop fuel df (Z.of_nat k + 1) acc =
  match leading_unknown (skipn k (rev df)) with
  | Some l => Ok (acc ++ l)
  | None => Raise (IndexError (- (Z.of_nat (length df) + 1)))
  end.
Proof.
  revert k acc. induction fuel as [|fuel IH]; intros k acc Hk Hfuel; [lia|].
  simpl trim_loop.
  destruct (Nat.eq_dec k (length df)) as [-> | Hne].
  - rewrite iloc_past_front, skipn_all_rev. reflexivity.
  - destruct (nth_error (rev df) k) as [r|] eqn:Hr.
    2: { apply nth_error_None in Hr. rewrite length_rev in Hr. lia. }
    rewrite (iloc_from_end _ _ _ Hr), (skipn_cons_nth _ _ _ Hr).
    cbn [bind leading_unknown].
    replace (Z.of_nat k + 1 <=? Z.of_nat (length df)) with true
      by (symmetry; apply Z.leb_le; lia).
    rewrite andb_true_r.
    destruct (isnull (Total_Dur r)).
    + replace (Z.of_nat k + 1 + 1) with (Z.of_nat (S k) + 1) by lia.
      rewrite IH by lia.
      destruct (leading_unknown (skipn (S k) (rev df))); cbn [option_map];
        [now rewrite <- app_assoc | reflexivity].
    + now rewrite app_nil_r.
Qed.

Lemma unknown_nights_scan (df : list Night) :
  unknown_nights df =
  match leading_unknown (rev df) with
  | Some l => Ok l
  | None => Raise (IndexError (- (Z.of_nat (length df) + 1)))
  end.
Proof.
  unfold unknown_nights.
  change 1 with (Z.of_nat 0 + 1).
  rewrite (trim_loop_scan df (S (length df)) 0%nat []) by lia.
  reflexivity.
Qed.

Lemma leading_unknown_None (rows : list Night) :
  leading_unknown rows = None <->
  forallb (fun r => isnull (Total_Dur r)) rows = true.
Proof.
  induction rows as [|r t IH]; simpl; [tauto|].
  destruct (isnull (Total_Dur r)); simpl.
  - rewrite <- IH. destruct (leading_unknown t); simpl; split; congruence.
  - split; discriminate.
Qed.

Lemma forallb_rev {A} (f : A -> bool) (l : list A) :
  forallb f (rev l) = forallb f l.
Proof.
  induction l as [|x t IH]; simpl; [reflexivity|].
  rewrite forallb_app, IH. simpl. rewrite andb_true_r. apply andb_comm.
Qed.

Lemma leading_unknown_length (rows : list Night) (l : list Z) :
  leading_unknown rows = Some l -> (length l < length rows)%nat.
Proof.
  revert l. induction rows as [|r t IH]; simpl; intros l H; [discriminate|].
  destruct (isnull (Total_Dur r)).
  - destruct (leading_unknown t) as [l'|]; [|discriminate].
    inversion H; subst. simpl. specialize (IH l' eq_refl). lia.
  - inversion H; subst. simpl. lia.
Qed.

Lemma all_null_forallb (df : list Night) :
  (forall r, In r df -> Total_Dur r = None) <->
  forallb (fun r => isnull (Total_Dur r)) df = true.
Proof.
  rewrite forallb_forall. split; intros H r Hr.
  - now rewrite (H r Hr).
  - specialize (H r Hr). now destruct (Total_Dur r).
Qed.

(** The trim returns normally exactly when some night has a known
    total. *)
Lemma unknown_nights_Ok (df : list Night) :
  (exists r, In r df /\ Total_Dur r <> None) ->
  exists l, unknown_nights df = Ok l /\ leading_unknown (rev df) = Some l.
Proof.
  intros [r [Hin Hr]]. rewrite unknown_nights_scan.
  destruct (leading_unknown (rev df)) as [l|] eqn:E; [now exists l|].
  apply -> leading_unknown_None in E. rewrite forallb_rev in E.
  pose proof (proj2 (all_null_forallb df) E) as Hall.
  now rewrite (Hall r Hin) in Hr.
Qed.

Lemma unknown_nights_Raise (df : list Night) :
  (forall r, In r df -> Total_Dur r = None) ->
  unknown_nights df = Raise (IndexError (- (Z.of_nat (length df) + 1))).
Proof.
  intros H. rewrite unknown_nights_scan.
  apply (proj1 (all_null_forallb df)) in H. rewrite <- forallb_rev in H.
  apply <- leading_unknown_None in H. now rewrite H.
Qed.

(** C10.  The trailing-null trim loop reads row [-i] before it compares
    [i] with the number of rows.  When some night of the merged archive has
    a known total duration the loop returns, having stopped at a row that
    exists (it collected fewer dates than there are rows).  When every
    total duration is null (also when there is no row at all) the loop
    reads position [-(len+1)], which no row has, and ends in the
    out-of-range error. *)
Theorem trailing_trim_bounds (nights_df : list Night) :
  ((exists r, In r nights_df /\ Total_Dur r <> None) ->
   exists l, unknown_nights nights_df = Ok l
             /\ (length l < length nights_df)%nat)
  /\
  ((forall r, In r nights_df -> Total_Dur r = None) ->
   unknown_nights nights_df
     = Raise (IndexError (- (Z.of_nat (length nights_df) + 1)))
   /\ iloc nights_df (- (Z.of_nat (length nights_df) + 1))
     = Raise (IndexError (- (Z.of_nat (length nights_df) + 1)))).
Proof.
  split.
  - intros H. destruct (unknown_nights_Ok nights_df H) as [l [Hl Hscan]].
    exists l. split; [assumption|].
    apply leading_unknown_length in Hscan. now rewrite length_rev in Hscan.
  - intros H. split; [now apply unknown_nights_Raise | apply iloc_past_front].
Qed.

Lemma trailing_trim_bounds_witness :
  (exists l, unknown_nights [night_of 1 (Some 28800); night_of 2 None] = Ok l
             /\ (length l < 2)%nat)
  /\ unknown_nights [night_of 1 None; night_of 2 None]
     = Raise (IndexError (-3)).
Proof.
  split.
  - apply (proj1 (trailing_trim_bounds
                    [night_of 1 (Some 28800); night_of 2 None])).
    exists (night_of 1 (Some 28800)). split; [now left | discriminate].
  - apply (proj2 (trailing_trim_bounds [night_of 1 None; night_of 2 None])).
    intros r [<- | [<- | []]]; reflexivity.
Defined.

(* ------------------------------------------------------------------ *)
(** ** The archive merger *)

Lemma Prev_Day_clean (w : World) (l : list Night) :
  map Prev_Day (map (clean_night w) l) = map Prev_Day l.
Proof. rewrite map_map. reflexivity. Qed.

Lemma Total_Dur_clean (w : World) (r : Night) :
  Total_Dur (clean_night w r) = Total_Dur r.
Proof. reflexivity. Qed.

Lemma Prev_Day_missing (l : list Z) : map Prev_Day (map new_missing_row l) = l.
Proof. rewrite map_map. apply map_id. Qed.

Lemma Prev_Day_fill (req : list Z) (new : list Night) :
  map Prev_Day (fill_missing req new)
  = map Prev_Day new ++ setdiff1d req (map Prev_Day new).
Proof. unfold fill_missing. now rewrite map_app, Prev_Day_missing. Qed.

Lemma fill_missing_covers (req : list Z) (new : list Night) (d : Z) :
  In d req -> In d (map Prev_Day (fill_missing req new)).
Proof.
  intros H. rewrite Prev_Day_fill, in_app_iff, setdiff1d_In.
  destruct (in_dec Z.eq_dec d (map Prev_Day new)); tauto.
Qed.

Lemma fill_missing_NoDup (req : list Z) (new : list Night) :
  NoDup (map Prev_Day new) -> NoDup (map Prev_Day (fill_missing req new)).
Proof.
  intros H. rewrite Prev_Day_fill.
  apply NoDup_app; [assumption | apply setdiff1d_NoDup |].
  intros d Hd Hd'. apply setdiff1d_In in Hd'. tauto.
Qed.

Lemma merge_nights_perm (nights_df new : list Night) :
  Permutation (merge_nights nights_df new) (merge_input nights_df new).
Proof.
  unfold merge_nights, merge_input. destruct nights_df as [|r t].
  - cbn [length Nat.ltb Nat.leb map app].
    assert (filter (fun r => negb (isin (Prev_Day r) [])) new = new) as ->
        by (induction new as [|x l IH]; simpl in *; [reflexivity | now f_equal]).
    apply sort_values_perm.
  - apply sort_values_perm.
Qed.

Lemma merge_nights_ascending (nights_df new : list Night) :
  ascending Prev_Day (merge_nights nights_df new).
Proof.
  unfold merge_nights. destruct (0 <? length nights_df)%nat;
    apply sort_values_ascending.
Qed.

Lemma merge_nights_dates (nights_df new : list Night) (d : Z) :
  In d (map Prev_Day (merge_nights nights_df new))
  <-> In d (map Prev_Day nights_df) \/ In d (map Prev_Day new).
Proof.
  rewrite (Permutation_in' (eq_refl d)
             (Permutation_map Prev_Day (merge_nights_perm nights_df new))).
  unfold merge_input. rewrite map_app, in_app_iff. split.
  - intros [H | H]; [now left | right].
    apply in_map_iff in H. destruct H as [r [<- Hr]].
    apply filter_In in Hr. apply in_map. tauto.
  - intros [H | H]; [now left|].
    destruct (in_dec Z.eq_dec d (map Prev_Day nights_df)) as [Hin | Hnin];
      [now left | right].
    apply in_map_iff in H. destruct H as [r [<- Hr]].
    apply in_map, filter_In. split; [assumption|].
    apply negb_true_iff, isin_false. assumption.
Qed.

Lemma merge_nights_NoDup (nights_df new : list Night) :
  NoDup (map Prev_Day nights_df) -> NoDup (map Prev_Day new) ->
  NoDup (map Prev_Day (merge_nights nights_df new)).
Proof.
  intros Hold Hnew.
  eapply Permutation_NoDup.
  - apply Permutation_sym, Permutation_map, merge_nights_perm.
  - unfold merge_input. rewrite map_app. apply NoDup_app.
    + assumption.
    + now apply NoDup_keys_filter.
    + intros d Hd Hd'. apply in_map_iff in Hd'. destruct Hd' as [r [<- Hr]].
      apply filter_In in Hr. destruct Hr as [_ Hr].
      apply negb_true_iff, isin_false in Hr. contradiction.
Qed.

Lemma trim_trailing_Ok (df archive : list Night) :
  trim_trailing df = Ok archive ->
  exists unknown,
    unknown_nights df = Ok unknown
    /\ archive = filter (fun r => negb (isin (Prev_Day r) unknown)) df.
Proof.
  unfold trim_trailing. destruct (unknown_nights df) as [u|e]; simpl; intros H.
  - exists u. split; [reflexivity | now inversion H].
  - discriminate.
Qed.

Lemma converter_dates_clean (w : World) (data : list RawNight) :
  map Prev_Day (map (clean_night w) (converter data))
  = map Prev_Day (converter data).
Proof. apply Prev_Day_clean. Qed.

Lemma merged_nights_NoDup (w : World) (nights_df : list Night)
    (data : list RawNight) (req : list Z) :
  NoDup (map Prev_Day nights_df) -> NoDup (map Prev_Day (converter data)) ->
  NoDup (map Prev_Day (merged_nights w nights_df data req)).
Proof.
  intros Hold Hnew. unfold merged_nights.
  apply merge_nights_NoDup; [assumption|].
  apply fill_missing_NoDup. now rewrite converter_dates_clean.
Qed.

(** C1 (amended).  For every prior archive with pairwise distinct
    previous-day dates and every batch of fetched records whose
    previous-day dates are pairwise distinct as well, the table the merger
    builds holds at most one record per previous-day date and is sorted
    ascending by that date, and so is the archive left after the trailing
    trim whenever the merger completes. *)
Theorem merge_unique_and_sorted (w : World) (nights_df : list Night)
    (data : list RawNight) (new_req_dates_ls : list Z) :
  NoDup (map Prev_Day nights_df) ->
  NoDup (map Prev_Day (converter data)) ->
  (NoDup (map Prev_Day (merged_nights w nights_df data new_req_dates_ls))
   /\ Sorted Z.le
        (map Prev_Day (merged_nights w nights_df data new_req_dates_ls)))
  /\
  (forall archive,
      archive_merger w nights_df data new_req_dates_ls = Ok archive ->
      NoDup (map Prev_Day archive) /\ Sorted Z.le (map Prev_Day archive)).
Proof.
  intros Hold Hnew.
  pose proof (merged_nights_NoDup w nights_df data new_req_dates_ls Hold Hnew)
    as Hnd.
  assert (Hasc : ascending Prev_Day
                   (merged_nights w nights_df data new_req_dates_ls))
    by apply merge_nights_ascending.
  split.
  - split; [assumption | now apply ascending_map_Sorted].
  - intros archive Harch. apply trim_trailing_Ok in Harch.
    destruct Harch as [unknown [_ ->]]. split.
    + now apply NoDup_keys_filter.
    + now apply ascending_map_Sorted, filter_ascending.
Qed.

(** Pairwise distinct dates of a concrete table. *)
Ltac distinct_dates :=
  vm_compute;
  repeat (apply NoDup_cons;
          [simpl; intuition discriminate |]);
  apply NoDup_nil.

Lemma merge_unique_and_sorted_witness :
  exists archive,
    archive_merger (demo_world (jan 9) (jan 12) (provider_of []) [])
      [night_of (jan 9) (Some 28800)]
      [raw_night (2020, 1, 11) (Some 27000);
       raw_night (2020, 1, 12) (Some 30600)]
      [jan 10; jan 11; jan 12] = Ok archive
    /\ map Prev_Day archive = [jan 9; jan 10; jan 11]
    /\ NoDup (map Prev_Day archive)
    /\ Sorted Z.le (map Prev_Day archive).
Proof.
  eexists. split; [vm_compute; reflexivity|].
  split; [reflexivity|].
  apply (proj2 (merge_unique_and_sorted
                  (demo_world (jan 9) (jan 12) (provider_of []) [])
                  [night_of (jan 9) (Some 28800)]
                  [raw_night (2020, 1, 11) (Some 27000);
                   raw_night (2020, 1, 12) (Some 30600)]
                  [jan 10; jan 11; jan 12]
                  ltac:(distinct_dates) ltac:(distinct_dates))).
  vm_compute. reflexivity.
Defined.

(** C1, as stated, fails: two fetched records for the same night, neither
    of them archived before, both end up in the archive. *)
Lemma merge_keeps_repeated_new_night :
  NoDup (map Prev_Day [night_of (jan 9) (Some 28800)])
  /\ exists archive,
      archive_merger (demo_world (jan 9) (jan 10) (provider_of []) [])
        [night_of (jan 9) (Some 28800)]
        [raw_night (2020, 1, 11) (Some 27000);
         raw_night (2020, 1, 11) (Some 27000)]
        [jan 10] = Ok archive
      /\ map Prev_Day archive = [jan 9; jan 10; jan 10]
      /\ ~ NoDup (map Prev_Day archive).
Proof.
  split; [distinct_dates|].
  eexists. split; [vm_compute; reflexivity|].
  split; [reflexivity|].
  vm_compute. intros H.
  inversion H as [|? ? _ H']; subst.
  inversion H' as [|? ? Hnin _]; subst.
  apply Hnin. now left.
Qed.

(* ------------------------------------------------------------------ *)
(** ** Gap closure *)




Lemma merged_nights_covers (w : World) (nights_df : list Night)
    (data : list RawNight) (req : list Z) (d : Z) :
  In d (map Prev_Day nights_df) \/ In d req ->
  In d (map Prev_Day (merged_nights w nights_df data req)).
Proof.
  intros H. unfold merged_nights. apply merge_nights_dates.
  destruct H as [H | H]; [now left | right].
  now apply fill_missing_covers.
Qed.




(* ------------------------------------------------------------------ *)
(** ** Request chunking (step2) *)

Lemma fold_min_spec (l : list Z) (x : Z) :
  In (fold_left Z.min l x) (x :: l)
  /\ forall y, In y (x :: l) -> fold_left Z.min l x <= y.
Proof.
  revert x. induction l as [|a t IH]; intros x; simpl.
  - split; [now left | intros y [<- | []]; lia].
  - destruct (IH (Z.min x a)) as [Hin Hle]. split.
    + destruct Hin as [Hin | Hin]; [|now right; right].
      rewrite <- Hin. destruct (Z.min_spec x a) as [[_ ->] | [_ ->]]; auto.
    + intros y Hy.
      assert (fold_left Z.min t (Z.min x a) <= Z.min x a)
        by (apply Hle; now left).
      destruct Hy as [<- | [<- | Hy]]; [lia | lia |].
      apply Hle. now right.
Qed.

Lemma fold_max_spec (l : list Z) (x : Z) :
  In (fold_left Z.max l x) (x :: l)
  /\ forall y, In y (x :: l) -> y <= fold_left Z.max l x.
Proof.
  revert x. induction l as [|a t IH]; intros x; simpl.
  - split; [now left | intros y [<- | []]; lia].
  - destruct (IH (Z.max x a)) as [Hin Hle]. split.
    + destruct Hin as [Hin | Hin]; [|now right; right].
      rewrite <- Hin. destruct (Z.max_spec x a) as [[_ ->] | [_ ->]]; auto.
    + intros y Hy.
      assert (Z.max x a <= fold_left Z.max t (Z.max x a))
        by (apply Hle; now left).
      destruct Hy as [<- | [<- | Hy]]; [lia | lia |].
      apply Hle. now right.
Qed.

Lemma filter_drops_one {A} (f : A -> bool) (l : list A) (x : A) :
  In x l -> f x = false -> (length (filter f l) < length l)%nat.
Proof.
  induction l as [|a t IH]; simpl; intros Hin Hf; [contradiction|].
  pose proof (filter_length_le f t).
  destruct Hin as [-> | Hin].
  - rewrite Hf. lia.
  - specialize (IH Hin Hf). destruct (f a); simpl; lia.
Qed.

Lemma StronglySorted_snoc {A} (R : A -> A -> Prop) (l : list A) (x : A) :
  StronglySorted R l -> Forall (fun a => R a x) l ->
  StronglySorted R (l ++ [x]).
Proof.
  induction 1 as [|a t Ht IH Ha]; intros Hx; simpl.
  - repeat constructor.
  - inversion Hx; subst. constructor; [now apply IH|].
    apply Forall_app. split; [assumption | now constructor].
Qed.

Lemma download_to_json_cases (w : World) (q : Z * Z) :
  (request_ok w q
   /\ download_to_json w (fst q) (snd q) = Ok (reply w q))
  \/ (~ request_ok w q
      /\ download_to_json w (fst q) (snd q) = Raise (refusal w q)).
Proof.
  unfold download_to_json, download, request_ok, reply, refusal.
  destruct (status_code (dailySleepsByDate w (fst q) (snd q)) =? 200) eqn:E.
  - apply Z.eqb_eq in E. cbn [bind].
    destruct (content (dailySleepsByDate w (fst q) (snd q))) as [js|bytes|].
    + left. split; [split; [exact E | discriminate] | reflexivity].
    + left. split; [split; [exact E | discriminate] | reflexivity].
    + right. split; [intros [_ H]; now apply H | reflexivity].
  - apply Z.eqb_neq in E. right. split; [intros [H _]; now apply E|].
    reflexivity.
Qed.

Section Step2Loop.
Variable w : World.

Lemma next_period_spec (d0 : Z) (rest : list Z) :
  let q := next_period d0 rest in
  In (fst q) (d0 :: rest)
  /\ (forall d, In d (d0 :: rest) -> fst q <= d)
  /\ within_window q
  /\ (forall d, In d (d0 :: rest) -> snd q < d \/ covers q d).
Proof.
  unfold next_period, within_window, covers, max_period_delta.
  cbn [fst snd].
  destruct (fold_min_spec rest d0) as [Hmin_in Hmin].
  destruct (fold_max_spec rest d0) as [Hmax_in Hmax].
  pose proof (Hmin _ Hmax_in) as Hmm.
  repeat split; try assumption;
    destruct (31 - 1 <? _) eqn:E;
    try (apply Z.ltb_lt in E); try (apply Z.ltb_ge in E); try lia.
  - intros d Hd. specialize (Hmin d Hd). lia.
  - intros d Hd. specialize (Hmin d Hd). specialize (Hmax d Hd). lia.
Qed.

Lemma step2_loop_spec (fuel : nat) :
  forall (dates : list Z) (data : list (list Item))
         (requests : list (Z * Z)),
    (length dates <= fuel)%nat ->
    Forall within_window requests ->
    StronglySorted ends_before requests ->
    (forall q d, In q requests -> In d dates -> snd q < d) ->
    exists new,
      fst (step2_loop w fuel dates data requests) = requests ++ new
      /\ Forall within_window (requests ++ new)
      /\ StronglySorted ends_before (requests ++ new)
      /\ snd (step2_loop w fuel dates data requests) <> Raise OutOfFuel
      /\ Forall (fun q => In (fst q) dates) new
      /\ (forall d, In d dates ->
                    (exists q, In q new /\ covers q d)
                    \/ (forall q, In q new -> snd q < d))
      /\ (forall chunks,
             snd (step2_loop w fuel dates data requests) = Ok chunks ->
             chunks = data ++ map (reply w) new
             /\ (forall d, In d dates -> exists q, In q new /\ covers q d)
             /\ Forall (request_ok w) new)
      /\ (forall e,
             snd (step2_loop w fuel dates data requests) = Raise e ->
             exists served q,
               new = served ++ [q]
               /\ Forall (request_ok w) served
               /\ ~ request_ok w q
               /\ e = refusal w q).
Proof.
  induction fuel as [|fuel IH];
    intros dates data requests Hlen Hwin Hasc Hlater.
  - destruct dates; [|simpl in Hlen; lia]. simpl. exists [].
    rewrite app_nil_r.
    split; [reflexivity|]. split; [assumption|]. split; [assumption|].
    split; [discriminate|]. split; [constructor|].
    split; [contradiction|]. split; [|discriminate].
    intros chunks H. inversion H; subst. rewrite app_nil_r.
    split; [reflexivity|]. split; [contradiction | constructor].
  - destruct dates as [|d0 rest].
    { simpl. exists []. rewrite app_nil_r.
      split; [reflexivity|]. split; [assumption|]. split; [assumption|].
      split; [discriminate|]. split; [constructor|].
      split; [contradiction|]. split; [|discriminate].
      intros chunks H. inversion H; subst. rewrite app_nil_r.
      split; [reflexivity|]. split; [contradiction | constructor]. }
    cbn [step2_loop].
    destruct (next_period_spec d0 rest) as [Hin [Hmin [Hw Hcov]]].
    change (fold_left Z.min rest d0) with (fst (next_period d0 rest)).
    change (if max_period_delta - 1
               <? fold_left Z.max rest d0 - fst (next_period d0 rest)
            then fst (next_period d0 rest) + max_period_delta
            else fold_left Z.max rest d0)
      with (snd (next_period d0 rest)).
    rewrite <- surjective_pairing.
    set (q := next_period d0 rest) in *.
    assert (Hwin' : Forall within_window (requests ++ [q]))
      by (apply Forall_app; split; [assumption | now constructor]).
    assert (Hasc' : StronglySorted ends_before (requests ++ [q])).
    { apply StronglySorted_snoc; [assumption|].
      apply Forall_forall. intros a Ha. unfold ends_before.
      now apply Hlater. }
    destruct (download_to_json_cases w q) as [[Hserved ->] | [Hrefused ->]].
    + set (rest' := filter (fun d => snd q <? d) (d0 :: rest)).
      destruct (IH rest' (data ++ [reply w q]) (requests ++ [q]))
        as [new [Hfst [Hw' [Ha' [Hfuel [Hstart [Hpre [Hok Hfail]]]]]]]];
        try assumption.
      * assert (length rest' < length (d0 :: rest))%nat.
        { apply (filter_drops_one _ _ (fst q)); [assumption|].
          apply Z.ltb_ge. apply Hw. }
        simpl in *. lia.
      * intros a d Ha Hd. apply filter_In in Hd. destruct Hd as [Hd Hgt].
        apply Z.ltb_lt in Hgt. apply in_app_iff in Ha.
        destruct Ha as [Ha | [<- | []]]; [|assumption].
        now apply Hlater.
      * exists (q :: new). rewrite <- app_assoc in Hfst, Hw', Ha'.
        split; [exact Hfst|]. split; [exact Hw'|]. split; [exact Ha'|].
        split; [exact Hfuel|].
        split.
        { constructor; [assumption|].
          eapply Forall_impl; [|exact Hstart].
          intros a Ha. apply filter_In in Ha. tauto. }
        split.
        { intros d Hd. destruct (Hcov d Hd) as [Hgt | Hc'].
          - destruct (Hpre d) as [[a [Ha Hda]] | Hafter].
            { apply filter_In. split; [assumption | now apply Z.ltb_lt]. }
            + left. exists a. split; [now right | assumption].
            + right. intros a [<- | Ha]; [assumption | now apply Hafter].
          - left. exists q. split; [now left | assumption]. }
        split.
        -- intros chunks H. destruct (Hok chunks H) as [-> [Hc Hall]].
           split; [rewrite <- app_assoc; reflexivity|]. split.
           ++ intros d Hd. destruct (Hcov d Hd) as [Hgt | Hc'].
              ** destruct (Hc d) as [a [Ha Hda]].
                 { apply filter_In.
                   split; [assumption | now apply Z.ltb_lt]. }
                 exists a. split; [now right | assumption].
              ** exists q. split; [now left | assumption].
           ++ now constructor.
        -- intros e H. destruct (Hfail e H) as [served [q' [-> [Hs [Hq He]]]]].
           exists (q :: served), q'. split; [reflexivity|].
           split; [now constructor|]. split; assumption.
    + exists [q]. cbn [fst snd].
      split; [reflexivity|]. split; [assumption|]. split; [assumption|].
      split; [unfold refusal; destruct (_ =? 200); discriminate|].
      split; [constructor; [assumption | constructor]|].
      split.
      { intros d Hd. destruct (Hcov d Hd) as [Hgt | Hc'].
        - right. intros a [<- | []]. assumption.
        - left. exists q. split; [now left | assumption]. }
      split; [discriminate|].
      intros e H. inversion H; subst. exists [], q.
      split; [reflexivity|]. split; [constructor|]. split; [assumption|].
      reflexivity.
Qed.
End Step2Loop.

Lemma step2_unfold (w : World) (disk : Disk) (dates : list Z) :
  fst (fst (step2 w disk dates))
  = fst (step2_loop w (length dates) dates [] [])
  /\ snd (step2 w disk dates)
     = (chunks <- snd (step2_loop w (length dates) dates [] []) ;;
        Ok (concat chunks)).
Proof.
  unfold step2.
  destruct (step2_loop w (length dates) dates [] []) as [requests [chunks|e]];
    split; reflexivity.
Qed.

(** C6.  The requests step2 issues, in the order it issues them.  Each
    spans at most 31 days from its first to its last date, each starts at a
    missing date and after the end of the one before, and the loop always
    comes to an end.  A missing date lies in one of the requested periods or
    after the end of every request made, so the requests cover the missing
    dates from the earliest one on, without leaving one out.  If every
    request made is served, step2 ends well; when it ends well, every
    missing date lies in a requested period and the result is the items of
    the replies put together in request order.  If step2 fails, one of its
    requests was not served. *)
Theorem step2_chunks (w : World) (disk : Disk) (new_req_dates_ls : list Z) :
  let requests := fst (fst (step2 w disk new_req_dates_ls)) in
  let result := snd (step2 w disk new_req_dates_ls) in
  Forall within_window requests
  /\ StronglySorted ends_before requests
  /\ result <> Raise OutOfFuel
  /\ Forall (fun q => In (fst q) new_req_dates_ls) requests
  /\ (forall d, In d new_req_dates_ls ->
                (exists q, In q requests /\ covers q d)
                \/ (forall q, In q requests -> snd q < d))
  /\ (forall data,
         result = Ok data ->
         (forall d, In d new_req_dates_ls ->
                    exists q, In q requests /\ covers q d)
         /\ data = concat (map (reply w) requests))
  /\ (Forall (request_ok w) requests -> exists data, result = Ok data)
  /\ (forall e, result = Raise e ->
                exists q, In q requests /\ ~ request_ok w q).
Proof.
  intros requests result. subst requests result.
  destruct (step2_unfold w disk new_req_dates_ls) as [-> ->].
  destruct (step2_loop_spec w (length new_req_dates_ls) new_req_dates_ls [] [])
    as [new [Hfst [Hwin [Hasc [Hfuel [Hstart [Hpre [Hok Hfail]]]]]]]];
    [lia | constructor | constructor | intros ? ? [] |].
  simpl in Hfst, Hwin, Hasc. rewrite Hfst.
  split; [assumption|]. split; [assumption|]. split.
  { destruct (snd (step2_loop _ _ _ _ _)) as [chunks|e]; simpl;
      [discriminate | congruence]. }
  split; [assumption|]. split; [assumption|]. split.
  { intros data H.
    destruct (snd (step2_loop _ _ _ _ _)) as [chunks|e]; simpl in H;
      [|discriminate].
    inversion H; subst. destruct (Hok chunks eq_refl) as [-> [Hcov _]].
    split; [assumption | reflexivity]. }
  split.
  - intros Hall.
    destruct (snd (step2_loop _ _ _ _ _)) as [chunks|e]; simpl; [eauto|].
    exfalso. destruct (Hfail e eq_refl) as [served [q [-> [_ [Hq _]]]]].
    apply Hq. apply Forall_app in Hall. destruct Hall as [_ Hall].
    now inversion Hall.
  - intros e H.
    destruct (snd (step2_loop _ _ _ _ _)) as [chunks|e']; simpl in H;
      [discriminate|].
    destruct (Hfail e' eq_refl) as [served [q [-> [_ [Hq _]]]]].
    exists q. split; [|assumption]. apply in_app_iff. right. now left.
Qed.

(** Sixty-five missing days and a provider that serves every request lead
    to three requests; the middle one shows the 31-day span. *)
Lemma step2_chunks_witness :
  let w := demo_world (jan 1) (jan 1 + 64) (provider_of []) [] in
  fst (fst (step2 w empty_disk (daterange (jan 1) (jan 1 + 64))))
  = [(jan 1, jan 1 + 31); (jan 1 + 32, jan 1 + 63); (jan 1 + 64, jan 1 + 64)]
  /\ Forall within_window
       (fst (fst (step2 w empty_disk (daterange (jan 1) (jan 1 + 64)))))
  /\ exists data,
       snd (step2 w empty_disk (daterange (jan 1) (jan 1 + 64))) = Ok data.
Proof.
  intros w. split; [vm_compute; reflexivity|]. split.
  - apply (step2_chunks w empty_disk (daterange (jan 1) (jan 1 + 64))).
  - apply (step2_chunks w empty_disk (daterange (jan 1) (jan 1 + 64))).
    apply Forall_forall. intros q _. split; [reflexivity | discriminate].
Defined.

(* ------------------------------------------------------------------ *)
(** ** Time of day *)

Lemma hour_range (t : Timestamp) : 0 <= hour t <= 23.
Proof.
  unfold hour.
  pose proof (Z.mod_pos_bound (local_seconds t) 86400 ltac:(lia)).
  split.
  - apply Z.div_pos; lia.
  - assert (local_seconds t mod 86400 / 3600 < 24)
      by (apply Z.div_lt_upper_bound; lia).
    lia.
Qed.

Lemma minute_range (t : Timestamp) : 0 <= minute t <= 59.
Proof.
  unfold minute.
  pose proof (Z.mod_pos_bound (local_seconds t) 3600 ltac:(lia)).
  split.
  - apply Z.div_pos; lia.
  - assert (local_seconds t mod 3600 / 60 < 60)
      by (apply Z.div_lt_upper_bound; lia).
    lia.
Qed.

(** [hour + minute/60] as one fraction. *)
Lemma time_of_day_minutes (t : Timestamp) :
  (time_of_day t == Qmake (60 * hour t + minute t) 60)%Q.
Proof.
  unfold time_of_day, Qeq, Qplus, Qdiv, Qmult, Qinv, inject_Z.
  cbn [Qnum Qden Pos.mul]. lia.
Qed.

Lemma time_of_day_range (t : Timestamp) :
  (0 <= time_of_day t /\ time_of_day t < 24)%Q.
Proof.
  rewrite time_of_day_minutes.
  pose proof (hour_range t). pose proof (minute_range t).
  unfold Qle, Qlt. cbn [Qnum Qden]. lia.
Qed.

Lemma Qgtb_true (x y : Q) : Qgtb x y = true <-> (y < x)%Q.
Proof.
  unfold Qgtb. rewrite negb_true_iff. split; intros H.
  - apply Qnot_le_lt. intros Hle. apply Qle_bool_iff in Hle. congruence.
  - destruct (Qle_bool x y) eqn:E; [|reflexivity].
    apply Qle_bool_iff in E. exfalso. now apply (Qlt_not_le y x).
Qed.

Lemma Qgtb_false (x y : Q) : Qgtb x y = false <-> (x <= y)%Q.
Proof.
  unfold Qgtb. rewrite negb_false_iff. apply Qle_bool_iff.
Qed.

Lemma make_pm_negative_spec (x : Q) :
  ((x <= 12 -> make_pm_negative x == x)
   /\ (12 < x -> make_pm_negative x == x - 24))%Q.
Proof.
  unfold make_pm_negative. split; intros H.
  - apply Qgtb_false in H. rewrite H. ring.
  - apply Qgtb_true in H. rewrite H. ring.
Qed.

Lemma make_pm_negative_range (x : Q) :
  (0 <= x -> x < 24 ->
   -12 < make_pm_negative x /\ make_pm_negative x <= 12)%Q.
Proof.
  intros H0 H24. destruct (Qlt_le_dec 12 x) as [H | H].
  - rewrite (proj2 (make_pm_negative_spec x) H). split.
    + apply Qlt_minus_iff. setoid_replace (x - 24 + - -12)%Q with (x - 12)%Q by ring.
      apply -> Qlt_minus_iff. assumption.
    + apply Qle_minus_iff.
      setoid_replace (12 + - (x - 24))%Q with (36 - x)%Q by ring.
      apply Qlt_le_weak. apply -> Qlt_minus_iff.
      eapply Qlt_trans; [exact H24 | reflexivity].
  - rewrite (proj1 (make_pm_negative_spec x) H). split; [|assumption].
    eapply Qlt_le_trans; [|exact H0]. reflexivity.
Qed.

Lemma make_pm_negative_normalized (t : Timestamp) :
  normalized_from t (make_pm_negative (time_of_day t)).
Proof.
  unfold normalized_from.
  destruct (make_pm_negative_spec (time_of_day t)) as [H1 H2].
  destruct (time_of_day_range t) as [H0 H24].
  destruct (make_pm_negative_range (time_of_day t) H0 H24) as [Hl Hu].
  repeat split; assumption.
Qed.

Lemma ms2_rows_tod (w : World) (ms_df : list ActivityRow) (row : SleepRow) :
  In row (ms2_rows w ms_df) ->
  s_Bed_ToD row = Bed_ToD_of (s_Bed_Time row)
  /\ s_Wake_ToD row = Wake_ToD_of (s_Wake_Time row).
Proof.
  unfold ms2_rows. intros H. apply in_map_iff in H.
  destruct H as [[[prev_day bed] a] [<- _]]. split; reflexivity.
Qed.

(** C4 (amended).  In every row of the combined data set that comes from
    the night archive or from the legacy data, a known bed time is stored
    as its normalised time of day: [hour + minute/60] when that is at most
    12, 24 less otherwise, a value in (-12, 12].  The same holds for the
    sunrise and the sunset of every row of the solar table.  A known wake
    time is stored as [hour + minute/60] as it is, a value in [0, 24). *)
Theorem time_of_day_columns (w : World) (nights_df : list Night)
    (ms_df : list ActivityRow) (w_date : Z)
    (times : (Z * Z * Z) * (Z * Z * Z)) :
  (forall row,
      In row (map garmin_row nights_df ++ ms2_rows w ms_df) ->
      (forall bed, s_Bed_Time row = Some bed ->
                   exists x, s_Bed_ToD row = Some x /\ normalized_from bed x)
      /\ (forall wake, s_Wake_Time row = Some wake ->
                       s_Wake_ToD row = Some (time_of_day wake)
                       /\ (0 <= time_of_day wake /\ time_of_day wake < 24)%Q))
  /\ normalized_from (Sunrise (sun_row w w_date times))
                     (Sunrise_ToD (sun_row w w_date times))
  /\ normalized_from (Sunset (sun_row w w_date times))
                     (Sunset_ToD (sun_row w w_date times)).
Proof.
  split; [|split; apply make_pm_negative_normalized].
  intros row Hrow.
  assert (Htod : s_Bed_ToD row = Bed_ToD_of (s_Bed_Time row)
                 /\ s_Wake_ToD row = Wake_ToD_of (s_Wake_Time row)).
  { apply in_app_iff in Hrow. destruct Hrow as [Hrow | Hrow].
    - apply in_map_iff in Hrow. destruct Hrow as [r [<- _]].
      split; reflexivity.
    - now apply (ms2_rows_tod w ms_df). }
  destruct Htod as [Hbed Hwake]. split.
  - intros bed Hb. rewrite Hbed, Hb. simpl. eexists. split; [reflexivity|].
    apply make_pm_negative_normalized.
  - intros wake Hw. rewrite Hwake, Hw. simpl.
    split; [reflexivity | apply time_of_day_range].
Qed.

Lemma time_of_day_columns_witness :
  (exists x, s_Bed_ToD (garmin_row long_morning) = Some x
             /\ (-12 < x /\ x <= 12)%Q)
  /\ s_Wake_ToD (garmin_row long_morning) = Some (Qmake 870 60).
Proof.
  destruct (proj1 (time_of_day_columns
                     (demo_world (jan 10) (jan 11) (provider_of []) [])
                     [long_morning] [] (jan 10) ((12, 5, 0), (22, 30, 0)))
                  (garmin_row long_morning) (or_introl eq_refl))
    as [Hbed Hwake].
  split.
  - destruct (Hbed _ eq_refl) as [x [Hx [_ [_ Hrange]]]].
    exists x. split; assumption.
  - destruct (Hwake _ eq_refl) as [Hw _]. exact Hw.
Defined.

(** C4, as stated, fails for the wake column: a wake time of 14:30 is
    stored as 14.5, which is neither 14.5 - 24 nor in (-12, 12]. *)
Lemma afternoon_wake_time_not_normalized :
  exists wake x,
    Wake_Time long_morning = Some wake
    /\ s_Wake_ToD (garmin_row long_morning) = Some x
    /\ (12 < time_of_day wake)%Q
    /\ ~ (x == time_of_day wake - 24)%Q
    /\ ~ (x <= 12)%Q.
Proof.
  eexists. eexists.
  split; [reflexivity|]. split; [reflexivity|].
  split; [vm_compute; reflexivity|].
  split.
  - vm_compute. intros H. discriminate H.
  - vm_compute. intros H. apply H. reflexivity.
Qed.

(* ------------------------------------------------------------------ *)
(** ** Workday classification *)

Lemma date_range_In (a b d : Z) : In d (date_range a b) <-> a <= d <= b.
Proof.
  unfold date_range. destruct (b <? a) eqn:E.
  - apply Z.ltb_lt in E. simpl. lia.
  - apply Z.ltb_ge in E. rewrite daterange_In. lia.
Qed.

(** [vacay] holds the leave period and, around every December holiday,
    the day before and the six days after. *)
Lemma vacay_of_In (w : World) (holidays : list Z) (d : Z) :
  In d (vacay_of w holidays) <->
  (exists h, In h holidays /\ month h = 12
             /\ (d = h - 1 \/ h + 1 <= d <= h + 6))
  \/ layoff_start <= d <= end_date w.
Proof.
  unfold vacay_of. cbn [fold_left].
  rewrite !in_app_iff, !in_map_iff, date_range_In.
  split.
  - intros [H | H]; [left | now right].
    repeat destruct H as [H | H];
      destruct H as [h [<- Hh]]; apply filter_In in Hh;
      destruct Hh as [Hh Hm]; apply Z.eqb_eq in Hm;
      exists h; (split; [assumption | split; [assumption | lia]]).
  - intros [[h [Hh [Hm Hd]]] | H]; [left | now right].
    assert (Hf : In h (filter (fun h => month h =? 12) holidays))
      by (apply filter_In; split; [assumption | now apply Z.eqb_eq]).
    assert (Hcases : d = h - 1 \/ d = h + 1 \/ d = h + 2 \/ d = h + 3
                     \/ d = h + 4 \/ d = h + 5 \/ d = h + 6) by lia.
    destruct Hcases as [-> | [-> | [-> | [-> | [-> | [-> | ->]]]]]];
      [do 6 left | do 5 left; right | do 4 left; right | do 3 left; right
       | do 2 left; right | left; right | right];
      exists h; (split; [reflexivity | assumption]).
Qed.

Lemma is_workday_weekend (holidays vacay : list Z) (d : Z) :
  weekday d = 4 \/ weekday d = 5 -> is_workday holidays vacay d = false.
Proof.
  unfold is_workday. intros [-> | ->]; reflexivity.
Qed.

Lemma is_workday_vacay (holidays vacay : list Z) (d : Z) :
  In d vacay -> is_workday holidays vacay d = false.
Proof.
  unfold is_workday. intros H. apply isin_In in H. rewrite H.
  destruct (is_weekend_bool _); [reflexivity|].
  now rewrite orb_true_r.
Qed.

Lemma is_workday_holiday (holidays vacay : list Z) (d : Z) :
  In d holidays -> is_workday holidays vacay d = false.
Proof.
  unfold is_workday, is_holiday. intros H. apply isin_In in H. rewrite H.
  destruct (is_weekend_bool _); reflexivity.
Qed.

Lemma day_map_weekend (d : Z) :
  day_map (weekday d) = Some Friday \/ day_map (weekday d) = Some Saturday ->
  weekday d = 4 \/ weekday d = 5.
Proof.
  unfold weekday. pose proof (Z.mod_pos_bound (d + 3) 7 ltac:(lia)) as Hb.
  assert (Hc : (d + 3) mod 7 = 0 \/ (d + 3) mod 7 = 1 \/ (d + 3) mod 7 = 2
               \/ (d + 3) mod 7 = 3 \/ (d + 3) mod 7 = 4
               \/ (d + 3) mod 7 = 5 \/ (d + 3) mod 7 = 6) by lia.
  destruct Hc as [-> | [-> | [-> | [-> | [-> | [-> | ->]]]]]]; simpl;
    intros [H | H]; try discriminate; auto.
Qed.

Lemma all_descr_df_of_Ok (w : World) (all_df : list (Z * SleepRow))
    (descr : list DescrRow) :
  all_descr_df_of w all_df = Ok descr ->
  exists first_day last_day,
    min_date (map (fun x => s_Prev_Day (snd x)) all_df) = Ok first_day
    /\ max_date (map (fun x => s_Prev_Day (snd x)) all_df) = Ok last_day
    /\ descr = map (descr_row (holidays_of w first_day last_day)
                              (vacay_of w (holidays_of w first_day last_day)))
                   all_df.
Proof.
  unfold all_descr_df_of.
  destruct (min_date _) as [first_day|]; [|discriminate].
  destruct (max_date _) as [last_day|]; [|discriminate].
  simpl. intros H. inversion H. now exists first_day, last_day.
Qed.

(** C5 (amended).  In the description table every row whose previous-day
    date is a Friday or a Saturday has [Is_Workday = False] and
    [Is_Holiday = False], whether or not the date is a holiday.  Every row
    whose previous-day date lies in the leave period (28 October 2019 up to
    [end_date]) or within the day before to six days after a December
    holiday of the table's date span has [Is_Workday = False]. *)
Theorem workday_classification (w : World) (all_df : list (Z * SleepRow))
    (descr : list DescrRow) :
  all_descr_df_of w all_df = Ok descr ->
  exists first_day last_day,
    min_date (map (fun x => s_Prev_Day (snd x)) all_df) = Ok first_day
    /\ max_date (map (fun x => s_Prev_Day (snd x)) all_df) = Ok last_day
    /\ forall row,
        In row descr ->
        d_Day row = day_map (weekday (d_Prev_Day row))
        /\ (d_Day row = Some Friday \/ d_Day row = Some Saturday ->
            d_Is_Workday row = false /\ d_Is_Holiday row = false)
        /\ (layoff_start <= d_Prev_Day row <= end_date w ->
            d_Is_Workday row = false)
        /\ (forall h,
               In h (holidays_of w first_day last_day) -> month h = 12 ->
               h - 1 <= d_Prev_Day row <= h + 6 ->
               d_Is_Workday row = false).
Proof.
  intros H. destruct (all_descr_df_of_Ok w all_df descr H)
    as [first_day [last_day [Hmin [Hmax ->]]]].
  exists first_day, last_day. split; [assumption|]. split; [assumption|].
  intros row Hrow. apply in_map_iff in Hrow.
  destruct Hrow as [[id r] [<- _]]. cbn [descr_row d_Day d_Prev_Day
    d_Is_Workday d_Is_Holiday].
  split; [reflexivity|]. split; [|split].
  - intros Hday. split.
    + now apply is_workday_weekend, day_map_weekend.
    + unfold is_holiday. destruct Hday as [-> | ->]; reflexivity.
  - intros Hd. apply is_workday_vacay, vacay_of_In. now right.
  - intros h Hh Hm Hd.
    destruct (Z.eq_dec (s_Prev_Day r) h) as [-> | Hne].
    + now apply is_workday_holiday.
    + apply is_workday_vacay, vacay_of_In. left. exists h.
      split; [assumption|]. split; [assumption | lia].
Qed.

Lemma workday_classification_witness :
  all_descr_df_of christmas_world christmas_rows = Ok christmas_descr
  /\ map d_Day christmas_descr = [Some Saturday; Some Monday; Some Wednesday]
  /\ map d_Is_Workday christmas_descr = [false; false; false]
  /\ exists first_day last_day,
      min_date (map (fun x => s_Prev_Day (snd x)) christmas_rows)
      = Ok first_day
      /\ max_date (map (fun x => s_Prev_Day (snd x)) christmas_rows)
         = Ok last_day
      /\ forall row,
          In row christmas_descr ->
          d_Day row = day_map (weekday (d_Prev_Day row))
          /\ (d_Day row = Some Friday \/ d_Day row = Some Saturday ->
              d_Is_Workday row = false /\ d_Is_Holiday row = false)
          /\ (layoff_start <= d_Prev_Day row <= end_date christmas_world ->
              d_Is_Workday row = false)
          /\ (forall h,
                 In h (holidays_of christmas_world first_day last_day) ->
                 month h = 12 ->
                 h - 1 <= d_Prev_Day row <= h + 6 ->
                 d_Is_Workday row = false).
Proof.
  split; [vm_compute; reflexivity|].
  split; [reflexivity|]. split; [reflexivity|].
  apply (workday_classification christmas_world christmas_rows
           christmas_descr).
  vm_compute. reflexivity.
Defined.

(** C5, as stated, fails for Sundays: the night of Sunday 4 March 2018,
    no holiday and outside every non-workday window, is a workday row. *)
Lemma sunday_night_is_workday :
  let run := run_pipeline march_world empty_disk in
  outcome run = Ok tt
  /\ exists descr row,
      all_sleep_descr_df_pkl (disk_after run) = Some descr
      /\ In row descr
      /\ d_Prev_Day row = days_from_civil 2018 3 4
      /\ weekday (d_Prev_Day row) = 6
      /\ d_Day row = Some Sunday
      /\ d_Is_Workday row = true.
Proof.
  split; [vm_compute; reflexivity|].
  eexists. eexists.
  split; [vm_compute; reflexivity|].
  split; [right; left; reflexivity|].
  repeat split; reflexivity.
Qed.

(* ------------------------------------------------------------------ *)
(** ** The sunrise and sunset archive (step4) *)

(** The loop either serves every date, or stops at the first date the
    almanac refuses, having asked for nothing after it. *)
Lemma step4_loop_spec (w : World) (dates : list Z) :
  forall (sun_df : list SunRow) (requests : list Z),
    (Forall (almanac_ok w) dates
     /\ step4_loop w dates sun_df requests
        = (requests ++ dates, Ok (sun_df ++ map (almanac_row w) dates)))
    \/
    (exists served failed rest,
        dates = served ++ failed :: rest
        /\ Forall (almanac_ok w) served
        /\ ~ almanac_ok w failed
        /\ step4_loop w dates sun_df requests
           = (requests ++ served ++ [failed],
              Raise (ResponseError (status_code (sunrise_sunset w failed))))).
Proof.
  induction dates as [|d rest IH]; intros sun_df requests.
  - left. split; [constructor|]. simpl. now rewrite !app_nil_r.
  - cbn [step4_loop].
    destruct (status_code (sunrise_sunset w d) =? 200) eqn:E.
    + apply Z.eqb_eq in E.
      destruct (IH (sun_df ++ [sun_row w d (content (sunrise_sunset w d))])
                   (requests ++ [d]))
        as [[Hall Heq] | [served [failed [rest' [Hd [Hs [Hf Heq]]]]]]].
      * left. split; [now constructor|].
        rewrite Heq, <- !app_assoc. reflexivity.
      * right. exists (d :: served), failed, rest'.
        split; [now rewrite Hd|]. split; [now constructor|].
        split; [assumption|].
        rewrite Heq, <- !app_assoc. reflexivity.
    + apply Z.eqb_neq in E. right. exists [], d, rest.
      repeat split; try constructor. assumption.
Qed.

(** C7 (amended).  When the almanac refuses one of the missing dates,
    step4 ends with the error: it has asked for the dates before the
    refused one and for that one, and for none after it; the disk is
    exactly as it was before the stage, so the solar archive written by
    earlier runs is untouched and the rows built for the earlier dates of
    this run are not written. *)
Theorem step4_failure_leaves_disk (w : World) (disk : Disk)
    (complete_dates_ls : list Z) (e : exn) :
  snd (step4 w disk complete_dates_ls) = Raise e ->
  snd (fst (step4 w disk complete_dates_ls)) = disk
  /\ exists served failed rest,
      new_sun_dates
        (match sun_df_pkl disk with Some df => df | None => [] end)
        complete_dates_ls
      = served ++ failed :: rest
      /\ Forall (almanac_ok w) served
      /\ ~ almanac_ok w failed
      /\ fst (fst (step4 w disk complete_dates_ls)) = served ++ [failed]
      /\ e = ResponseError (status_code (sunrise_sunset w failed)).
Proof.
  unfold step4.
  set (sun_df := match sun_df_pkl disk with Some df => df | None => [] end).
  destruct (step4_loop_spec w (new_sun_dates sun_df complete_dates_ls)
              sun_df [])
    as [[_ Heq] | [served [failed [rest [Hd [Hs [Hf Heq]]]]]]];
    rewrite Heq; cbn [fst snd]; intros H; [discriminate|].
  split; [reflexivity|].
  exists served, failed, rest. inversion H. repeat split; assumption.
Qed.

Lemma step4_failure_leaves_disk_witness :
  snd (step4 refusing_world disk_with_one_sun_row
         [jan 9; jan 10; jan 11; jan 12])
  = Raise (ResponseError 400)
  /\ snd (fst (step4 refusing_world disk_with_one_sun_row
                 [jan 9; jan 10; jan 11; jan 12]))
     = disk_with_one_sun_row.
Proof.
  split; [vm_compute; reflexivity|].
  apply (step4_failure_leaves_disk refusing_world disk_with_one_sun_row
           [jan 9; jan 10; jan 11; jan 12] (ResponseError 400)).
  vm_compute. reflexivity.
Defined.

(** C7, as stated, fails: the row built for 10 January, the date served
    before the refused one, is not in the solar archive afterwards. *)
Lemma served_rows_lost_on_failure :
  let '(requests, disk', r) :=
    step4 refusing_world disk_with_one_sun_row
          [jan 9; jan 10; jan 11; jan 12] in
  r = Raise (ResponseError 400)
  /\ requests = [jan 10; jan 11]
  /\ almanac_ok refusing_world (jan 10)
  /\ exists sun_df,
      sun_df_pkl disk' = Some sun_df
      /\ map sun_Date sun_df = [jan 9]
      /\ ~ In (jan 10) (map sun_Date sun_df).
Proof.
  vm_compute.
  split; [reflexivity|]. split; [reflexivity|]. split; [reflexivity|].
  eexists. split; [reflexivity|]. split; [reflexivity|].
  intros [H | []]. discriminate.
Qed.

(* ------------------------------------------------------------------ *)
(** ** The legacy data: naps and after-midnight sessions *)

(** The two comparisons of [daytime_asleep_bool] cover every number: the
    test is true whenever the bed time is known. *)
Lemma daytime_asleep_bool_known (r : SleepRow) (x : Q) :
  s_Bed_ToD r = Some x -> daytime_asleep_bool r = true.
Proof.
  unfold daytime_asleep_bool. intros ->.
  destruct (Qle_bool 7 x) eqn:E; [|now rewrite orb_true_r].
  apply Qle_bool_iff in E.
  assert (H : (-3 < x)%Q) by (eapply Qlt_le_trans; [|exact E]; reflexivity).
  apply Qgtb_true in H. now rewrite H.
Qed.

(** Which legacy rows are kept, in terms of their cells. *)
Lemma ms3_keep_spec (r : SleepRow) :
  ms3_keep r = true <->
  exists total,
    s_Total_Dur r = Some total
    /\ (4 * 3600 <= total \/ s_Bed_ToD r = None).
Proof.
  unfold ms3_keep, nap_bool, unknown_dur_bool, brief_sleep_bool.
  destruct (s_Total_Dur r) as [total|]; simpl.
  - rewrite andb_true_r, negb_true_iff, andb_false_iff, Z.ltb_ge. split.
    + intros [H | H]; exists total; (split; [reflexivity|]); [now left|].
      destruct (s_Bed_ToD r) as [x|] eqn:E; [|now right].
      unfold daytime_asleep_bool in H. rewrite E in H.
      pose proof (daytime_asleep_bool_known r x E) as H'.
      unfold daytime_asleep_bool in H'. rewrite E in H'. congruence.
    + intros [t [Ht [H | H]]]; inversion Ht; subst; [now left | right].
      unfold daytime_asleep_bool. now rewrite H.
  - split; [discriminate|].
    intros [t [Ht _]]. discriminate.
Qed.

(** C8 fails on the code: a legacy session of three hours that began at
    23:30, which is not in any daytime window, is dropped as a nap. *)
Theorem short_night_sleep_dropped :
  exists short full_night,
    ms2_rows short_night_world short_night_then_full_night
    = [short; full_night]
    /\ s_Total_Dur short = Some (3 * 3600)
    /\ option_map hour (s_Bed_Time short) = Some 23
    /\ option_map minute (s_Bed_Time short) = Some 30
    /\ daytime_asleep_bool short = true
    /\ ms3_rows short_night_world = [full_night].
Proof.
  eexists. eexists.
  split; [vm_compute; reflexivity|].
  split; [vm_compute; reflexivity|].
  split; [vm_compute; reflexivity|].
  split; [vm_compute; reflexivity|].
  split; vm_compute; reflexivity.
Qed.

Lemma set_row_middle {A} (done : list A) (a a' : A) (rest : list A) :
  set_row (length done) a' (done ++ a :: rest) = done ++ a' :: rest.
Proof.
  induction done as [|x t IH]; simpl; [reflexivity | now rewrite IH].
Qed.

Lemma nth_error_middle {A} (done : list A) (a : A) (rest : list A) :
  nth_error (done ++ a :: rest) (length done) = Some a.
Proof.
  induction done as [|x t IH]; simpl; [reflexivity | assumption].
Qed.

Lemma adjust_step_middle (done : list (Z * option Timestamp))
    (a : Z * option Timestamp) (rest : list (Z * option Timestamp)) :
  adjust_step (done ++ a :: rest) (length done)
  = done ++ adjust_row a :: rest.
Proof.
  unfold adjust_step. rewrite nth_error_middle.
  destruct a as [prev_day [bed|]]; simpl; [|reflexivity].
  destruct (hour bed <? 12); [apply set_row_middle | reflexivity].
Qed.

Lemma adjust_loop_visits (todo : list (Z * option Timestamp)) :
  forall done tail,
    fold_left adjust_step (seq (length done) (length todo))
              (done ++ todo ++ tail)
    = done ++ map adjust_row todo ++ tail.
Proof.
  induction todo as [|a t IH]; intros done tail; [reflexivity|].
  cbn [length seq fold_left map app].
  rewrite adjust_step_middle.
  replace (S (length done)) with (length (done ++ [adjust_row a]))
    by (rewrite length_app; simpl; lia).
  replace (done ++ adjust_row a :: t ++ tail)
    with ((done ++ [adjust_row a]) ++ t ++ tail)
    by (now rewrite <- app_assoc).
  rewrite IH, <- app_assoc. reflexivity.
Qed.

(** The loop visits every row but the last one. *)
Lemma adjust_prev_day_all_but_last (rows : list (Z * option Timestamp))
    (final : Z * option Timestamp) :
  adjust_prev_day (rows ++ [final]) = map adjust_row rows ++ [final].
Proof.
  unfold adjust_prev_day.
  replace (length (rows ++ [final]) - 1)%nat with (length rows)
    by (rewrite length_app; simpl; lia).
  exact (adjust_loop_visits rows [] [final]).
Qed.

(** C9 fails on the code: of two legacy sessions that began after
    midnight the first is moved to the day before, the last row of the
    table keeps its recorded date. *)
Theorem last_legacy_row_keeps_its_date :
  exists first_row last_row,
    ms3_rows two_late_nights_world = [first_row; last_row]
    /\ option_map hour (s_Bed_Time first_row) = Some 0
    /\ s_Prev_Day first_row = days_from_civil 2016 5 1
    /\ option_map hour (s_Bed_Time last_row) = Some 1
    /\ s_Prev_Day last_row = days_from_civil 2016 5 3.
Proof.
  eexists. eexists.
  split; [vm_compute; reflexivity|].
  split; [vm_compute; reflexivity|].
  split; [vm_compute; reflexivity|].
  split; vm_compute; reflexivity.
Qed.

(* ------------------------------------------------------------------ *)
(** ** Running the pipeline again *)

Lemma filter_all {A} (f : A -> bool) (l : list A) :
  (forall x, In x l -> f x = true) -> filter f l = l.
Proof.
  intros H. apply forallb_filter_id, forallb_forall, H.
Qed.

Lemma filter_none {A} (f : A -> bool) (l : list A) :
  (forall x, In x l -> f x = false) -> filter f l = [].
Proof.
  induction l as [|a t IH]; simpl; intros H; [reflexivity|].
  rewrite (H a (or_introl eq_refl)). apply IH. intros x Hx. apply H. now right.
Qed.

Lemma NoDup_app_disjoint {A} (l1 l2 : list A) (a : A) :
  NoDup (l1 ++ l2) -> In a l1 -> ~ In a l2.
Proof.
  induction l1 as [|x t IH]; simpl; intros Hnd Hin; [contradiction|].
  inversion Hnd as [|? ? Hx Ht]; subst. destruct Hin as [-> | Hin].
  - intros Ha. apply Hx. apply in_app_iff. now right.
  - now apply IH.
Qed.

Lemma ascending_app_le {A} (key : A -> Z) (l1 l2 : list A) (a b : A) :
  ascending key (l1 ++ l2) -> In a l1 -> In b l2 -> key a <= key b.
Proof.
  unfold ascending. induction l1 as [|x t IH]; simpl; intros Hs Ha Hb;
    [contradiction|].
  inversion Hs as [|? ? Ht Hx]; subst. destruct Ha as [-> | Ha].
  - rewrite Forall_forall in Hx. apply Hx, in_app_iff. now right.
  - now apply IH.
Qed.

(** The run of null-total rows at the head of [rows] ends at a row with a
    known total. *)
Lemma leading_unknown_stops (rows : list Night) (l : list Z) :
  leading_unknown rows = Some l ->
  exists pre r rest,
    rows = pre ++ r :: rest
    /\ Forall (fun x => Total_Dur x = None) pre
    /\ Total_Dur r <> None
    /\ l = map Prev_Day pre.
Proof.
  revert l. induction rows as [|x t IH]; simpl; intros l H; [discriminate|].
  destruct (Total_Dur x) as [s|] eqn:E; simpl in H.
  - inversion H; subst. exists [], x, t.
    repeat split; [constructor | congruence].
  - destruct (leading_unknown t) as [l'|]; [|discriminate].
    inversion H; subst.
    destruct (IH l' eq_refl) as [pre [r [rest [-> [Hpre [Hr ->]]]]]].
    exists (x :: pre), r, rest. repeat split; [now constructor | assumption].
Qed.

(** With pairwise distinct dates the trim cuts the table after its last
    row with a known total. *)
Lemma trim_trailing_shape (df archive : list Night) :
  trim_trailing df = Ok archive ->
  NoDup (map Prev_Day df) ->
  exists kept r trimmed,
    df = (kept ++ [r]) ++ trimmed
    /\ archive = kept ++ [r]
    /\ Total_Dur r <> None
    /\ Forall (fun x => Total_Dur x = None) trimmed.
Proof.
  intros Htrim Hnd. apply trim_trailing_Ok in Htrim.
  destruct Htrim as [unknown [Hunk ->]].
  rewrite unknown_nights_scan in Hunk.
  destruct (leading_unknown (rev df)) as [l|] eqn:E; [|discriminate].
  inversion Hunk; subst l.
  destruct (leading_unknown_stops _ _ E) as [pre [r [rest [Hrev [Hpre [Hr ->]]]]]].
  assert (Hdf : df = (rev rest ++ [r]) ++ rev pre).
  { rewrite <- (rev_involutive df), Hrev, rev_app_distr. simpl.
    now rewrite <- app_assoc. }
  exists (rev rest), r, (rev pre). split; [assumption|].
  split; [|split; [assumption | now apply Forall_rev]].
  rewrite Hdf at 1. rewrite filter_app.
  rewrite Hdf, map_app in Hnd.
  rewrite filter_all, filter_none; [apply app_nil_r | |].
  - intros x Hx. apply negb_false_iff, isin_In. now apply in_map, in_rev.
  - intros x Hx. apply negb_true_iff, isin_false.
    intros Hin. apply (NoDup_app_disjoint _ _ (Prev_Day x) Hnd).
    + now apply in_map.
    + rewrite map_rev. now apply in_rev in Hin.
Qed.

Lemma unknown_nights_last_known (l : list Night) (r : Night) :
  Total_Dur r <> None -> unknown_nights (l ++ [r]) = Ok [].
Proof.
  intros Hr. rewrite unknown_nights_scan, rev_app_distr. simpl.
  destruct (Total_Dur r); [reflexivity | congruence].
Qed.

(** Null-total rows after the last known night are trimmed again. *)
Lemma trim_trailing_null_tail (l : list Night) (r : Night) (tail : list Night) :
  Total_Dur r <> None ->
  Forall (fun x => Total_Dur x = None) tail ->
  (forall x, In x tail -> ~ In (Prev_Day x) (map Prev_Day (l ++ [r]))) ->
  trim_trailing ((l ++ [r]) ++ tail) = Ok (l ++ [r]).
Proof.
  intros Hr Hnull Hfresh. unfold trim_trailing.
  rewrite unknown_nights_scan.
  assert (Hrev : rev ((l ++ [r]) ++ tail) = rev tail ++ r :: rev l)
    by (rewrite !rev_app_distr; reflexivity).
  rewrite Hrev.
  assert (Hscan : forall rows rest,
             Forall (fun x => Total_Dur x = None) rows ->
             leading_unknown (rows ++ r :: rest) = Some (map Prev_Day rows)).
  { induction rows as [|x t IH]; intros rest Ht; simpl.
    - destruct (Total_Dur r); [reflexivity | congruence].
    - inversion Ht as [|? ? Hx Ht']; subst. rewrite Hx. simpl.
      now rewrite IH. }
  rewrite Hscan by (now apply Forall_rev). cbn [bind].
  rewrite filter_app, filter_all, filter_none; [now rewrite app_nil_r | |].
  - intros x Hx. apply negb_false_iff, isin_In. apply in_map. now apply -> in_rev.
  - intros x Hx. apply negb_true_iff, isin_false.
    intros Hin. apply in_map_iff in Hin.
    destruct Hin as [y [Hy Hin]]. apply in_rev in Hin.
    apply (Hfresh y Hin). rewrite Hy. now apply in_map.
Qed.

Lemma insert_row_front {A} (key : A -> Z) (x : A) (l : list A) :
  (forall y, In y l -> key x <= key y) -> insert_row key x l = x :: l.
Proof.
  destruct l as [|y t]; simpl; intros H; [reflexivity|].
  replace (key x <=? key y) with true; [reflexivity|].
  symmetry. apply Z.leb_le, H. now left.
Qed.

(** Rows that all come later than an ordered table are sorted behind
    it. *)
Lemma sort_values_app_late {A} (key : A -> Z) (a b : list A) :
  ascending key a ->
  (forall x y, In x a -> In y b -> key x <= key y) ->
  sort_values key (a ++ b) = a ++ sort_values key b.
Proof.
  unfold ascending. induction 1 as [|x t Ht IH Hx]; intros Hlate;
    [reflexivity|].
  cbn [app sort_values]. rewrite IH by (intros; apply Hlate; simpl; auto).
  apply insert_row_front. intros y Hy. apply in_app_iff in Hy.
  destruct Hy as [Hy | Hy].
  - rewrite Forall_forall in Hx. now apply Hx.
  - apply Hlate; [now left | now apply sort_values_In in Hy].
Qed.

Lemma json_records_map (records : list RawNight) :
  json_records (map Record_item records) = Ok records.
Proof.
  induction records as [|r t IH]; [reflexivity|].
  cbn [map json_records]. now rewrite IH.
Qed.

Lemma json_records_Ok (data : list Item) (records : list RawNight) :
  json_records data = Ok records -> data = map Record_item records.
Proof.
  revert records. induction data as [|[r|b] t IH]; intros records H.
  - now inversion H.
  - cbn [json_records] in H.
    destruct (json_records t) as [rs|e]; [|discriminate].
    inversion H; subst. cbn [map]. now rewrite (IH rs eq_refl).
  - discriminate.
Qed.

Lemma records_of_map (records : list RawNight) :
  records_of (map Record_item records) = records.
Proof.
  unfold records_of. induction records as [|r t IH]; [reflexivity|].
  cbn [map flat_map app]. now rewrite IH.
Qed.

Lemma step2_Ok (w : World) (disk : Disk) (dates : list Z)
    (data : list Item) :
  snd (step2 w disk dates) = Ok data ->
  step2 w disk dates
  = (fst (fst (step2 w disk dates)),
     {| garmin_sleep_df_pkl := garmin_sleep_df_pkl disk;
        new_garmin_sleep_json := Some data;
        all_sleep_descr_df_pkl := all_sleep_descr_df_pkl disk;
        all_sleep_event_df_pkl := all_sleep_event_df_pkl disk;
        sun_df_pkl := sun_df_pkl disk |},
     Ok data).
Proof.
  unfold step2.
  destruct (step2_loop w (length dates) dates [] []) as [requests [chunks|e]];
    cbn [fst snd]; intros H; [|discriminate].
  inversion H. reflexivity.
Qed.

(** What a run that ends well went through. *)
Lemma run_pipeline_Ok (w : World) (disk : Disk) :
  outcome (run_pipeline w disk) = Ok tt ->
  exists data archive descr events complete sun_df,
    login w = true
    /\ snd (step2 w disk (snd (step0 w disk))) = Ok (map Record_item data)
    /\ archive_merger w (stored_nights disk) data (snd (step0 w disk))
       = Ok archive
    /\ derive w archive = Ok (descr, events, complete)
    /\ snd (step4_loop w (new_sun_dates (stored_sun disk) complete)
                       (stored_sun disk) []) = Ok sun_df
    /\ disk_after (run_pipeline w disk)
       = mkDisk (Some archive) (Some (map Record_item data)) (Some descr)
                (Some events) (Some sun_df).
Proof.
  unfold run_pipeline.
  change (step0 w disk)
    with (fst (fst (step0 w disk)), stored_nights disk, snd (step0 w disk)).
  cbv iota beta.
  destruct (login w); [|discriminate].
  destruct (step2 w disk (snd (step0 w disk))) as [[requests disk2] r2] eqn:E2.
  destruct r2 as [items|e]; [|discriminate].
  pose proof (step2_Ok w disk (snd (step0 w disk)) items) as H2.
  rewrite E2 in H2. specialize (H2 eq_refl). inversion H2 as [Hdisk2].
  clear H2. unfold step3.
  destruct (json_records items) as [data|e] eqn:Ej; [|discriminate].
  apply json_records_Ok in Ej. subst items. cbn [bind].
  destruct (archive_merger w (stored_nights disk) data (snd (step0 w disk)))
    as [archive|e] eqn:E3; [|discriminate].
  destruct (derive w archive) as [[[descr events] complete]|e] eqn:Ed;
    [|discriminate].
  unfold step4. cbn [sun_df_pkl].
  change (match sun_df_pkl disk with Some df => df | None => [] end)
    with (stored_sun disk).
  destruct (step4_loop w (new_sun_dates (stored_sun disk) complete)
                       (stored_sun disk) []) as [sreqs [sun_df|e]] eqn:E4;
    [|discriminate].
  intros _. exists data, archive, descr, events, complete, sun_df.
  cbn [fst snd]. rewrite E2, E4. subst disk2. cbn [fst snd disk_after].
  split; [reflexivity|]. split; [reflexivity|]. split; [exact E3|].
  split; [exact Ed|]. split; reflexivity.
Qed.

Lemma missing_dates_step0 (w : World) (disk : Disk) :
  missing_dates (run_pipeline w disk) = snd (step0 w disk).
Proof.
  unfold run_pipeline.
  change (step0 w disk)
    with (fst (fst (step0 w disk)), stored_nights disk, snd (step0 w disk)).
  cbv iota beta. cbn [snd].
  destruct (login w); [|reflexivity].
  destruct (step2 w disk (snd (step0 w disk))) as [[requests disk2] [data|e]];
    [|reflexivity].
  destruct (step3 w disk2 (stored_nights disk) data (snd (step0 w disk)))
    as [disk3 [[[descr events] complete]|e]]; [|reflexivity].
  destruct (step4 w disk3 complete) as [[sreqs disk4] [sun_df|e]];
    reflexivity.
Qed.

(** A run whose steps all end well, put together. *)
Lemma run_pipeline_steps (w : World) (disk : Disk) (data : list RawNight)
    (archive : list Night) (descr : list DescrRow) (events : list EventRow)
    (complete sreqs : list Z) (sun_df : list SunRow) :
  login w = true ->
  snd (step2 w disk (snd (step0 w disk))) = Ok (map Record_item data) ->
  archive_merger w (stored_nights disk) data (snd (step0 w disk))
  = Ok archive ->
  derive w archive = Ok (descr, events, complete) ->
  step4_loop w (new_sun_dates (stored_sun disk) complete) (stored_sun disk) []
  = (sreqs, Ok sun_df) ->
  outcome (run_pipeline w disk) = Ok tt
  /\ sun_requests (run_pipeline w disk) = sreqs
  /\ disk_after (run_pipeline w disk)
     = mkDisk (Some archive) (Some (map Record_item data)) (Some descr)
              (Some events) (Some sun_df).
Proof.
  intros Hlogin H2 H3 Hd H4. unfold run_pipeline.
  change (step0 w disk)
    with (fst (fst (step0 w disk)), stored_nights disk, snd (step0 w disk)).
  cbv iota beta. rewrite Hlogin.
  rewrite (step2_Ok w disk (snd (step0 w disk)) _ H2).
  unfold step3. rewrite json_records_map. cbn [bind].
  rewrite H3, Hd. unfold step4. cbn [sun_df_pkl].
  change (match sun_df_pkl disk with Some df => df | None => [] end)
    with (stored_sun disk).
  rewrite H4. repeat split; reflexivity.
Qed.

Lemma converter_row_total (raw : RawNight) :
  Total_Dur (converter_row raw) = sleepTimeSeconds raw.
Proof.
  unfold converter_row. destruct (calendarDate raw) as [[y m] d].
  reflexivity.
Qed.

(** After a step4 that ended well every date it was given is in the
    solar table, so the same dates lead to no request at all. *)
Lemma step4_loop_covers (w : World) (sun_df0 sun_df : list SunRow)
    (complete : list Z) :
  snd (step4_loop w (new_sun_dates sun_df0 complete) sun_df0 []) = Ok sun_df ->
  step4_loop w (new_sun_dates sun_df complete) sun_df [] = ([], Ok sun_df).
Proof.
  intros H.
  destruct (step4_loop_spec w (new_sun_dates sun_df0 complete) sun_df0 [])
    as [[_ Heq] | [served [failed [rest [_ [_ [_ Heq]]]]]]];
    rewrite Heq in H; cbn [snd] in H; [|discriminate].
  inversion H as [Hsun]. clear H Heq.
  assert (Hcov : forall d, In d complete -> In d (map sun_Date sun_df)).
  { intros d Hd. rewrite <- Hsun, map_app, map_map, in_app_iff.
    cbn [almanac_row sun_row sun_Date]. rewrite map_id.
    unfold new_sun_dates. destruct (0 <? length sun_df0)%nat; [|now right].
    destruct (in_dec Z.eq_dec d (map sun_Date sun_df0)) as [Hin | Hnin];
      [now left | right].
    apply filter_In. split; [assumption|].
    now apply negb_true_iff, isin_false. }
  assert (Hnone : new_sun_dates sun_df complete = []).
  { unfold new_sun_dates. destruct sun_df as [|s t].
    - destruct complete as [|d c]; [reflexivity|].
      destruct (Hcov d (or_introl eq_refl)).
    - cbn [length Nat.ltb Nat.leb]. apply filter_none. intros d Hd.
      apply negb_false_iff, isin_In. now apply Hcov. }
  rewrite Hsun, Hnone. reflexivity.
Qed.

Lemma range_in_merged (w : World) (disk : Disk) (data : list RawNight)
    (d : Z) :
  In d (daterange (start_date w) (end_date w)) ->
  In d (map Prev_Day
          (merged_nights w (stored_nights disk) data (snd (step0 w disk)))).
Proof.
  intros Hd. apply merged_nights_covers.
  change (snd (step0 w disk))
    with (if (0 <? length (stored_nights disk))%nat
          then setdiff1d (daterange (start_date w) (end_date w))
                         (map Prev_Day (stored_nights disk))
          else daterange (start_date w) (end_date w)).
  destruct (0 <? length (stored_nights disk))%nat; [|now right].
  destruct (in_dec Z.eq_dec d (map Prev_Day (stored_nights disk)));
    [now left | right].
  apply setdiff1d_In. tauto.
Qed.

(** The archive a run leaves when the dates it merged were pairwise
    distinct: ordered, ending in a night with a known total, and every
    date of the range it lacks comes after all of its nights. *)
Lemma archive_after_merge (w : World) (disk : Disk) (data : list RawNight)
    (archive : list Night) :
  archive_merger w (stored_nights disk) data (snd (step0 w disk)) = Ok archive ->
  NoDup (map Prev_Day (stored_nights disk)) ->
  NoDup (map Prev_Day (converter data)) ->
  ascending Prev_Day archive
  /\ (exists kept r, archive = kept ++ [r] /\ Total_Dur r <> None)
  /\ (forall d,
         In d (daterange (start_date w) (end_date w)) ->
         ~ In d (map Prev_Day archive) ->
         Forall (fun a => Prev_Day a < d) archive).
Proof.
  intros Hm Hold Hnew. unfold archive_merger in Hm.
  set (merged := merged_nights w (stored_nights disk) data (snd (step0 w disk)))
    in *.
  assert (Hnd : NoDup (map Prev_Day merged))
    by (now apply merged_nights_NoDup).
  assert (Hasc : ascending Prev_Day merged) by apply merge_nights_ascending.
  destruct (trim_trailing_shape merged archive Hm Hnd)
    as [kept [r [trimmed [Hshape [-> [Hr Hnull]]]]]].
  split; [|split].
  - apply trim_trailing_Ok in Hm. destruct Hm as [unknown [_ Hf]].
    rewrite Hf. now apply filter_ascending.
  - now exists kept, r.
  - intros d Hd Hnin.
    pose proof (range_in_merged w disk data d Hd) as Hin. fold merged in Hin.
    rewrite Hshape, map_app, in_app_iff in Hin.
    destruct Hin as [Hin | Hin]; [contradiction|].
    apply in_map_iff in Hin. destruct Hin as [t [<- Ht]].
    apply Forall_forall. intros a Ha.
    rewrite Hshape in Hasc, Hnd.
    pose proof (ascending_app_le Prev_Day _ _ a t Hasc Ha Ht) as Hle.
    rewrite map_app in Hnd.
    assert (Prev_Day a <> Prev_Day t).
    { intros Heq.
      apply (NoDup_app_disjoint _ _ (Prev_Day a) Hnd); [now apply in_map|].
      rewrite Heq. now apply in_map. }
    lia.
Qed.

(** Merging fetched records that bring nothing new gives the archive
    back. *)
Lemma archive_merger_nothing_new (w : World) (archive : list Night)
    (data : list RawNight) (req : list Z) :
  ascending Prev_Day archive ->
  (exists kept r, archive = kept ++ [r] /\ Total_Dur r <> None) ->
  (forall d, In d req -> ~ In d (map Prev_Day archive) ->
             Forall (fun a => Prev_Day a < d) archive) ->
  (forall raw, In raw data -> nothing_new archive raw) ->
  archive_merger w archive data req = Ok archive.
Proof.
  intros Hasc [kept [r [Hshape Hr]]] Hreq Hdata.
  unfold archive_merger, merged_nights, merge_nights.
  replace (0 <? length archive)%nat with true
    by (rewrite Hshape, length_app; simpl; symmetry; apply Nat.ltb_lt; lia).
  set (new := filter (fun x => negb (isin (Prev_Day x) (map Prev_Day archive)))
                     (fill_missing req (map (clean_night w) (converter data)))).
  assert (Hnew : forall x, In x new ->
             Total_Dur x = None
             /\ ~ In (Prev_Day x) (map Prev_Day archive)
             /\ Forall (fun a => Prev_Day a < Prev_Day x) archive).
  { intros x Hx. apply filter_In in Hx. destruct Hx as [Hx Hfresh].
    apply negb_true_iff, isin_false in Hfresh.
    unfold fill_missing in Hx. apply in_app_iff in Hx.
    destruct Hx as [Hx | Hx].
    - apply in_map_iff in Hx. destruct Hx as [n [<- Hn]].
      apply in_map_iff in Hn. destruct Hn as [raw [<- Hraw]].
      destruct (Hdata raw Hraw) as [Harch | [Hnull Hlate]];
        [contradiction|].
      split; [|split; assumption].
      rewrite Total_Dur_clean. now rewrite converter_row_total.
    - apply in_map_iff in Hx. destruct Hx as [d [<- Hd]].
      apply setdiff1d_In in Hd. destruct Hd as [Hd _].
      split; [reflexivity|]. split; [assumption|].
      now apply Hreq. }
  rewrite sort_values_app_late; [|assumption|].
  - rewrite Hshape. apply trim_trailing_null_tail; [assumption | |].
    + apply Forall_forall. intros x Hx. apply sort_values_In in Hx.
      now apply Hnew.
    + intros x Hx. apply sort_values_In in Hx. rewrite <- Hshape.
      now apply Hnew.
  - intros a x Ha Hx. destruct (Hnew x Hx) as [_ [_ Hlate]].
    rewrite Forall_forall in Hlate. specialize (Hlate a Ha). lia.
Qed.

(** C2 (amended).  Let a first run end well, having merged pairwise
    distinct dates (in the archive it found and in the records it
    fetched).  Run the pipeline again in the same world.  If the requests
    of the second run succeed with records that bring nothing new (every
    fetched record is of an archived night, or is a still unconfirmed night
    after the last archived one), then the second run ends well, asks the
    almanac for nothing, and leaves the night archive, the description
    table, the event table and the solar table equal to those the first run
    left.
    The missing set of the second run need not be empty. *)
Theorem second_run_changes_nothing (w : World) (disk0 : Disk)
    (data2 : list RawNight) :
  let run1 := run_pipeline w disk0 in
  let run2 := run_pipeline w (disk_after run1) in
  outcome run1 = Ok tt ->
  NoDup (map Prev_Day (stored_nights disk0)) ->
  NoDup (map Prev_Day (converter (stored_json (disk_after run1)))) ->
  snd (step2 w (disk_after run1) (missing_dates run2))
  = Ok (map Record_item data2) ->
  (forall raw, In raw data2 ->
               nothing_new (stored_nights (disk_after run1)) raw) ->
  outcome run2 = Ok tt
  /\ sun_requests run2 = []
  /\ garmin_sleep_df_pkl (disk_after run2)
     = garmin_sleep_df_pkl (disk_after run1)
  /\ all_sleep_descr_df_pkl (disk_after run2)
     = all_sleep_descr_df_pkl (disk_after run1)
  /\ all_sleep_event_df_pkl (disk_after run2)
     = all_sleep_event_df_pkl (disk_after run1)
  /\ sun_df_pkl (disk_after run2) = sun_df_pkl (disk_after run1).
Proof.
  intros run1 run2 Hok Hold Hjson Hstep2 Hnothing.
  destruct (run_pipeline_Ok w disk0 Hok)
    as [data1 [archive1 [descr1 [events1 [complete1 [sun1
         [Hlogin [H2 [H3 [Hd [H4 Hdisk]]]]]]]]]]].
  fold run1 in Hdisk.
  set (disk1 := disk_after run1) in *.
  assert (Hnights : stored_nights disk1 = archive1) by (now rewrite Hdisk).
  assert (Hsun : stored_sun disk1 = sun1) by (now rewrite Hdisk).
  assert (Hdata1 : stored_json disk1 = data1)
    by (rewrite Hdisk; apply records_of_map).
  rewrite Hdata1 in Hjson. rewrite Hnights in Hnothing.
  destruct (archive_after_merge w disk0 data1 archive1 H3 Hold Hjson)
    as [Hasc [Hlast Hlate]].
  unfold run2 in Hstep2. rewrite missing_dates_step0 in Hstep2.
  assert (Hreq : forall d, In d (snd (step0 w disk1)) ->
                           In d (daterange (start_date w) (end_date w))).
  { intros d.
    change (snd (step0 w disk1))
      with (if (0 <? length (stored_nights disk1))%nat
            then setdiff1d (daterange (start_date w) (end_date w))
                           (map Prev_Day (stored_nights disk1))
            else daterange (start_date w) (end_date w)).
    destruct (0 <? length (stored_nights disk1))%nat; [|tauto].
    intros Hin. apply setdiff1d_In in Hin. tauto. }
  assert (H3' : archive_merger w (stored_nights disk1) data2
                  (snd (step0 w disk1)) = Ok archive1).
  { rewrite Hnights.
    apply archive_merger_nothing_new; try assumption.
    intros d Hin Hnin. apply Hlate; [now apply Hreq | assumption]. }
  pose proof (step4_loop_covers w (stored_sun disk0) sun1 complete1 H4) as H4'.
  rewrite <- Hsun in H4' at 1 2.
  destruct (run_pipeline_steps w disk1 data2 archive1 descr1 events1
              complete1 [] sun1 Hlogin Hstep2 H3' Hd H4')
    as [Hout [Hsreq Hdisk2]].
  fold run2 in Hout, Hsreq, Hdisk2.
  split; [assumption|]. split; [assumption|].
  rewrite Hdisk2, Hdisk. repeat split; reflexivity.
Qed.

Lemma second_run_changes_nothing_witness :
  missing_dates second_run = [jan 11]
  /\ outcome second_run = Ok tt
  /\ sun_requests second_run = []
  /\ garmin_sleep_df_pkl (disk_after second_run)
     = garmin_sleep_df_pkl (disk_after first_run)
  /\ all_sleep_descr_df_pkl (disk_after second_run)
     = all_sleep_descr_df_pkl (disk_after first_run)
  /\ all_sleep_event_df_pkl (disk_after second_run)
     = all_sleep_event_df_pkl (disk_after first_run)
  /\ sun_df_pkl (disk_after second_run) = sun_df_pkl (disk_after first_run).
Proof.
  split; [vm_compute; reflexivity|].
  apply (second_run_changes_nothing one_night_world empty_disk
           [raw_night (2020, 1, 11) (Some 27000)]).
  - vm_compute. reflexivity.
  - constructor.
  - distinct_dates.
  - vm_compute. reflexivity.
  - intros raw [<- | []]. left. vm_compute. left. reflexivity.
Defined.

(** C2, as stated, fails: with unchanged upstream data the second run
    does not find the missing set empty.  The last date of the range, whose
    placeholder the first run trimmed, is missing again and is requested
    again. *)
Lemma second_run_finds_missing_dates :
  outcome first_run = Ok tt
  /\ outcome second_run = Ok tt
  /\ missing_dates second_run = [jan 11]
  /\ missing_dates second_run <> []
  /\ sleep_requests second_run = [(jan 11, jan 11)].
Proof.
  split; [vm_compute; reflexivity|].
  split; [vm_compute; reflexivity|].
  split; [vm_compute; reflexivity|].
  split; [vm_compute; discriminate|].
  vm_compute. reflexivity.
Qed.

(* ================================================================== *)
(** * Further properties of the script *)

(* ------------------------------------------------------------------ *)
(** ** daterange and the gap detector *)

Lemma daterange_loop_steps (date1 : Z) (n : nat) :
  fold_left (fun date_ls (_ : nat) => date_ls ++ [last_date date_ls + 1])
            (seq 0 n) [date1]
  = map (fun k => date1 + Z.of_nat k) (seq 0 (S n)).
Proof.
  induction n as [|n IH].
  - simpl. f_equal. lia.
  - rewrite seq_S, fold_left_app, IH. cbn [fold_left].
    rewrite (seq_S (S n)), map_app. cbn [map Nat.add]. f_equal.
    unfold last_date. rewrite seq_S, map_app. cbn [map].
    rewrite last_last. f_equal. lia.
Qed.

(** X1.  The loop of [daterange] returns the consecutive dates
    [date1, date1 + 1, ...]: one more than the number of days from [date1]
    to [date2], strictly ascending, exactly the dates from [date1] to
    [date2] when [date1 <= date2]; for an inverted range it returns
    [date1] alone, never the empty list. *)
Theorem daterange_loop_consecutive (date1 date2 : Z) :
  daterange_loop date1 date2 = daterange date1 date2
  /\ length (daterange_loop date1 date2) = S (Z.to_nat (date2 - date1))
  /\ (forall i, (i < length (daterange_loop date1 date2))%nat ->
                nth_error (daterange_loop date1 date2) i
                = Some (date1 + Z.of_nat i))
  /\ StronglySorted Z.lt (daterange_loop date1 date2)
  /\ (forall d, date1 <= date2 ->
                (In d (daterange_loop date1 date2) <-> date1 <= d <= date2))
  /\ (date2 < date1 -> daterange_loop date1 date2 = [date1]).
Proof.
  assert (Heq : daterange_loop date1 date2 = daterange date1 date2)
    by apply daterange_loop_steps.
  rewrite Heq. split; [reflexivity|].
  unfold daterange. split; [now rewrite length_map, length_seq|].
  split; [|split; [|split]].
  - intros i Hi. rewrite length_map, length_seq in Hi.
    rewrite nth_error_map, nth_error_seq.
    replace (i <? S (Z.to_nat (date2 - date1)))%nat with true
      by (symmetry; now apply Nat.ltb_lt).
    reflexivity.
  - generalize (S (Z.to_nat (date2 - date1))) as n. intros n.
    generalize 0%nat as k. induction n as [|n IH]; intros k; simpl.
    + constructor.
    + constructor; [apply IH|].
      apply Forall_forall. intros d Hd. apply in_map_iff in Hd.
      destruct Hd as [j [<- Hj]]. apply in_seq in Hj. lia.
  - intros d Hle. fold (daterange date1 date2). rewrite daterange_In. lia.
  - intros Hlt. replace (Z.to_nat (date2 - date1)) with 0%nat by lia.
    simpl. f_equal. lia.
Qed.

(** X2.  What step0 reports.  With no archived night (file absent or
    empty) the whole range is missing, so the message is never "up to
    date".  With an archive, the missing dates are the dates of the range
    that no archived night has, each once, in ascending order.  The message
    says "up to date" exactly when nothing is missing, and otherwise
    carries the number of missing dates.  The archive handed on is the one
    on disk. *)
Theorem step0_missing_dates (w : World) (disk : Disk) :
  let msg := fst (fst (step0 w disk)) in
  let nights_df := snd (fst (step0 w disk)) in
  let missing := snd (step0 w disk) in
  nights_df = stored_nights disk
  /\ (stored_nights disk = [] ->
      missing = daterange (start_date w) (end_date w) /\ msg <> Up_to_date)
  /\ (stored_nights disk <> [] ->
      StronglySorted Z.lt missing
      /\ forall d, In d missing <->
                   In d (daterange (start_date w) (end_date w))
                   /\ ~ In d (map Prev_Day (stored_nights disk)))
  /\ (msg = Up_to_date <-> missing = [])
  /\ (forall n, msg = Nights_needed n -> n = length missing /\ (0 < n)%nat).
Proof.
  intros msg nights_df missing.
  assert (Hmissing : missing
            = if (0 <? length (stored_nights disk))%nat
              then setdiff1d (daterange (start_date w) (end_date w))
                             (map Prev_Day (stored_nights disk))
              else daterange (start_date w) (end_date w)) by reflexivity.
  assert (Hmsg : msg = if (length missing =? 0)%nat then Up_to_date
                       else Nights_needed (length missing)) by reflexivity.
  split; [reflexivity|].
  split; [|split; [|split]].
  - intros Hempty. rewrite Hempty in Hmissing.
    cbn [length Nat.ltb Nat.leb] in Hmissing.
    split; [assumption|]. rewrite Hmsg, Hmissing. unfold daterange.
    rewrite length_map, length_seq. discriminate.
  - intros Hne. destruct (stored_nights disk) as [|r t]; [congruence|].
    cbn [length Nat.ltb Nat.leb] in Hmissing. rewrite Hmissing.
    split; [apply setdiff1d_strict | intros d; apply setdiff1d_In].
  - rewrite Hmsg. destruct missing as [|d t]; simpl; split; congruence.
  - intros n Hn. rewrite Hmsg in Hn. destruct missing as [|d t];
      simpl in Hn; [discriminate|].
    inversion Hn. simpl. split; [reflexivity | lia].
Qed.

(* ------------------------------------------------------------------ *)
(** ** More on the download loop (step2) *)

Lemma step2_loop_trace (w : World) (fuel : nat) :
  forall (dates : list Z) (data : list (list Item))
         (requests : list (Z * Z)),
    (length dates <= fuel)%nat ->
    exists new,
      fst (step2_loop w fuel dates data requests) = requests ++ new
      /\ Forall (inside_missing dates) new
      /\ (length new <= length dates)%nat.
Proof.
  induction fuel as [|fuel IH]; intros dates data requests Hlen.
  - destruct dates; [|simpl in Hlen; lia]. exists []. simpl.
    rewrite app_nil_r. split; [reflexivity|]. split; [constructor | lia].
  - destruct dates as [|d0 rest].
    { exists []. simpl. rewrite app_nil_r. split; [reflexivity|].
      split; [constructor | lia]. }
    cbn [step2_loop].
    destruct (next_period_spec d0 rest) as [Hin [Hmin [Hw Hcov]]].
    change (fold_left Z.min rest d0) with (fst (next_period d0 rest)).
    change (if max_period_delta - 1
               <? fold_left Z.max rest d0 - fst (next_period d0 rest)
            then fst (next_period d0 rest) + max_period_delta
            else fold_left Z.max rest d0)
      with (snd (next_period d0 rest)).
    rewrite <- surjective_pairing.
    assert (Hend : exists d, In d (d0 :: rest) /\ snd (next_period d0 rest) <= d).
    { destruct (fold_max_spec rest d0) as [Hmax_in _].
      exists (fold_left Z.max rest d0). split; [assumption|].
      unfold next_period. cbn [snd fst].
      destruct (max_period_delta - 1 <? _) eqn:E; [|lia].
      apply Z.ltb_lt in E. unfold max_period_delta in *. lia. }
    set (q := next_period d0 rest) in *.
    destruct (download_to_json_cases w q) as [[_ ->] | [_ ->]].
    + set (rest' := filter (fun d => snd q <? d) (d0 :: rest)).
      assert (Hshort : (length rest' < length (d0 :: rest))%nat).
      { apply (filter_drops_one _ _ (fst q)); [assumption|].
        apply Z.ltb_ge. apply Hw. }
      destruct (IH rest' (data ++ [reply w q]) (requests ++ [q]))
        as [new [Hfst [Hins Hcount]]]; [simpl in *; lia|].
      exists (q :: new). rewrite <- app_assoc in Hfst.
      split; [exact Hfst|]. split; [|simpl in *; lia].
      constructor; [split; assumption|].
      eapply Forall_impl; [|exact Hins].
      intros a [Ha [d [Hd Hle]]]. split.
      * now apply filter_In in Ha.
      * exists d. split; [now apply filter_In in Hd | assumption].
    + exists [q]. cbn [fst snd].
      split; [reflexivity|].
      split; [constructor; [split; assumption | constructor]|].
      simpl; lia.
Qed.

Lemma step2_trace (w : World) (disk : Disk) (dates : list Z) :
  (forall chunks,
      snd (step2_loop w (length dates) dates [] []) = Ok chunks ->
      Forall (request_ok w) (fst (fst (step2 w disk dates))))
  /\ (forall e,
         snd (step2_loop w (length dates) dates [] []) = Raise e ->
         exists served q,
           fst (fst (step2 w disk dates)) = served ++ [q]
           /\ Forall (request_ok w) served
           /\ ~ request_ok w q
           /\ e = refusal w q).
Proof.
  destruct (step2_unfold w disk dates) as [-> _].
  destruct (step2_loop_spec w (length dates) dates [] [])
    as [new [Hfst [_ [_ [_ [_ [_ [Hok Hfail]]]]]]]];
    [lia | constructor | constructor | intros ? ? [] |].
  simpl in Hfst. rewrite Hfst. split.
  - intros chunks H. now apply (Hok chunks).
  - exact Hfail.
Qed.

(** X3.  A request that is not served stops the download.  A request is
    not served when the provider answers it with a status other than 200,
    or with a body that is neither ASCII nor readable by brotli.  If step2
    makes such a request, it is the last request it makes, every request
    before it was served, step2 ends in the exception of that request (the
    one raised for the status, or the one of [brotli.decompress]), and no
    file is written: the disk is the one step2 found, whatever the earlier
    replies held.  A step2 that fails has made such a request. *)
Theorem step2_refused_request (w : World) (disk : Disk)
    (new_req_dates_ls : list Z) :
  let requests := fst (fst (step2 w disk new_req_dates_ls)) in
  let result := snd (step2 w disk new_req_dates_ls) in
  (forall q,
      In q requests -> ~ request_ok w q ->
      result = Raise (refusal w q)
      /\ snd (fst (step2 w disk new_req_dates_ls)) = disk
      /\ exists served,
          requests = served ++ [q] /\ Forall (request_ok w) served)
  /\ (forall e,
         result = Raise e ->
         exists q, In q requests /\ ~ request_ok w q /\ e = refusal w q).
Proof.
  intros requests result. subst requests result.
  destruct (step2_trace w disk new_req_dates_ls) as [Hok Hfail].
  unfold step2 in *.
  destruct (step2_loop w (length new_req_dates_ls) new_req_dates_ls [] [])
    as [requests [chunks|e']]; cbn [fst snd] in *.
  - split; [|discriminate].
    intros q Hq Hbad. exfalso. apply Hbad.
    specialize (Hok chunks eq_refl). rewrite Forall_forall in Hok.
    now apply Hok.
  - destruct (Hfail e' eq_refl) as [served [q' [-> [Hs [Hq' ->]]]]]. split.
    + intros q Hq Hbad. apply in_app_iff in Hq.
      destruct Hq as [Hq | [<- | []]].
      * exfalso. apply Hbad. rewrite Forall_forall in Hs. now apply Hs.
      * split; [reflexivity|]. split; [reflexivity|].
        exists served. split; [reflexivity | assumption].
    + intros e H. inversion H; subst e. exists q'.
      split; [apply in_app_iff; right; now left|]. split; [assumption|].
      reflexivity.
Qed.

(** X4.  Every request of step2 starts at one of the missing dates and
    ends no later than the latest of them, so no request is made for a
    period without a missing date at its start, and there are at most as
    many requests as missing dates.  With nothing missing there is no
    request at all: the result is the empty list, and the raw JSON file is
    overwritten with it. *)
Theorem step2_requests_inside_missing (w : World) (disk : Disk)
    (new_req_dates_ls : list Z) :
  Forall (inside_missing new_req_dates_ls)
         (fst (fst (step2 w disk new_req_dates_ls)))
  /\ (length (fst (fst (step2 w disk new_req_dates_ls)))
      <= length new_req_dates_ls)%nat
  /\ (new_req_dates_ls = [] ->
      fst (fst (step2 w disk new_req_dates_ls)) = []
      /\ snd (step2 w disk new_req_dates_ls) = Ok []
      /\ new_garmin_sleep_json (snd (fst (step2 w disk new_req_dates_ls)))
         = Some []).
Proof.
  assert (H : Forall (inside_missing new_req_dates_ls)
                     (fst (fst (step2 w disk new_req_dates_ls)))
              /\ (length (fst (fst (step2 w disk new_req_dates_ls)))
                  <= length new_req_dates_ls)%nat).
  { destruct (step2_unfold w disk new_req_dates_ls) as [-> _].
    destruct (step2_loop_trace w (length new_req_dates_ls) new_req_dates_ls
                [] [] (Nat.le_refl _)) as [new [Hfst [Hins Hcount]]].
    simpl in Hfst. rewrite Hfst. split; assumption. }
  destruct H as [Hins Hcount].
  split; [assumption|]. split; [assumption|].
  intros ->. repeat split; reflexivity.
Qed.

Lemma step2_refused_request_witness :
  fst (fst (step2 busy_world empty_disk (daterange (jan 1) (jan 1 + 64))))
  = [(jan 1, jan 1 + 31); (jan 1 + 32, jan 1 + 63)]
  /\ snd (step2 busy_world empty_disk (daterange (jan 1) (jan 1 + 64)))
     = Raise (ResponseError 429)
  /\ snd (fst (step2 busy_world empty_disk (daterange (jan 1) (jan 1 + 64))))
     = empty_disk.
Proof.
  split; [vm_compute; reflexivity|].
  destruct (proj1 (step2_refused_request busy_world empty_disk
                     (daterange (jan 1) (jan 1 + 64)))
                  (jan 1 + 32, jan 1 + 63)) as [Hres [Hdisk _]].
  - vm_compute. right. left. reflexivity.
  - intros [H _]. vm_compute in H. discriminate.
  - split; [exact Hres | exact Hdisk].
Defined.

(* ------------------------------------------------------------------ *)
(** ** More on the merge and the trim (step3) *)

Lemma merged_nights_In (w : World) (nights_df : list Night)
    (data : list RawNight) (req : list Z) (r : Night) :
  In r (merged_nights w nights_df data req) <->
  In r nights_df
  \/ (~ In (Prev_Day r) (map Prev_Day nights_df)
      /\ ((exists raw, In raw data /\ r = clean_night w (converter_row raw))
          \/ (exists d, In d req
                        /\ ~ In d (map Prev_Day (converter data))
                        /\ r = new_missing_row d))).
Proof.
  unfold merged_nights.
  rewrite (Permutation_in' (eq_refl r) (merge_nights_perm _ _)).
  unfold merge_input. rewrite in_app_iff, filter_In, negb_true_iff, isin_false.
  unfold fill_missing. rewrite in_app_iff, !in_map_iff, Prev_Day_clean.
  split.
  - intros [H | [[[n [<- Hn]] | [d [<- Hd]]] Hna]]; [now left | |].
    + apply in_map_iff in Hn. destruct Hn as [raw [<- Hraw]].
      right. split; [assumption|]. left. now exists raw.
    + apply setdiff1d_In in Hd. right. split; [assumption|].
      right. exists d. tauto.
  - intros [H | [Hna [[raw [Hraw ->]] | [d [Hd [Hnf ->]]]]]]; [now left | |].
    + right. split; [|assumption]. left. exists (converter_row raw).
      split; [reflexivity | now apply in_map].
    + right. split; [|assumption]. right. exists d.
      split; [reflexivity|]. apply setdiff1d_In. tauto.
Qed.

(** X5.  What the merge keeps.  Every archived row is in the merged
    table, and a night that was archived keeps its archived rows only: a
    fetched record for it is dropped.  A fetched record of a night that was
    not archived is in the merged table (with its times shown in local
    time), and so is a null placeholder for every requested date that is
    neither archived nor fetched.  Nothing else is in the table. *)
Theorem merged_nights_rows (w : World) (nights_df : list Night)
    (data : list RawNight) (new_req_dates_ls : list Z) :
  let merged := merged_nights w nights_df data new_req_dates_ls in
  let archived d := In d (map Prev_Day nights_df) in
  let fetched d := In d (map Prev_Day (converter data)) in
  (forall r, In r nights_df -> In r merged)
  /\ (forall r, In r merged -> archived (Prev_Day r) -> In r nights_df)
  /\ (forall raw, In raw data -> ~ archived (Prev_Day (converter_row raw)) ->
                  In (clean_night w (converter_row raw)) merged)
  /\ (forall d, In d new_req_dates_ls -> ~ archived d -> ~ fetched d ->
                In (new_missing_row d) merged)
  /\ (forall r, In r merged ->
                In r nights_df
                \/ (exists raw, In raw data
                                /\ r = clean_night w (converter_row raw))
                \/ (exists d, In d new_req_dates_ls /\ ~ fetched d
                              /\ r = new_missing_row d)).
Proof.
  intros merged archived fetched. unfold merged.
  split; [|split; [|split; [|split]]].
  - intros r Hr. apply merged_nights_In. now left.
  - intros r Hr Ha. apply merged_nights_In in Hr. tauto.
  - intros raw Hraw Hna. apply merged_nights_In. right.
    split; [exact Hna|]. left. now exists raw.
  - intros d Hd Hna Hnf. apply merged_nights_In. right.
    split; [exact Hna|]. right. now exists d.
  - intros r Hr. apply merged_nights_In in Hr.
    destruct Hr as [Hr | [_ Hr]]; [now left | now right].
Qed.

Lemma isin_rev (d : Z) (l : list Z) : isin d (rev l) = isin d l.
Proof.
  destruct (isin d l) eqn:E.
  - apply isin_In. apply isin_In in E. now apply -> in_rev.
  - apply isin_false. apply isin_false in E. intros H. apply E.
    now apply in_rev.
Qed.

(** X6.  What the trailing trim removes.  When the trim returns, the
    table ends in a (possibly empty) run of rows with null total duration
    after a last row with a known one.  The archive is the part of the
    table up to that last row, without the rows that share their date with
    a row of the trailing run.  If the dates of the table are pairwise
    distinct it is exactly that part: rows with a null total before the
    last known night stay in the archive. *)
Theorem trailing_trim_rows (nights_df archive : list Night) :
  trim_trailing nights_df = Ok archive ->
  exists kept last_known trimmed,
    nights_df = (kept ++ [last_known]) ++ trimmed
    /\ Total_Dur last_known <> None
    /\ Forall (fun r => Total_Dur r = None) trimmed
    /\ archive
       = filter (fun r => negb (isin (Prev_Day r) (map Prev_Day trimmed)))
                (kept ++ [last_known])
    /\ (NoDup (map Prev_Day nights_df) -> archive = kept ++ [last_known]).
Proof.
  intros Htrim. pose proof Htrim as Hshape.
  apply trim_trailing_Ok in Htrim. destruct Htrim as [unknown [Hunk ->]].
  rewrite unknown_nights_scan in Hunk.
  destruct (leading_unknown (rev nights_df)) as [l|] eqn:E; [|discriminate].
  inversion Hunk; subst l.
  destruct (leading_unknown_stops _ _ E)
    as [pre [r [rest [Hrev [Hpre [Hr ->]]]]]].
  assert (Hdf : nights_df = (rev rest ++ [r]) ++ rev pre).
  { rewrite <- (rev_involutive nights_df), Hrev, rev_app_distr. simpl.
    now rewrite <- app_assoc. }
  exists (rev rest), r, (rev pre).
  split; [assumption|]. split; [assumption|].
  split; [now apply Forall_rev|]. split.
  - rewrite Hdf at 1. rewrite filter_app.
    rewrite (filter_none _ (rev pre)).
    + rewrite app_nil_r. apply filter_ext. intros x.
      now rewrite map_rev, isin_rev.
    + intros x Hx. apply negb_false_iff, isin_In. now apply in_map, in_rev.
  - intros Hnd.
    destruct (trim_trailing_shape nights_df _ Hshape Hnd)
      as [kept' [r' [trimmed' [_ [Harch _]]]]].
    rewrite Hdf, map_app in Hnd. rewrite Hdf at 1. rewrite filter_app.
    rewrite filter_all, filter_none; [apply app_nil_r | |].
    + intros x Hx. apply negb_false_iff, isin_In. now apply in_map, in_rev.
    + intros x Hx. apply negb_true_iff, isin_false. intros Hin.
      apply (NoDup_app_disjoint _ _ (Prev_Day x) Hnd); [now apply in_map|].
      rewrite map_rev. now apply -> in_rev.
Qed.

(** A null night in the middle and two at the end. *)
Lemma trailing_trim_rows_witness :
  trim_trailing [night_of 1 (Some 28800); night_of 2 None;
                 night_of 3 (Some 27000); night_of 4 None; night_of 5 None]
  = Ok [night_of 1 (Some 28800); night_of 2 None; night_of 3 (Some 27000)]
  /\ exists kept last_known trimmed,
      [night_of 1 (Some 28800); night_of 2 None;
       night_of 3 (Some 27000); night_of 4 None; night_of 5 None]
      = (kept ++ [last_known]) ++ trimmed
      /\ Total_Dur last_known <> None
      /\ Forall (fun r => Total_Dur r = None) trimmed
      /\ [night_of 1 (Some 28800); night_of 2 None; night_of 3 (Some 27000)]
         = filter (fun r => negb (isin (Prev_Day r) (map Prev_Day trimmed)))
                  (kept ++ [last_known])
      /\ (NoDup (map Prev_Day
                   [night_of 1 (Some 28800); night_of 2 None;
                    night_of 3 (Some 27000); night_of 4 None;
                    night_of 5 None]) ->
          [night_of 1 (Some 28800); night_of 2 None; night_of 3 (Some 27000)]
          = kept ++ [last_known]).
Proof.
  split; [reflexivity|].
  apply (trailing_trim_rows
           [night_of 1 (Some 28800); night_of 2 None;
            night_of 3 (Some 27000); night_of 4 None; night_of 5 None]).
  reflexivity.
Defined.

(** X7.  When no archived night and no fetched record has a known total
    duration (in particular on a first run for which the provider returned
    no record at all), step3 on these records ends in the out-of-range
    error of the trim loop and writes no file. *)
Theorem step3_without_known_night (w : World) (disk : Disk)
    (nights_df : list Night) (data : list RawNight)
    (new_req_dates_ls : list Z) :
  (forall r, In r nights_df -> Total_Dur r = None) ->
  (forall raw, In raw data -> sleepTimeSeconds raw = None) ->
  step3 w disk nights_df (map Record_item data) new_req_dates_ls
  = (disk,
     Raise (IndexError
              (- (Z.of_nat
                    (length (merged_nights w nights_df data new_req_dates_ls))
                  + 1)))).
Proof.
  intros Hold Hnew. unfold step3. rewrite json_records_map. cbn [bind].
  unfold archive_merger, trim_trailing.
  rewrite unknown_nights_Raise; [reflexivity|].
  intros r Hr.
  apply merged_nights_In in Hr.
  destruct Hr as [H | [_ [[raw [Hraw ->]] | [d [_ [_ ->]]]]]].
  - now apply Hold.
  - rewrite Total_Dur_clean, converter_row_total. now apply Hnew.
  - reflexivity.
Qed.

Lemma step3_without_known_night_witness :
  step3 one_night_world empty_disk [] [] [jan 10; jan 11]
  = (empty_disk, Raise (IndexError (-3))).
Proof.
  apply (step3_without_known_night one_night_world empty_disk [] []
           [jan 10; jan 11]).
  - intros r [].
  - intros raw [].
Defined.

(* ------------------------------------------------------------------ *)
(** ** The combined data set and the derived tables *)

Lemma strict_sorted_ext (l l' : list Z) :
  StronglySorted Z.lt l -> StronglySorted Z.lt l' ->
  (forall d, In d l <-> In d l') -> l = l'.
Proof.
  intros Hl. revert l'. induction Hl as [|x t Ht IH Hx]; intros l' Hl' Hext.
  - destruct l' as [|y t']; [reflexivity|].
    destruct (proj2 (Hext y) (or_introl eq_refl)).
  - destruct Hl' as [|y t' Ht' Hy].
    { destruct (proj1 (Hext x) (or_introl eq_refl)). }
    rewrite Forall_forall in Hx, Hy.
    assert (x = y).
    { destruct (proj1 (Hext x) (or_introl eq_refl)) as [Hxy | Hxy];
        [now symmetry|].
      destruct (proj2 (Hext y) (or_introl eq_refl)) as [Hyx | Hyx];
        [assumption|].
      specialize (Hx y Hyx). specialize (Hy x Hxy). lia. }
    subst y. f_equal. apply IH; [assumption|].
    intros d. split; intros Hd.
    + destruct (proj1 (Hext d) (or_intror Hd)) as [<- | H]; [|assumption].
      specialize (Hx x Hd). lia.
    + destruct (proj2 (Hext d) (or_intror Hd)) as [<- | H]; [|assumption].
      specialize (Hy x Hd). lia.
Qed.

Lemma ascending_NoDup_strict {A} (key : A -> Z) (l : list A) :
  ascending key l -> NoDup (map key l) -> StronglySorted Z.lt (map key l).
Proof.
  unfold ascending. induction 1 as [|x t Ht IH Hx]; simpl; intros Hnd;
    [constructor|].
  inversion Hnd as [|? ? Hnin Hnd']; subst.
  constructor; [now apply IH|].
  apply Forall_forall. intros k Hk. apply in_map_iff in Hk.
  destruct Hk as [y [<- Hy]]. rewrite Forall_forall in Hx.
  specialize (Hx y Hy).
  assert (key x <> key y) by (intros Heq; apply Hnin; rewrite Heq;
                              now apply in_map).
  lia.
Qed.

Lemma daterange_strict (a b : Z) : StronglySorted Z.lt (daterange a b).
Proof.
  unfold daterange. generalize (S (Z.to_nat (b - a))) as n. intros n.
  generalize 0%nat as k. induction n as [|n IH]; intros k; simpl.
  - constructor.
  - constructor; [apply IH|].
    apply Forall_forall. intros d Hd. apply in_map_iff in Hd.
    destruct Hd as [j [<- Hj]]. apply in_seq in Hj. lia.
Qed.

Lemma min_max_date_spec (l : list Z) :
  l <> [] ->
  exists lo hi,
    min_date l = Ok lo /\ max_date l = Ok hi
    /\ In lo l /\ In hi l
    /\ forall d, In d l -> lo <= d <= hi.
Proof.
  destruct l as [|x t]; [congruence|]. intros _.
  destruct (fold_min_spec t x) as [Hmin_in Hmin].
  destruct (fold_max_spec t x) as [Hmax_in Hmax].
  exists (fold_left Z.min t x), (fold_left Z.max t x).
  repeat split; try assumption; [now apply Hmin | now apply Hmax].
Qed.

Lemma with_index_length {A} (index : nat -> Z) (df : list A) :
  length (with_index index df) = length df.
Proof.
  unfold with_index. rewrite length_combine, length_map, length_seq. lia.
Qed.

Lemma with_index_rows {A} (index : nat -> Z) (df : list A) :
  map snd (with_index index df) = df.
Proof.
  unfold with_index. generalize 0%nat as k.
  induction df as [|r t IH]; intros k; [reflexivity|].
  cbn [length seq map combine snd]. now rewrite IH.
Qed.

Lemma with_index_labels {A} (index : nat -> Z) (df : list A) :
  map fst (with_index index df) = map index (seq 0 (length df)).
Proof.
  unfold with_index. generalize 0%nat as k.
  induction df as [|r t IH]; intros k; [reflexivity|].
  cbn [length seq map combine fst]. now rewrite IH.
Qed.

Lemma loc_set_len_adds {A} (df : list (Z * A)) (row : A) :
  Forall (fun l => l < Z.of_nat (length df)) (map fst df) ->
  loc_set_len df row = df ++ [(Z.of_nat (length df), row)].
Proof.
  intros H. unfold loc_set_len.
  assert (E : isin (Z.of_nat (length df)) (map fst df) = false).
  { apply isin_false. intros Hin. rewrite Forall_forall in H.
    specialize (H _ Hin). lia. }
  now rewrite E.
Qed.

Lemma loc_set_len_overwrites {A} (df : list (Z * A)) (row : A) :
  In (Z.of_nat (length df)) (map fst df) ->
  loc_set_len df row = overwritten (Z.of_nat (length df)) row df.
Proof.
  intros H. unfold loc_set_len. apply isin_In in H. now rewrite H.
Qed.

Lemma overwritten_shape {A} (label : Z) (row : A) (df : list (Z * A)) :
  length (overwritten label row df) = length df
  /\ map fst (overwritten label row df) = map fst df.
Proof.
  unfold overwritten. split; [apply length_map|].
  induction df as [|x t IH]; [reflexivity|]. cbn [map]. rewrite IH.
  destruct (fst x =? label) eqn:E; [|reflexivity].
  apply Z.eqb_eq in E. cbn [fst]. now rewrite E.
Qed.

Lemma overwritten_twice {A} (label : Z) (row row' : A) (df : list (Z * A)) :
  overwritten label row' (overwritten label row df)
  = overwritten label row' df.
Proof.
  unfold overwritten. rewrite map_map. apply map_ext. intros x.
  destruct (fst x =? label) eqn:E; cbn [fst].
  - now rewrite Z.eqb_refl.
  - now rewrite E.
Qed.

(** The gap fill on a table none of whose labels is as large as its
    length: every write adds a row. *)
Lemma gap_fill_adds (dates : list Z) :
  forall df : list (Z * SleepRow),
    Forall (fun l => l < Z.of_nat (length df)) (map fst df) ->
    map snd (fold_left (fun df date => loc_set_len df (placeholder_row date))
                       dates df)
    = map snd df ++ map placeholder_row dates.
Proof.
  induction dates as [|d t IH]; intros df H.
  - cbn [fold_left map]. now rewrite app_nil_r.
  - cbn [fold_left]. rewrite (loc_set_len_adds _ _ H), IH.
    + rewrite map_app. cbn [map snd]. now rewrite <- app_assoc.
    + rewrite map_app, length_app. cbn [map fst length].
      apply Forall_app. split.
      * eapply Forall_impl; [|exact H]. intros l Hl. cbn beta in Hl. lia.
      * constructor; [lia | constructor].
Qed.

(** The gap fill on a table that has a row labelled with its length:
    every write goes to the rows of that label, and the last one stays. *)
Lemma gap_fill_overwrites_rows (dates : list Z) (last_date : Z) :
  forall df : list (Z * SleepRow),
    In (Z.of_nat (length df)) (map fst df) ->
    fold_left (fun df date => loc_set_len df (placeholder_row date))
              (dates ++ [last_date]) df
    = overwritten (Z.of_nat (length df)) (placeholder_row last_date) df.
Proof.
  induction dates as [|d t IH]; intros df H.
  - cbn [app fold_left]. now apply loc_set_len_overwrites.
  - cbn [app fold_left]. rewrite (loc_set_len_overwrites _ _ H).
    destruct (overwritten_shape (Z.of_nat (length df)) (placeholder_row d) df)
      as [Hlen Hlab].
    rewrite IH; rewrite Hlen; [apply overwritten_twice | now rewrite Hlab].
Qed.

Lemma labels_below_with_index {A} (index : nat -> Z) (df : list A) :
  labels_below index df ->
  Forall (fun l => l < Z.of_nat (length (with_index index df)))
         (map fst (with_index index df)).
Proof.
  intros H. rewrite with_index_length, with_index_labels.
  apply Forall_forall. intros l Hl. apply in_map_iff in Hl.
  destruct Hl as [i [<- Hi]]. apply in_seq in Hi. apply H. lia.
Qed.

Lemma positional_labels_below {A} (all_df : list SleepRow) (df : list A) :
  labels_below (positional_index all_df) df.
Proof. intros i Hi. unfold positional_index. lia. Qed.

(** The filled and sorted table of a table that is not empty, when none
    of its labels is as large as its length. *)
Lemma complete_all_df_Ok (index : nat -> Z) (all_df : list SleepRow) :
  all_df <> [] ->
  labels_below index all_df ->
  exists first_day last_day,
    min_date (map s_Prev_Day all_df) = Ok first_day
    /\ max_date (map s_Prev_Day all_df) = Ok last_day
    /\ first_day <= last_day
    /\ (forall d, In d (map s_Prev_Day all_df) -> first_day <= d <= last_day)
    /\ complete_all_df index all_df
       = Ok (sort_values s_Prev_Day
               (all_df
                ++ map placeholder_row
                     (setdiff1d (daterange first_day last_day)
                                (map s_Prev_Day all_df))),
             daterange first_day last_day).
Proof.
  intros Hne Hlab.
  destruct (min_max_date_spec (map s_Prev_Day all_df))
    as [lo [hi [Hmin [Hmax [Hlo [Hhi Hb]]]]]].
  { destruct all_df; [congruence | discriminate]. }
  exists lo, hi. split; [assumption|]. split; [assumption|].
  split; [apply (Hb lo Hlo)|]. split; [assumption|].
  unfold complete_all_df. rewrite Hmin, Hmax. cbn [bind].
  rewrite gap_fill_adds by (now apply labels_below_with_index).
  now rewrite with_index_rows.
Qed.

(** X8.  Filling the gaps of the combined data set.  On an empty table
    the step fails (the minimum of no dates).  On a table none of whose
    index labels is as large as its length, every write at the label
    [len(all_df)] adds a row: the step returns the table sorted by date,
    with all rows it was given and one placeholder for every calendar day
    between the first and the last date that no row has; the dates of the
    result are exactly the days from the first to the last date, which is
    also the list of dates handed on to step4.  When the dates given are
    pairwise distinct the result has one row per day, in calendar order. *)
Theorem complete_all_df_fills_gaps (index : nat -> Z)
    (all_df : list SleepRow) :
  (all_df = [] -> complete_all_df index all_df = Raise ValueError)
  /\ (all_df <> [] ->
      labels_below index all_df ->
      exists sorted first_day last_day,
        complete_all_df index all_df
        = Ok (sorted, daterange first_day last_day)
        /\ first_day <= last_day
        /\ In first_day (map s_Prev_Day all_df)
        /\ In last_day (map s_Prev_Day all_df)
        /\ ascending s_Prev_Day sorted
        /\ (forall r, In r all_df -> In r sorted)
        /\ (forall r, In r sorted ->
                      In r all_df
                      \/ (r = placeholder_row (s_Prev_Day r)
                          /\ ~ In (s_Prev_Day r) (map s_Prev_Day all_df)))
        /\ (forall d, In d (map s_Prev_Day sorted)
                      <-> first_day <= d <= last_day)
        /\ (NoDup (map s_Prev_Day all_df) ->
            map s_Prev_Day sorted = daterange first_day last_day)).
Proof.
  split; [intros ->; reflexivity|].
  intros Hne Hlab.
  destruct (complete_all_df_Ok index all_df Hne Hlab)
    as [lo [hi [Hmin [Hmax [Hle [Hb Heq]]]]]].
  destruct (min_max_date_spec (map s_Prev_Day all_df))
    as [lo' [hi' [Hmin' [Hmax' [Hlo [Hhi _]]]]]].
  { destruct all_df; [congruence | discriminate]. }
  assert (lo' = lo) by congruence. assert (hi' = hi) by congruence.
  subst lo' hi'.
  set (missing := setdiff1d (daterange lo hi) (map s_Prev_Day all_df)) in *.
  set (filled := all_df ++ map placeholder_row missing) in *.
  assert (Hdates : forall d, In d (map s_Prev_Day filled) <-> lo <= d <= hi).
  { intros d. unfold filled. rewrite map_app, map_map, in_app_iff.
    cbn [placeholder_row s_Prev_Day]. rewrite map_id.
    unfold missing. rewrite setdiff1d_In, daterange_In. split.
    - intros [H | [H _]]; [now apply Hb | lia].
    - intros H.
      destruct (in_dec Z.eq_dec d (map s_Prev_Day all_df)); [now left|].
      right. split; [lia | assumption]. }
  exists (sort_values s_Prev_Day filled), lo, hi.
  split; [assumption|]. split; [assumption|]. split; [assumption|].
  split; [assumption|]. split; [apply sort_values_ascending|].
  split; [|split; [|split]].
  - intros r Hr. apply sort_values_In. unfold filled. apply in_app_iff.
    now left.
  - intros r Hr. apply sort_values_In in Hr. unfold filled in Hr.
    apply in_app_iff in Hr. destruct Hr as [Hr | Hr]; [now left|].
    apply in_map_iff in Hr. destruct Hr as [d [<- Hd]].
    apply setdiff1d_In in Hd. right. split; [reflexivity | apply Hd].
  - intros d. rewrite <- Hdates. split; intros Hd;
      apply in_map_iff in Hd; destruct Hd as [r [<- Hr]]; apply in_map;
      now apply sort_values_In in Hr || apply sort_values_In.
  - intros Hnd. apply strict_sorted_ext.
    + apply ascending_NoDup_strict; [apply sort_values_ascending|].
      eapply Permutation_NoDup;
        [apply Permutation_sym, Permutation_map, sort_values_perm|].
      unfold filled. rewrite map_app, map_map.
      cbn [placeholder_row s_Prev_Day]. rewrite map_id.
      apply NoDup_app; [assumption | apply setdiff1d_NoDup|].
      intros d Hd Hd'. apply setdiff1d_In in Hd'. tauto.
    + apply daterange_strict.
    + intros d. rewrite daterange_In.
      assert (In d (map s_Prev_Day (sort_values s_Prev_Day filled))
              <-> In d (map s_Prev_Day filled)).
      { split; intros Hd; apply in_map_iff in Hd;
          destruct Hd as [r [<- Hr]]; apply in_map;
          now apply sort_values_In in Hr || apply sort_values_In. }
      rewrite H, Hdates. lia.
Qed.

Lemma complete_all_df_fills_gaps_witness :
  exists sorted first_day last_day,
    complete_all_df (positional_index (map garmin_row new_year_archive))
                    (map garmin_row new_year_archive)
    = Ok (sorted, daterange first_day last_day)
    /\ map s_Prev_Day sorted = daterange first_day last_day
    /\ length sorted = 4%nat.
Proof.
  destruct (complete_all_df_fills_gaps
              (positional_index (map garmin_row new_year_archive))
              (map garmin_row new_year_archive)) as [_ H].
  destruct H as [sorted [lo [hi [Heq [_ [_ [_ [_ [_ [_ [_ Hnd]]]]]]]]]]].
  - discriminate.
  - apply positional_labels_below.
  - exists sorted, lo, hi. split; [exact Heq|]. split.
    + apply Hnd. vm_compute.
      constructor; [intros [H | []]; discriminate|].
      constructor; [intros [] | constructor].
    + vm_compute in Heq. inversion Heq. reflexivity.
Defined.

Lemma with_index_In {A} (index : nat -> Z) (df : list A) (l : Z) (r : A) :
  In (l, r) (with_index index df)
  <-> exists i, nth_error df i = Some r /\ l = index i.
Proof.
  unfold with_index.
  assert (H : forall k,
             In (l, r) (combine (map index (seq k (length df))) df)
             <-> exists i, nth_error df i = Some r /\ l = index (k + i)%nat).
  { induction df as [|x t IH]; intros k.
    - split; [intros [] | intros [[|i] [Hi _]]; discriminate].
    - cbn [length seq map combine In]. rewrite IH. split.
      + intros [Heq | [i [Hi Hl]]].
        * inversion Heq; subst. exists 0%nat.
          split; [reflexivity | now rewrite Nat.add_0_r].
        * exists (S i). split; [exact Hi|].
          now replace (k + S i)%nat with (S k + i)%nat by lia.
      + intros [[|i] [Hi Hl]].
        * left. cbn in Hi. inversion Hi; subst.
          now rewrite Nat.add_0_r.
        * right. exists i. split; [exact Hi|].
          now replace (S k + i)%nat with (k + S i)%nat by lia. }
  apply (H 0%nat).
Qed.

Lemma overwritten_In {A} (label : Z) (row : A) (df : list (Z * A)) (r : A) :
  In r (map snd (overwritten label row df))
  <-> (r = row /\ In label (map fst df))
      \/ exists l, In (l, r) df /\ l <> label.
Proof.
  unfold overwritten. rewrite map_map, in_map_iff. split.
  - intros [[l x] [Hr Hin]]. cbn [fst] in Hr.
    destruct (l =? label) eqn:E.
    + apply Z.eqb_eq in E. subst l. cbn [snd] in Hr. subst r. left.
      split; [reflexivity|]. apply in_map_iff. now exists (label, x).
    + apply Z.eqb_neq in E. cbn [snd] in Hr. subst x. right. now exists l.
  - intros [[-> Hin] | [l [Hin Hl]]].
    + apply in_map_iff in Hin. destruct Hin as [[l x] [Hl Hin]].
      cbn [fst] in Hl. subst l. exists (label, x). split; [|exact Hin].
      cbn [fst]. now rewrite Z.eqb_refl.
    + exists (l, r). split; [|exact Hin]. cbn [fst].
      apply Z.eqb_neq in Hl. now rewrite Hl.
Qed.

(** X27.  The gap fill on a table one of whose rows carries the number of
    rows as its index label ([all_df] keeps the labels of the archive and of
    the CSV files until [reset_index]).  Every write of the loop then goes
    to the rows of that label instead of adding a row.  When the table has
    gaps, the step still ends well and still hands every day from the first
    to the last date on to step4, but its table has as many rows as before:
    the rows with that label are replaced by the placeholder of the last
    missing day, every other row stays, and no other missing day gets a
    row. *)
Theorem gap_fill_overwrites (index : nat -> Z) (all_df : list SleepRow)
    (first_day last_day : Z) (gaps : list Z) (last_gap : Z) :
  label_len_present index all_df ->
  min_date (map s_Prev_Day all_df) = Ok first_day ->
  max_date (map s_Prev_Day all_df) = Ok last_day ->
  setdiff1d (daterange first_day last_day) (map s_Prev_Day all_df)
  = gaps ++ [last_gap] ->
  exists sorted,
    complete_all_df index all_df = Ok (sorted, daterange first_day last_day)
    /\ length sorted = length all_df
    /\ ascending s_Prev_Day sorted
    /\ (forall r, In r sorted <->
                  r = placeholder_row last_gap
                  \/ exists i, nth_error all_df i = Some r
                               /\ index i <> Z.of_nat (length all_df))
    /\ (forall d, In d gaps ->
                  In d (daterange first_day last_day)
                  /\ ~ In d (map s_Prev_Day sorted)).
Proof.
  intros [i0 [Hi0 Hlabel]] Hmin Hmax Hgaps.
  set (len := Z.of_nat (length all_df)) in *.
  assert (Hpresent : In len (map fst (with_index index all_df))).
  { rewrite with_index_labels. apply in_map_iff. exists i0.
    split; [exact Hlabel|]. apply in_seq. lia. }
  assert (Heq : complete_all_df index all_df
                = Ok (sort_values s_Prev_Day
                        (map snd (overwritten len (placeholder_row last_gap)
                                              (with_index index all_df))),
                      daterange first_day last_day)).
  { unfold complete_all_df. rewrite Hmin, Hmax. cbn [bind]. rewrite Hgaps.
    rewrite gap_fill_overwrites_rows;
      rewrite with_index_length; [reflexivity | exact Hpresent]. }
  assert (Hin : forall r,
             In r (sort_values s_Prev_Day
                     (map snd (overwritten len (placeholder_row last_gap)
                                           (with_index index all_df))))
             <-> r = placeholder_row last_gap
                 \/ exists i, nth_error all_df i = Some r /\ index i <> len).
  { intros r. rewrite sort_values_In, overwritten_In. split.
    - intros [[-> _] | [l [Hl Hne]]]; [now left|]. right.
      apply with_index_In in Hl. destruct Hl as [i [Hi ->]]. now exists i.
    - intros [-> | [i [Hi Hne]]]; [left; now split|]. right.
      exists (index i). split; [|exact Hne]. apply with_index_In.
      now exists i. }
  eexists. split; [exact Heq|]. split.
  { rewrite sort_values_length, length_map.
    destruct (overwritten_shape len (placeholder_row last_gap)
                                (with_index index all_df)) as [-> _].
    apply with_index_length. }
  split; [apply sort_values_ascending|]. split; [exact Hin|].
  intros d Hd.
  assert (Hd' : In d (setdiff1d (daterange first_day last_day)
                                (map s_Prev_Day all_df)))
    by (rewrite Hgaps; apply in_app_iff; now left).
  apply setdiff1d_In in Hd'. destruct Hd' as [Hrange Hnew].
  split; [exact Hrange|]. intros Hrow. apply in_map_iff in Hrow.
  destruct Hrow as [r [Hr Hrow]]. apply Hin in Hrow.
  destruct Hrow as [-> | [i [Hi _]]].
  - cbn [placeholder_row s_Prev_Day] in Hr. subst d.
    pose proof (setdiff1d_NoDup (daterange first_day last_day)
                                (map s_Prev_Day all_df)) as Hnd.
    rewrite Hgaps in Hnd. apply NoDup_remove_2 in Hnd.
    apply Hnd. now rewrite app_nil_r.
  - apply Hnew. rewrite <- Hr. apply in_map. now apply nth_error_In in Hi.
Qed.

Lemma gap_fill_overwrites_witness :
  exists sorted,
    complete_all_df (stale_index (map garmin_row stale_archive))
                    (map garmin_row stale_archive)
    = Ok (sorted,
          daterange (days_from_civil 2019 12 30) (days_from_civil 2020 1 3))
    /\ map s_Prev_Day sorted
       = [days_from_civil 2019 12 30; days_from_civil 2020 1 2;
          days_from_civil 2020 1 3].
Proof.
  destruct (gap_fill_overwrites
              (stale_index (map garmin_row stale_archive))
              (map garmin_row stale_archive)
              (days_from_civil 2019 12 30) (days_from_civil 2020 1 3)
              [days_from_civil 2020 1 1] (days_from_civil 2020 1 2))
    as [sorted [Hs _]].
  - exists 1%nat. split; [vm_compute; lia | reflexivity].
  - reflexivity.
  - reflexivity.
  - vm_compute. reflexivity.
  - exists sorted. split; [exact Hs|].
    assert (Hv : exists sorted',
               complete_all_df (stale_index (map garmin_row stale_archive))
                               (map garmin_row stale_archive)
               = Ok (sorted',
                     daterange (days_from_civil 2019 12 30)
                               (days_from_civil 2020 1 3))
               /\ map s_Prev_Day sorted'
                  = [days_from_civil 2019 12 30; days_from_civil 2020 1 2;
                     days_from_civil 2020 1 3]).
    { eexists. split; vm_compute; reflexivity. }
    destruct Hv as [sorted' [Hs' Hd']]. rewrite Hs in Hs'.
    inversion Hs'. now subst.
Defined.

(** A table sorted by a key without repetition is the only sorted
    arrangement of its rows. *)
Lemma ascending_perm_unique {A} (key : A -> Z) (l l' : list A) :
  ascending key l -> ascending key l' -> NoDup (map key l) ->
  Permutation l l' -> l = l'.
Proof.
  unfold ascending. intros Hl. revert l'.
  induction Hl as [|x t Ht IH Hx]; intros l' Hl' Hnd Hperm.
  - apply Permutation_nil in Hperm. now subst.
  - destruct Hl' as [|y t' Ht' Hy].
    { apply Permutation_sym, Permutation_nil in Hperm. discriminate. }
    inversion Hnd as [|? ? Hnin Hnd']; subst.
    rewrite Forall_forall in Hx, Hy.
    assert (Hxy : x = y).
    { assert (Hyin : In y (x :: t))
        by (eapply Permutation_in;
            [apply Permutation_sym; exact Hperm | now left]).
      destruct Hyin as [H | Hyt]; [assumption|].
      assert (Hxin : In x (y :: t'))
        by (eapply Permutation_in; [exact Hperm | now left]).
      destruct Hxin as [H | Hxt']; [now symmetry|].
      specialize (Hx y Hyt). specialize (Hy x Hxt').
      exfalso. apply Hnin. replace (key x) with (key y) by lia.
      now apply in_map. }
    subst y. f_equal. apply IH; try assumption.
    now apply Permutation_cons_inv in Hperm.
Qed.

Lemma filter_unique_id {B} (l : list (Z * SleepRow)) (x : Z * SleepRow)
    (g : Z * SleepRow -> B) (p : B -> bool) :
  NoDup (map fst l) -> In x l ->
  (forall y, p (g y) = true -> fst y = fst x) ->
  p (g x) = true ->
  filter p (map g l) = [g x].
Proof.
  induction l as [|a t IH]; intros Hnd Hin Hkey Hpx; [contradiction|].
  inversion Hnd as [|? ? Hnin Hnd']; subst. simpl.
  destruct Hin as [-> | Hin].
  - rewrite Hpx. f_equal. apply filter_none. intros b Hb.
    apply in_map_iff in Hb. destruct Hb as [y [<- Hy]].
    destruct (p (g y)) eqn:E; [|reflexivity].
    exfalso. apply Hnin. rewrite <- (Hkey y E). now apply in_map.
  - destruct (p (g a)) eqn:E.
    + exfalso. apply Hnin. rewrite (Hkey a E). now apply in_map.
    + now apply IH.
Qed.

Lemma merge_events_rows (w : World) (all_df : list (Z * SleepRow)) :
  NoDup (map fst all_df) ->
  merge_events w (melt_DateTime all_df) (melt_ToD all_df)
  = map (fun x => nth 0 (events_of_session w x) (mkEventRow 0 0 Woke_Up None None None))
        all_df
    ++ map (fun x => nth 1 (events_of_session w x)
                         (mkEventRow 0 0 Woke_Up None None None)) all_df.
Proof.
  intros Hnd. unfold merge_events, melt_DateTime.
  rewrite flat_map_app, !flat_map_concat_map, !map_map.
  rewrite <- !flat_map_concat_map.
  assert (Hone : forall (f : Z * SleepRow -> list EventRow)
                        (g : Z * SleepRow -> EventRow),
             (forall x, In x all_df -> f x = [g x]) ->
             flat_map f all_df = map g all_df).
  { intros f g H. induction all_df as [|a t IH]; [reflexivity|].
    simpl. rewrite (H a (or_introl eq_refl)). simpl. f_equal.
    inversion Hnd; subst. apply IH; [assumption|].
    intros x Hx. apply H. now right. }
  f_equal; apply Hone; intros [id r] Hx; unfold melt_ToD;
    rewrite filter_app.
  - rewrite (filter_unique_id all_df (id, r)); try assumption.
    + rewrite filter_none; [reflexivity|].
      intros b Hb. apply in_map_iff in Hb.
      destruct Hb as [[id' r'] [<- _]]. simpl. now rewrite andb_false_r.
    + intros [id' r'] H. simpl in *.
      apply andb_true_iff in H. destruct H as [H _].
      apply andb_true_iff in H. destruct H as [H _].
      apply Z.eqb_eq in H. now symmetry.
    + simpl. now rewrite !Z.eqb_refl.
  - rewrite filter_none.
    + rewrite (filter_unique_id all_df (id, r)); try assumption.
      * reflexivity.
      * intros [id' r'] H. simpl in *.
        apply andb_true_iff in H. destruct H as [H _].
        apply andb_true_iff in H. destruct H as [H _].
        apply Z.eqb_eq in H. now symmetry.
      * simpl. now rewrite !Z.eqb_refl.
    + intros b Hb. apply in_map_iff in Hb.
      destruct Hb as [[id' r'] [<- _]]. simpl. now rewrite andb_false_r.
Qed.

Lemma combine_fst_snd {A B} (a : list A) (b : list B) :
  length a = length b ->
  map fst (combine a b) = a /\ map snd (combine a b) = b.
Proof.
  revert b. induction a as [|x t IH]; intros [|y u] H; try discriminate;
    [split; reflexivity|].
  simpl in H. destruct (IH u) as [H1 H2]; [lia|].
  simpl. now rewrite H1, H2.
Qed.

Lemma with_session_id_fst (rows : list SleepRow) :
  map fst (with_session_id rows) = map Z.of_nat (seq 0 (length rows))
  /\ map snd (with_session_id rows) = rows.
Proof.
  unfold with_session_id. apply combine_fst_snd.
  now rewrite length_map, length_seq.
Qed.

Lemma session_ids_strict (rows : list SleepRow) :
  StronglySorted Z.lt (map fst (with_session_id rows)).
Proof.
  rewrite (proj1 (with_session_id_fst rows)).
  generalize (length rows) as n. intros n. generalize 0%nat as k.
  induction n as [|n IH]; intros k; simpl; constructor; [apply IH|].
  apply Forall_forall. intros d Hd. apply in_map_iff in Hd.
  destruct Hd as [j [<- Hj]]. apply in_seq in Hj. lia.
Qed.

Lemma events_of_sessions_strict (w : World) (all_df : list (Z * SleepRow)) :
  StronglySorted Z.lt (map fst all_df) ->
  StronglySorted Z.lt
    (map event_key (flat_map (events_of_session w) all_df)).
Proof.
  induction all_df as [|x t IH]; cbn [map flat_map events_of_session app];
    intros H; [constructor|].
  inversion H as [|? ? Ht Hx]; subst. rewrite Forall_forall in Hx.
  assert (Hlater : forall k,
             In k (map event_key (flat_map (events_of_session w) t)) ->
             2 * fst x + 1 < k).
  { intros k Hk. apply in_map_iff in Hk. destruct Hk as [e [<- He]].
    apply in_flat_map in He. destruct He as [y [Hy He]].
    assert (fst x < fst y) by (apply Hx; now apply in_map).
    destruct He as [<- | [<- | []]]; unfold event_key; cbn [e_Sleep_Session_ID e_Event]; lia. }
  constructor; [constructor; [now apply IH|]|].
  - apply Forall_forall. intros k Hk. specialize (Hlater k Hk).
    unfold event_key. cbn [e_Sleep_Session_ID e_Event]. lia.
  - constructor; [unfold event_key; cbn [e_Sleep_Session_ID e_Event]; lia|].
    apply Forall_forall. intros k Hk. specialize (Hlater k Hk).
    unfold event_key. cbn [e_Sleep_Session_ID e_Event]. lia.
Qed.

Lemma events_of_sessions_perm (w : World) (all_df : list (Z * SleepRow)) :
  Permutation
    (flat_map (events_of_session w) all_df)
    (map (fun x => nth 0 (events_of_session w x)
                       (mkEventRow 0 0 Woke_Up None None None)) all_df
     ++ map (fun x => nth 1 (events_of_session w x)
                          (mkEventRow 0 0 Woke_Up None None None)) all_df).
Proof.
  induction all_df as [|x t IH]; simpl; [constructor|].
  apply perm_skip. apply Permutation_cons_app. exact IH.
Qed.

Lemma strict_ascending {A} (key : A -> Z) (l : list A) :
  StronglySorted Z.lt (map key l) -> ascending key l.
Proof.
  unfold ascending. induction l as [|x t IH]; simpl; intros H;
    [constructor|].
  inversion H as [|? ? Ht Hx]; subst. constructor; [now apply IH|].
  rewrite Forall_forall in *. intros y Hy.
  specialize (Hx (key y) (in_map key _ _ Hy)). lia.
Qed.

Lemma event_table_rows_aux (w : World) (rows : list SleepRow) :
  all_event_df_of w (with_session_id rows)
  = flat_map (events_of_session w) (with_session_id rows)
  /\ length (with_session_id rows) = length rows.
Proof.
  split.
  - pose proof (session_ids_strict rows) as Hids.
    pose proof (events_of_sessions_strict w _ Hids) as Hstrict.
    unfold all_event_df_of.
    rewrite merge_events_rows by (now apply strict_NoDup).
    symmetry. apply (ascending_perm_unique event_key).
    + now apply strict_ascending.
    + apply sort_values_ascending.
    + now apply strict_NoDup.
    + eapply perm_trans; [apply events_of_sessions_perm|].
      apply Permutation_sym, sort_values_perm.
  - rewrite <- (length_map snd).
    now rewrite (proj2 (with_session_id_fst rows)).
Qed.

(** X9.  The event table built from a table of numbered sessions (melt of
    the two timestamp columns, melt of the two time-of-day columns, merge,
    sort): every session gives exactly two rows, its "fell asleep" event
    with the bed time and its "woke up" event with the wake time, each with
    the session's number and date, and the sessions follow each other in
    the order of their numbers.  Sessions with unknown times are present
    with null time cells. *)
Theorem event_table_two_rows_per_session (w : World)
    (rows : list SleepRow) :
  all_event_df_of w (with_session_id rows)
  = flat_map (events_of_session w) (with_session_id rows)
  /\ length (all_event_df_of w (with_session_id rows))
     = (2 * length rows)%nat.
Proof.
  destruct (event_table_rows_aux w rows) as [Heq Hlen].
  split; [exact Heq|]. rewrite Heq, <- Hlen.
  generalize (with_session_id rows) as l.
  induction l as [|x t IH]; simpl; [reflexivity|]. rewrite IH. lia.
Qed.

Lemma derive_Ok (w : World) (nights_df : list Night) (descr : list DescrRow)
    (events : list EventRow) (complete : list Z) :
  derive w nights_df = Ok (descr, events, complete) ->
  exists sorted,
    complete_all_df (all_df_index w (all_df_of w nights_df))
                    (all_df_of w nights_df)
    = Ok (sorted, complete)
    /\ all_descr_df_of w (with_session_id sorted) = Ok descr
    /\ events = all_event_df_of w (with_session_id sorted).
Proof.
  unfold derive. fold (all_df_of w nights_df).
  destruct (complete_all_df _ _) as [[sorted complete']|e]; [|discriminate].
  cbn [bind].
  destruct (all_descr_df_of w (with_session_id sorted)) as [descr'|e] eqn:Ed;
    [|discriminate].
  cbn [bind]. intros H. inversion H; subst. exists sorted.
  split; [reflexivity|]. split; [exact Ed | reflexivity].
Qed.

Lemma complete_all_df_sorted (index : nat -> Z) (all_df sorted : list SleepRow)
    (complete : list Z) :
  complete_all_df index all_df = Ok (sorted, complete) ->
  ascending s_Prev_Day sorted /\ all_df <> [].
Proof.
  unfold complete_all_df.
  destruct (min_date (map s_Prev_Day all_df)) as [lo|] eqn:Emin;
    [|discriminate].
  destruct (max_date (map s_Prev_Day all_df)) as [hi|]; [|discriminate].
  cbn [bind]. intros H. inversion H; subst. split.
  - apply sort_values_ascending.
  - intros ->. discriminate.
Qed.

Lemma descr_rows_of (w : World) (sorted : list SleepRow)
    (descr : list DescrRow) :
  all_descr_df_of w (with_session_id sorted) = Ok descr ->
  map d_Sleep_Session_ID descr = map Z.of_nat (seq 0 (length sorted))
  /\ map d_Prev_Day descr = map s_Prev_Day sorted
  /\ map d_Total_Dur descr = map s_Total_Dur sorted
  /\ length descr = length sorted.
Proof.
  intros H. apply all_descr_df_of_Ok in H.
  destruct H as [lo [hi [_ [_ ->]]]].
  destruct (with_session_id_fst sorted) as [Hfst Hsnd].
  rewrite !map_map, length_map.
  split; [|split; [|split]].
  - rewrite <- Hfst. apply map_ext. now intros [id r].
  - rewrite <- Hsnd at 2. rewrite map_map. apply map_ext. now intros [id r].
  - rewrite <- Hsnd at 2. rewrite map_map. apply map_ext. now intros [id r].
  - rewrite <- (length_map snd). now rewrite Hsnd.
Qed.

Lemma ascending_map_strongly {A} (key : A -> Z) (l : list A) :
  ascending key l -> StronglySorted Z.le (map key l).
Proof.
  unfold ascending. induction 1 as [|x t Ht IH Hx]; cbn [map]; constructor.
  - exact IH.
  - rewrite Forall_forall in *. intros d Hin. apply in_map_iff in Hin.
    destruct Hin as [r [<- Hr]]. now apply Hx.
Qed.

(** The sessions of the derived tables, whatever the gap fill did. *)
Lemma derive_sessions (w : World) (nights_df : list Night)
    (descr : list DescrRow) (events : list EventRow) (complete : list Z) :
  derive w nights_df = Ok (descr, events, complete) ->
  map d_Sleep_Session_ID descr = map Z.of_nat (seq 0 (length descr))
  /\ StronglySorted Z.le (map d_Prev_Day descr)
  /\ map event_head events = flat_map expected_events descr.
Proof.
  intros H. destruct (derive_Ok _ _ _ _ _ H) as [sorted [Hc [Hd ->]]].
  destruct (descr_rows_of w sorted descr Hd) as [Hids [Hdays [Htot Hlen]]].
  split; [now rewrite Hlen|]. split.
  - rewrite Hdays. apply complete_all_df_sorted in Hc.
    apply ascending_map_strongly, Hc.
  - rewrite (proj1 (event_table_rows_aux w sorted)).
    pose proof Hd as Hd'. apply all_descr_df_of_Ok in Hd'.
    destruct Hd' as [lo' [hi' [_ [_ ->]]]].
    generalize (with_session_id sorted) as l.
    induction l as [|[id r] t IH]; [reflexivity|].
    cbn [flat_map map app]. rewrite map_app, IH. reflexivity.
Qed.

(** The rows of the description table when every write of the gap fill
    adds a row. *)
Lemma derive_dates (w : World) (nights_df : list Night)
    (descr : list DescrRow) (events : list EventRow) (complete : list Z) :
  derive w nights_df = Ok (descr, events, complete) ->
  labels_below (all_df_index w (all_df_of w nights_df))
               (all_df_of w nights_df) ->
  (exists first_day last_day,
      first_day <= last_day
      /\ complete = daterange first_day last_day
      /\ forall d, In d (map d_Prev_Day descr) <-> first_day <= d <= last_day)
  /\ (forall r, In r nights_df ->
                exists row, In row descr
                            /\ d_Prev_Day row = Prev_Day r
                            /\ d_Total_Dur row = Total_Dur r).
Proof.
  intros H Hlab. destruct (derive_Ok _ _ _ _ _ H) as [sorted [Hc [Hd _]]].
  destruct (descr_rows_of w sorted descr Hd) as [Hids [Hdays [Htot Hlen]]].
  set (all_df := all_df_of w nights_df) in *.
  assert (Hne : all_df <> []).
  { intros E. rewrite E in Hc. discriminate. }
  destruct (complete_all_df_Ok _ all_df Hne Hlab)
    as [lo [hi [_ [_ [Hle [Hb Heq]]]]]].
  rewrite Heq in Hc. inversion Hc as [[Hsorted Hcomplete]]. clear Hc.
  assert (Hin : forall r, In r sorted <->
            In r all_df
            \/ In r (map placeholder_row
                       (setdiff1d (daterange lo hi) (map s_Prev_Day all_df))))
    by (intros r; rewrite <- Hsorted, sort_values_In; apply in_app_iff).
  split.
  - exists lo, hi. split; [exact Hle|]. split; [reflexivity|].
    intros d. rewrite Hdays. split.
    + intros Hd'. apply in_map_iff in Hd'. destruct Hd' as [r [<- Hr]].
      apply Hin in Hr. destruct Hr as [Hr | Hr].
      * specialize (Hb _ (in_map s_Prev_Day _ _ Hr)). lia.
      * apply in_map_iff in Hr. destruct Hr as [d [<- Hd']].
        apply setdiff1d_In in Hd'. destruct Hd' as [Hd' _].
        apply daterange_In in Hd'. simpl. lia.
    + intros Hd'.
      destruct (in_dec Z.eq_dec d (map s_Prev_Day all_df)) as [Hi | Hni].
      * apply in_map_iff in Hi. destruct Hi as [r [<- Hr]].
        apply in_map, Hin. now left.
      * change d with (s_Prev_Day (placeholder_row d)).
        apply in_map, Hin. right. apply in_map, setdiff1d_In.
        split; [apply daterange_In; lia | assumption].
  - intros r Hr.
    assert (Hg : In (garmin_row r) sorted).
    { apply Hin. left. unfold all_df, all_df_of. apply in_app_iff. left.
      now apply in_map. }
    apply In_nth_error in Hg. destruct Hg as [i Hi].
    assert (Hi' : nth_error (map s_Prev_Day sorted) i = Some (Prev_Day r))
      by (rewrite nth_error_map, Hi; reflexivity).
    assert (Hi'' : nth_error (map s_Total_Dur sorted) i = Some (Total_Dur r))
      by (rewrite nth_error_map, Hi; reflexivity).
    rewrite <- Hdays in Hi'. rewrite <- Htot in Hi''.
    rewrite nth_error_map in Hi', Hi''.
    destruct (nth_error descr i) as [row|] eqn:E; [|discriminate].
    exists row. split; [now apply nth_error_In in E|].
    simpl in Hi', Hi''. split; congruence.
Qed.



Lemma is_weekend_bool_spec (d : Z) :
  is_weekend_bool (day_map (weekday d)) = true
  <-> weekday d = 4 \/ weekday d = 5.
Proof.
  split.
  - intros H. apply day_map_weekend.
    destruct (day_map (weekday d)) as [[]|]; simpl in H;
      try discriminate; auto.
  - intros [-> | ->]; reflexivity.
Qed.

(** X11.  The two calendar flags of a description row, in full.  A row is
    flagged as a holiday exactly when its date is neither a Friday nor a
    Saturday and is one of the script's holidays.  It is flagged as a
    workday exactly when its date is neither a Friday nor a Saturday, no
    holiday and not in the vacation list.  No row carries both flags. *)
Theorem calendar_flags (w : World) (all_df : list (Z * SleepRow))
    (descr : list DescrRow) :
  all_descr_df_of w all_df = Ok descr ->
  exists first_day last_day,
    min_date (map (fun x => s_Prev_Day (snd x)) all_df) = Ok first_day
    /\ max_date (map (fun x => s_Prev_Day (snd x)) all_df) = Ok last_day
    /\ forall row,
        In row descr ->
        let d := d_Prev_Day row in
        let holidays := holidays_of w first_day last_day in
        (d_Is_Holiday row = true <->
         ~ (weekday d = 4 \/ weekday d = 5) /\ In d holidays)
        /\ (d_Is_Workday row = true <->
            ~ (weekday d = 4 \/ weekday d = 5)
            /\ ~ In d holidays /\ ~ In d (vacay_of w holidays))
        /\ (d_Is_Holiday row = true -> d_Is_Workday row = false).
Proof.
  intros H. destruct (all_descr_df_of_Ok w all_df descr H)
    as [first_day [last_day [Hmin [Hmax ->]]]].
  exists first_day, last_day. split; [assumption|]. split; [assumption|].
  intros row Hrow. apply in_map_iff in Hrow.
  destruct Hrow as [[id r] [<- _]].
  cbn [descr_row d_Prev_Day d_Is_Workday d_Is_Holiday].
  set (d := s_Prev_Day r). set (hs := holidays_of w first_day last_day).
  cbv zeta. unfold is_workday, is_holiday.
  pose proof (is_weekend_bool_spec d) as Hwe.
  destruct (is_weekend_bool (day_map (weekday d))).
  - assert (weekday d = 4 \/ weekday d = 5) by (now apply Hwe).
    repeat split; try discriminate; tauto.
  - assert (Hnw : ~ (weekday d = 4 \/ weekday d = 5))
      by (intros Hc; apply Hwe in Hc; discriminate).
    rewrite negb_true_iff, orb_false_iff, !isin_false, <- isin_In.
    split; [tauto|]. split; [tauto|].
    intros ->. reflexivity.
Qed.

Lemma calendar_flags_witness :
  exists first_day last_day,
    min_date (map (fun x => s_Prev_Day (snd x)) christmas_rows) = Ok first_day
    /\ max_date (map (fun x => s_Prev_Day (snd x)) christmas_rows)
       = Ok last_day
    /\ forall row,
        In row christmas_descr ->
        let d := d_Prev_Day row in
        let holidays := holidays_of christmas_world first_day last_day in
        (d_Is_Holiday row = true <->
         ~ (weekday d = 4 \/ weekday d = 5) /\ In d holidays)
        /\ (d_Is_Workday row = true <->
            ~ (weekday d = 4 \/ weekday d = 5)
            /\ ~ In d holidays /\ ~ In d (vacay_of christmas_world holidays))
        /\ (d_Is_Holiday row = true -> d_Is_Workday row = false).
Proof.
  apply (calendar_flags christmas_world christmas_rows christmas_descr).
  vm_compute. reflexivity.
Defined.

(* ------------------------------------------------------------------ *)
(** ** More on the sunrise and sunset archive (step4) *)

Lemma step4_unfold (w : World) (disk : Disk) (complete : list Z) :
  step4 w disk complete
  = let '(requests, r) :=
      step4_loop w (new_sun_dates (stored_sun disk) complete)
                 (stored_sun disk) [] in
    match r with
    | Raise e => (requests, disk, Raise e)
    | Ok sun_df => (requests, with_sun_df disk sun_df, Ok sun_df)
    end.
Proof. reflexivity. Qed.

Lemma new_sun_dates_In (sun_df : list SunRow) (complete : list Z) (d : Z) :
  In d (new_sun_dates sun_df complete)
  <-> In d complete /\ ~ In d (map sun_Date sun_df).
Proof.
  unfold new_sun_dates. destruct sun_df as [|s t].
  - simpl. tauto.
  - cbn [length Nat.ltb Nat.leb].
    now rewrite filter_In, negb_true_iff, isin_false.
Qed.

Lemma sun_Date_almanac (w : World) (l : list Z) :
  map sun_Date (map (almanac_row w) l) = l.
Proof. rewrite map_map. apply map_id. Qed.

(** X12.  When the almanac accepts every date that is not yet in the
    solar archive, step4 asks for exactly those dates, once each request in
    the order of the date list, and writes the old archive followed by one
    new row per requested date; the other files stay as they were.
    Afterwards every date of the list is in the archive, and if the old
    archive and the date list each had pairwise distinct dates, so has the
    new archive. *)
Theorem step4_appends_missing_dates (w : World) (disk : Disk)
    (complete_dates_ls : list Z) :
  let new := new_sun_dates (stored_sun disk) complete_dates_ls in
  let sun_df := stored_sun disk ++ map (almanac_row w) new in
  Forall (almanac_ok w) new ->
  step4 w disk complete_dates_ls = (new, with_sun_df disk sun_df, Ok sun_df)
  /\ (forall d, In d complete_dates_ls -> In d (map sun_Date sun_df))
  /\ (NoDup (map sun_Date (stored_sun disk)) -> NoDup complete_dates_ls ->
      NoDup (map sun_Date sun_df)).
Proof.
  intros new sun_df Hok. split; [|split].
  - rewrite step4_unfold. fold new.
    destruct (step4_loop_spec w new (stored_sun disk) [])
      as [[_ Heq] | [served [failed [rest [Hnew [_ [Hf _]]]]]]].
    + rewrite Heq. reflexivity.
    + exfalso. apply Hf. rewrite Forall_forall in Hok. apply Hok.
      rewrite Hnew. apply in_app_iff. right. now left.
  - intros d Hd. unfold sun_df. rewrite map_app, sun_Date_almanac, in_app_iff.
    destruct (in_dec Z.eq_dec d (map sun_Date (stored_sun disk)));
      [now left | right].
    apply new_sun_dates_In. tauto.
  - intros Hold Hdates. unfold sun_df.
    rewrite map_app, sun_Date_almanac. apply NoDup_app; [assumption | |].
    + unfold new, new_sun_dates.
      destruct (0 <? length (stored_sun disk))%nat; [|assumption].
      now apply NoDup_filter.
    + intros d Hd Hd'. apply new_sun_dates_In in Hd'. tauto.
Qed.

Lemma step4_appends_missing_dates_witness :
  step4 one_night_world disk_with_one_sun_row [jan 9; jan 10; jan 11]
  = ([jan 10; jan 11],
     with_sun_df disk_with_one_sun_row
       (stored_sun disk_with_one_sun_row
        ++ map (almanac_row one_night_world) [jan 10; jan 11]),
     Ok (stored_sun disk_with_one_sun_row
         ++ map (almanac_row one_night_world) [jan 10; jan 11])).
Proof.
  apply (step4_appends_missing_dates one_night_world disk_with_one_sun_row
           [jan 9; jan 10; jan 11]).
  repeat constructor.
Defined.

(** X13.  step4 only asks for what is missing: the dates it requests are
    an initial part of the dates of its list that the solar archive lacks,
    so a date that is archived is never requested again, whether the stage
    ends well or not. *)
Theorem step4_requests_only_missing (w : World) (disk : Disk)
    (complete_dates_ls : list Z) :
  (exists rest,
      new_sun_dates (stored_sun disk) complete_dates_ls
      = fst (fst (step4 w disk complete_dates_ls)) ++ rest)
  /\ (forall d, In d (fst (fst (step4 w disk complete_dates_ls))) ->
                In d complete_dates_ls
                /\ ~ In d (map sun_Date (stored_sun disk))).
Proof.
  assert (H : exists rest,
             new_sun_dates (stored_sun disk) complete_dates_ls
             = fst (fst (step4 w disk complete_dates_ls)) ++ rest).
  { rewrite step4_unfold.
    destruct (step4_loop_spec w
                (new_sun_dates (stored_sun disk) complete_dates_ls)
                (stored_sun disk) [])
      as [[_ Heq] | [served [failed [rest [Hnew [_ [_ Heq]]]]]]];
      rewrite Heq; cbn [fst snd app].
    - exists []. now rewrite app_nil_r.
    - exists rest. rewrite Hnew, <- app_assoc. reflexivity. }
  split; [exact H|].
  destruct H as [rest Hrest]. intros d Hd.
  apply new_sun_dates_In. rewrite Hrest. apply in_app_iff. now left.
Qed.

(** X14.  A step4 that ended well leaves nothing to do: called again on
    the disk it left, with the same dates, it makes no request, returns the
    same table and leaves the disk as it is. *)
Theorem step4_again_is_idle (w : World) (disk : Disk)
    (complete_dates_ls : list Z) (sun_df : list SunRow) :
  snd (step4 w disk complete_dates_ls) = Ok sun_df ->
  step4 w (snd (fst (step4 w disk complete_dates_ls))) complete_dates_ls
  = ([], snd (fst (step4 w disk complete_dates_ls)), Ok sun_df).
Proof.
  rewrite (step4_unfold w disk).
  destruct (step4_loop w (new_sun_dates (stored_sun disk) complete_dates_ls)
                       (stored_sun disk) []) as [requests [sun_df'|e]] eqn:E;
    cbn [fst snd]; intros H; [|discriminate].
  inversion H; subst sun_df'.
  assert (Hloop : snd (step4_loop w
                         (new_sun_dates (stored_sun disk) complete_dates_ls)
                         (stored_sun disk) []) = Ok sun_df)
    by (now rewrite E).
  apply step4_loop_covers in Hloop.
  rewrite step4_unfold.
  change (stored_sun (with_sun_df disk sun_df)) with sun_df.
  rewrite Hloop. reflexivity.
Qed.

Lemma step4_again_is_idle_witness :
  step4 one_night_world
        (snd (fst (step4 one_night_world disk_with_one_sun_row
                         [jan 9; jan 10; jan 11])))
        [jan 9; jan 10; jan 11]
  = ([],
     snd (fst (step4 one_night_world disk_with_one_sun_row
                     [jan 9; jan 10; jan 11])),
     Ok (stored_sun disk_with_one_sun_row
         ++ map (almanac_row one_night_world) [jan 10; jan 11])).
Proof.
  apply (step4_again_is_idle one_night_world disk_with_one_sun_row
           [jan 9; jan 10; jan 11]).
  vm_compute. reflexivity.
Defined.

(* ------------------------------------------------------------------ *)
(** ** More on the time of day *)

Lemma time_of_day_clock (t t' : Timestamp) :
  (time_of_day t == time_of_day t')%Q ->
  hour t = hour t' /\ minute t = minute t'.
Proof.
  rewrite !time_of_day_minutes. unfold Qeq. cbn [Qnum Qden].
  pose proof (minute_range t). pose proof (minute_range t'). lia.
Qed.

Lemma clock_of_tod_normalized (t : Timestamp) :
  (clock_of_tod (make_pm_negative (time_of_day t)) == time_of_day t)%Q.
Proof.
  destruct (time_of_day_range t) as [H0 H24].
  destruct (make_pm_negative_spec (time_of_day t)) as [Hle Hgt].
  unfold clock_of_tod.
  destruct (Qlt_le_dec 12 (time_of_day t)) as [H | H].
  - specialize (Hgt H).
    assert (Hneg : (make_pm_negative (time_of_day t) < 0)%Q).
    { rewrite Hgt. apply Qlt_minus_iff.
      setoid_replace (0 + - (time_of_day t - 24))%Q
        with (24 - time_of_day t)%Q by ring.
      now apply -> Qlt_minus_iff. }
    apply Qgtb_true in Hneg. rewrite Hneg, Hgt. ring.
  - specialize (Hle H).
    assert (Hpos : (0 <= make_pm_negative (time_of_day t))%Q)
      by (now rewrite Hle).
    apply Qgtb_false in Hpos. rewrite Hpos. exact Hle.
Qed.

Lemma clock_of_tod_proper (x y : Q) :
  (x == y)%Q -> (clock_of_tod x == clock_of_tod y)%Q.
Proof.
  intros Hxy. unfold clock_of_tod.
  destruct (Qgtb 0 x) eqn:Ex, (Qgtb 0 y) eqn:Ey.
  - now rewrite Hxy.
  - apply Qgtb_true in Ex. apply Qgtb_false in Ey. rewrite Hxy in Ex.
    exfalso. now apply (Qlt_not_le y 0).
  - apply Qgtb_false in Ex. apply Qgtb_true in Ey. rewrite Hxy in Ex.
    exfalso. now apply (Qlt_not_le y 0).
  - exact Hxy.
Qed.

(** X15.  The normalisation of bed, sunrise and sunset times loses
    nothing of the clock time: adding 24 to a negative stored value gives
    [hour + minute/60] back, and two timestamps with the same stored value
    have the same hour and minute. *)
Theorem time_of_day_recovered (t t' : Timestamp) :
  (clock_of_tod (make_pm_negative (time_of_day t)) == time_of_day t)%Q
  /\ ((make_pm_negative (time_of_day t)
       == make_pm_negative (time_of_day t'))%Q ->
      hour t = hour t' /\ minute t = minute t').
Proof.
  split; [apply clock_of_tod_normalized|].
  intros H. apply time_of_day_clock.
  rewrite <- (clock_of_tod_normalized t), <- (clock_of_tod_normalized t').
  now apply clock_of_tod_proper.
Qed.

(* ------------------------------------------------------------------ *)
(** ** More on the legacy data *)

Lemma combine_app_same {A B : Type} (a a' : list A) (b b' : list B) :
  length a = length b ->
  combine (a ++ a') (b ++ b') = combine a b ++ combine a' b'.
Proof.
  revert b. induction a as [|x a IH]; intros [|y b] Hlen;
    try discriminate; [reflexivity|].
  cbn [app combine]. f_equal. apply IH. now inversion Hlen.
Qed.

Lemma ms2_rows_app (w : World) (entries : list ActivityRow)
    (final : ActivityRow) :
  ms2_rows w (entries ++ [final])
  = map (legacy_row w true) entries ++ [legacy_row w false final].
Proof.
  unfold ms2_rows. rewrite map_app. cbn [map].
  rewrite adjust_prev_day_all_but_last.
  assert (Hlen : length (map adjust_row
                           (map (fun a => (Date a, tz_localize w (Start_Time a)))
                                entries)) = length entries)
    by (now rewrite !length_map).
  rewrite combine_app_same by exact Hlen. rewrite map_app. cbn [combine map].
  f_equal.
  clear Hlen. induction entries as [|a t IH]; [reflexivity|].
  cbn [map combine]. rewrite IH. f_equal.
  unfold legacy_row, adjust_row.
  destruct (tz_localize w (Start_Time a)) as [bed|]; [|reflexivity].
  destruct (hour bed <? 12); reflexivity.
Qed.

(** X16.  The legacy table, row by row.  Every legacy sleep entry gives
    one row, in the order of the entries, with its localised bed and wake
    times, its light and deep sleep, the sum of awake, light and deep
    seconds as total (null if one of them is missing) and no awake
    duration.  The previous day of every row but the last is the entry's
    date, less one day when the localised bed time is before noon; the last
    row always keeps the entry's date.  No entry gives no row. *)
Theorem legacy_table_rows (w : World) (entries : list ActivityRow)
    (final : ActivityRow) :
  ms2_rows w [] = []
  /\ ms2_rows w (entries ++ [final])
     = map (legacy_row w true) entries ++ [legacy_row w false final]
  /\ length (ms2_rows w (entries ++ [final])) = S (length entries)
  /\ (forall a, s_Prev_Day (legacy_row w true a) = Date a
                \/ s_Prev_Day (legacy_row w true a) = Date a - 1)
  /\ (forall a bed,
         tz_localize w (Start_Time a) = Some bed ->
         s_Prev_Day (legacy_row w true a)
         = if hour bed <? 12 then Date a - 1 else Date a).
Proof.
  split; [reflexivity|]. split; [apply ms2_rows_app|].
  split; [|split].
  - rewrite ms2_rows_app, length_app, length_map. simpl. lia.
  - intros a. unfold legacy_row, adjust_row. cbn [s_Prev_Day].
    destruct (tz_localize w (Start_Time a)) as [bed|]; [|now left].
    destruct (hour bed <? 12); [now right | now left].
  - intros a bed Hbed. unfold legacy_row, adjust_row. cbn [s_Prev_Day].
    rewrite Hbed. destruct (hour bed <? 12); reflexivity.
Qed.

(** X17.  Which legacy rows reach the combined data set.  A row of the
    legacy table is kept exactly when its total duration is known and
    either is at least four hours or the row has no bed time; every row of
    under four hours with a known bed time is dropped, at whatever hour it
    began.  The rows kept stay in their order. *)
Theorem legacy_rows_kept (w : World) (row : SleepRow) :
  let ms2_df :=
    ms2_rows w (filter (fun a => String.eqb (Event_Type a) "Sleep")
                       (activity_summary w)) in
  (In row (ms3_rows w) <->
   In row ms2_df
   /\ exists total,
       s_Total_Dur row = Some total
       /\ (4 * 3600 <= total \/ s_Bed_ToD row = None))
  /\ (forall total x,
         In row ms2_df -> s_Total_Dur row = Some total ->
         total < 4 * 3600 -> s_Bed_ToD row = Some x ->
         ~ In row (ms3_rows w))
  /\ ms3_rows w = filter ms3_keep ms2_df.
Proof.
  intros ms2_df. unfold ms3_rows. fold ms2_df.
  split; [|split; [|reflexivity]].
  - rewrite filter_In, ms3_keep_spec. reflexivity.
  - intros total x Hin Htot Hshort Hbed Hkept.
    apply filter_In in Hkept. destruct Hkept as [_ Hkeep].
    apply ms3_keep_spec in Hkeep. destruct Hkeep as [t [Ht [Hlong | Hnone]]].
    + rewrite Htot in Ht. inversion Ht; subst. lia.
    + congruence.
Qed.

(* ------------------------------------------------------------------ *)
(** ** Runs that fail *)

Lemma step2_Raise (w : World) (disk : Disk) (dates : list Z) (e : exn) :
  snd (step2 w disk dates) = Raise e ->
  step2 w disk dates = (fst (fst (step2 w disk dates)), disk, Raise e).
Proof.
  unfold step2.
  destruct (step2_loop w (length dates) dates [] []) as [requests [chunks|e']];
    cbn [fst snd]; intros H; [discriminate|].
  now inversion H.
Qed.

(** X18.  A run that cannot log in, or whose download fails (a request
    that is refused, or a reply that cannot be read), ends before anything
    is written: the data directory is the one the run found, the almanac is
    not contacted, and the run does not end well.  Without a login no sleep
    data is requested either. *)
Theorem run_stops_before_writing (w : World) (disk : Disk) :
  login w = false
  \/ (exists e, snd (step2 w disk (snd (step0 w disk))) = Raise e) ->
  disk_after (run_pipeline w disk) = disk
  /\ sun_requests (run_pipeline w disk) = []
  /\ outcome (run_pipeline w disk) <> Ok tt
  /\ (login w = false ->
      sleep_requests (run_pipeline w disk) = []
      /\ outcome (run_pipeline w disk) = Raise LoginError).
Proof.
  intros H. unfold run_pipeline.
  change (step0 w disk)
    with (fst (fst (step0 w disk)), stored_nights disk, snd (step0 w disk)).
  cbv iota beta.
  destruct (login w) eqn:Hlogin.
  - destruct H as [H | [e H]]; [discriminate|].
    rewrite (step2_Raise w disk (snd (step0 w disk)) e H).
    cbn [disk_after sun_requests outcome].
    split; [reflexivity|]. split; [reflexivity|].
    split; [discriminate|]. discriminate.
  - cbn [disk_after sun_requests outcome sleep_requests].
    split; [reflexivity|]. split; [reflexivity|].
    split; [discriminate|]. intros _. split; reflexivity.
Qed.

Lemma run_stops_before_writing_witness :
  disk_after (run_pipeline busy_world empty_disk) = empty_disk
  /\ sun_requests (run_pipeline busy_world empty_disk) = []
  /\ outcome (run_pipeline busy_world empty_disk) <> Ok tt
  /\ (login busy_world = false ->
      sleep_requests (run_pipeline busy_world empty_disk) = []
      /\ outcome (run_pipeline busy_world empty_disk) = Raise LoginError).
Proof.
  apply (run_stops_before_writing busy_world empty_disk).
  right. exists (ResponseError 429). vm_compute. reflexivity.
Defined.

(** X19.  A run that fails, at whatever step, leaves the solar archive on
    disk as it found it.  If it failed after contacting the almanac, the
    night archive, the raw download and both derived tables of this run are
    on disk all the same: the archive is the merged one and the two tables
    are the ones derived from it. *)
Theorem failed_run_keeps_solar_archive (w : World) (disk : Disk) (e : exn) :
  outcome (run_pipeline w disk) = Raise e ->
  sun_df_pkl (disk_after (run_pipeline w disk)) = sun_df_pkl disk
  /\ (sun_requests (run_pipeline w disk) <> [] ->
      exists data archive descr events complete,
        snd (step2 w disk (snd (step0 w disk))) = Ok (map Record_item data)
        /\ archive_merger w (stored_nights disk) data (snd (step0 w disk))
           = Ok archive
        /\ derive w archive = Ok (descr, events, complete)
        /\ disk_after (run_pipeline w disk)
           = mkDisk (Some archive) (Some (map Record_item data)) (Some descr)
                    (Some events) (sun_df_pkl disk)).
Proof.
  unfold run_pipeline.
  change (step0 w disk)
    with (fst (fst (step0 w disk)), stored_nights disk, snd (step0 w disk)).
  cbv iota beta.
  destruct (login w).
  2:{ cbn [disk_after sun_requests]. intros _. split; [reflexivity|].
      intros Hs. now contradiction Hs. }
  destruct (step2 w disk (snd (step0 w disk))) as [[requests disk2] r2] eqn:E2.
  destruct r2 as [items|e2].
  2:{ pose proof (step2_Raise w disk (snd (step0 w disk)) e2) as H2.
      rewrite E2 in H2. specialize (H2 eq_refl). inversion H2; subst.
      cbn [disk_after sun_requests]. intros _. split; [reflexivity|].
      intros Hs. now contradiction Hs. }
  pose proof (step2_Ok w disk (snd (step0 w disk)) items) as H2.
  rewrite E2 in H2. specialize (H2 eq_refl). inversion H2 as [Hdisk2].
  clear H2. unfold step3.
  destruct (json_records items) as [data|ej] eqn:Ej; cbn [bind].
  2:{ cbn [disk_after sun_requests]. intros _. subst disk2.
      split; [reflexivity|]. intros Hs. now contradiction Hs. }
  apply json_records_Ok in Ej. subst items.
  destruct (archive_merger w (stored_nights disk) data (snd (step0 w disk)))
    as [archive|e3] eqn:E3.
  2:{ cbn [disk_after sun_requests]. intros _. subst disk2.
      split; [reflexivity|]. intros Hs. now contradiction Hs. }
  destruct (derive w archive) as [[[descr events] complete]|ed] eqn:Ed.
  2:{ cbn [disk_after sun_requests sun_df_pkl]. intros _. subst disk2.
      split; [reflexivity|]. intros Hs. now contradiction Hs. }
  unfold step4. cbn [sun_df_pkl].
  destruct (step4_loop w _ _ []) as [sreqs [sun_df|e4]];
    cbn [outcome disk_after sun_requests]; intros H; [discriminate|].
  subst disk2. cbn [sun_df_pkl new_garmin_sleep_json]. split; [reflexivity|].
  intros _. exists data, archive, descr, events, complete.
  split; [|split; [exact E3 | split; [exact Ed | reflexivity]]].
  change (snd (step2 w disk (snd (step0 w disk)))
          = Ok (map Record_item data)).
  now rewrite E2.
Qed.

Lemma failed_run_keeps_solar_archive_witness :
  outcome (run_pipeline dark_world disk_with_one_sun_row)
  = Raise (ResponseError 503)
  /\ sun_df_pkl (disk_after (run_pipeline dark_world disk_with_one_sun_row))
     = sun_df_pkl disk_with_one_sun_row
  /\ sun_requests (run_pipeline dark_world disk_with_one_sun_row) = [jan 10].
Proof.
  split; [vm_compute; reflexivity|].
  split; [|vm_compute; reflexivity].
  apply (failed_run_keeps_solar_archive dark_world disk_with_one_sun_row
           (ResponseError 503)).
  vm_compute. reflexivity.
Defined.

Lemma json_records_bytes (data : list Item) (b : Z) :
  In (Byte_item b) data -> json_records data = Raise TypeError.
Proof.
  induction data as [|[r|b'] t IH]; intros H.
  - destruct H.
  - destruct H as [H | H]; [discriminate|].
    cbn [json_records]. now rewrite (IH H).
  - reflexivity.
Qed.

(** X29.  A reply that is not ASCII stops the run in step3.  When step2
    ends well but one of its replies was decompressed rather than parsed,
    the combined data holds bytes; step2 has written them to the raw JSON
    file, and step3 fails in [converter] with [TypeError] at the first of
    them.  The run ends there: the night archive, the derived tables and
    the solar archive are left as they were, and the almanac is not
    contacted. *)
Theorem undecoded_reply_stops_step3 (w : World) (disk : Disk)
    (data : list Item) (b : Z) :
  login w = true ->
  snd (step2 w disk (snd (step0 w disk))) = Ok data ->
  In (Byte_item b) data ->
  (exists q bytes,
      In q (sleep_requests (run_pipeline w disk))
      /\ content (dailySleepsByDate w (fst q) (snd q)) = Brotli bytes
      /\ In b bytes)
  /\ outcome (run_pipeline w disk) = Raise TypeError
  /\ sun_requests (run_pipeline w disk) = []
  /\ disk_after (run_pipeline w disk)
     = mkDisk (garmin_sleep_df_pkl disk) (Some data)
              (all_sleep_descr_df_pkl disk) (all_sleep_event_df_pkl disk)
              (sun_df_pkl disk).
Proof.
  intros Hlogin H2 Hb.
  pose proof (step2_Ok w disk (snd (step0 w disk)) data H2) as E2.
  assert (Hreq : sleep_requests (run_pipeline w disk)
                 = fst (fst (step2 w disk (snd (step0 w disk))))).
  { unfold run_pipeline.
    change (step0 w disk)
      with (fst (fst (step0 w disk)), stored_nights disk, snd (step0 w disk)).
    cbv iota beta. rewrite Hlogin, E2. unfold step3.
    rewrite (json_records_bytes data b Hb). reflexivity. }
  split.
  { rewrite Hreq.
    destruct (step2_unfold w disk (snd (step0 w disk))) as [Hfst Hsnd].
    rewrite Hfst. rewrite Hsnd in H2.
    destruct (step2_loop_spec w (length (snd (step0 w disk)))
                              (snd (step0 w disk)) [] [])
      as [new [Hnew [_ [_ [_ [_ [_ [Hok _]]]]]]]];
      [lia | constructor | constructor | intros ? ? [] |].
    cbn [app] in Hnew. rewrite Hnew.
    destruct (snd (step2_loop w _ _ [] [])) as [chunks|e]; [|discriminate].
    cbn [bind] in H2. inversion H2; subst data.
    destruct (Hok chunks eq_refl) as [Hchunks [_ Hall]].
    cbn [app] in Hchunks. subst chunks.
    apply in_concat in Hb. destruct Hb as [chunk [Hchunk Hb]].
    apply in_map_iff in Hchunk. destruct Hchunk as [q [<- Hq]].
    exists q. rewrite Forall_forall in Hall.
    destruct (Hall q Hq) as [Hstatus _].
    unfold reply in Hb.
    destruct (content (dailySleepsByDate w (fst q) (snd q))) as [js|bytes|]
      eqn:Ec.
    - apply in_map_iff in Hb. destruct Hb as [r [Hr _]]. discriminate.
    - exists bytes. split; [exact Hq|]. split; [reflexivity|].
      apply in_map_iff in Hb. destruct Hb as [b' [Hb' Hin]].
      now inversion Hb'; subst.
    - destruct Hb. }
  unfold run_pipeline.
  change (step0 w disk)
    with (fst (fst (step0 w disk)), stored_nights disk, snd (step0 w disk)).
  cbv iota beta. rewrite Hlogin, E2. unfold step3.
  rewrite (json_records_bytes data b Hb). cbn [bind outcome sun_requests
                                              disk_after].
  split; [reflexivity|]. split; reflexivity.
Qed.

Lemma undecoded_reply_stops_step3_witness :
  outcome (run_pipeline brotli_world empty_disk) = Raise TypeError
  /\ sun_requests (run_pipeline brotli_world empty_disk) = []
  /\ disk_after (run_pipeline brotli_world empty_disk)
     = mkDisk None (Some [Byte_item 91; Byte_item 93]) None None None.
Proof.
  apply (undecoded_reply_stops_step3 brotli_world empty_disk
           [Byte_item 91; Byte_item 93] 91).
  - reflexivity.
  - vm_compute. reflexivity.
  - left. reflexivity.
Defined.

(* ------------------------------------------------------------------ *)
(** ** data_mod.py *)

Lemma filter_idem {A} (f : A -> bool) (l : list A) :
  filter f (filter f l) = filter f l.
Proof.
  induction l as [|x t IH]; [reflexivity|]. simpl.
  destruct (f x) eqn:E; [|exact IH]. simpl. now rewrite E, IH.
Qed.

Lemma stored_nights_written (garmin : list Night) json descr events sun :
  stored_nights (mkDisk (Some garmin) json descr events sun) = garmin.
Proof. reflexivity. Qed.

Lemma stored_sun_written garmin json descr events (sun : list SunRow) :
  stored_sun (mkDisk garmin json descr events (Some sun)) = sun.
Proof. reflexivity. Qed.

Lemma data_mod_done (data_backup data : Disk) :
  four_tables data_backup ->
  data_mod data_backup data
  = ({| garmin_sleep_df_pkl :=
          Some (trimmed Prev_Day (stored_nights data_backup));
        new_garmin_sleep_json := new_garmin_sleep_json data;
        all_sleep_descr_df_pkl :=
          option_map (trimmed d_Prev_Day) (all_sleep_descr_df_pkl data_backup);
        all_sleep_event_df_pkl :=
          option_map (trimmed e_Prev_Day) (all_sleep_event_df_pkl data_backup);
        sun_df_pkl := Some (trimmed sun_Date (stored_sun data_backup)) |},
     None).
Proof.
  unfold four_tables, data_mod, stored_nights, stored_sun.
  destruct (all_sleep_descr_df_pkl data_backup) as [descr|];
    [|intros [H _]; now contradiction H].
  destruct (all_sleep_event_df_pkl data_backup) as [events|];
    [|intros [_ [H _]]; now contradiction H].
  destruct (sun_df_pkl data_backup) as [sun|];
    [|intros [_ [_ [H _]]]; now contradiction H].
  destruct (garmin_sleep_df_pkl data_backup) as [garmin|];
    [|intros [_ [_ [_ H]]]; now contradiction H].
  intros _. reflexivity.
Qed.

(** X20.  data_mod.py runs to its end exactly when all four tables are in
    the backup directory.  Then each table of the data directory holds the
    backup's rows dated 6 December 2019 or earlier and no other row, in
    the backup's order (so an archive in date order stays in date order),
    the raw download is left alone, and running the script on its own
    output changes nothing. *)
Theorem data_mod_trims (data_backup data : Disk) :
  (snd (data_mod data_backup data) = None <-> four_tables data_backup)
  /\ (four_tables data_backup ->
      let data' := fst (data_mod data_backup data) in
      (forall r, In r (stored_nights data') <->
                 In r (stored_nights data_backup) /\ Prev_Day r <= trim_date)
      /\ (forall r, In r (stored_sun data') <->
                    In r (stored_sun data_backup) /\ sun_Date r <= trim_date)
      /\ all_sleep_descr_df_pkl data'
         = option_map (trimmed d_Prev_Day) (all_sleep_descr_df_pkl data_backup)
      /\ all_sleep_event_df_pkl data'
         = option_map (trimmed e_Prev_Day) (all_sleep_event_df_pkl data_backup)
      /\ new_garmin_sleep_json data' = new_garmin_sleep_json data
      /\ (ascending Prev_Day (stored_nights data_backup) ->
          ascending Prev_Day (stored_nights data'))
      /\ data_mod data' data' = (data', None)).
Proof.
  split.
  - split.
    + unfold data_mod, four_tables.
      destruct (all_sleep_descr_df_pkl data_backup); [|discriminate].
      destruct (all_sleep_event_df_pkl data_backup); [|discriminate].
      destruct (sun_df_pkl data_backup); [|discriminate].
      destruct (garmin_sleep_df_pkl data_backup); [|discriminate].
      intros _. repeat split; discriminate.
    + intros H. now rewrite (data_mod_done data_backup data H).
  - intros H data'. subst data'. rewrite (data_mod_done data_backup data H).
    cbn [fst]. rewrite !stored_nights_written, !stored_sun_written.
    cbn [all_sleep_descr_df_pkl all_sleep_event_df_pkl new_garmin_sleep_json].
    split; [|split; [|split; [|split; [|split; [|split]]]]].
    + intros r. unfold trimmed. rewrite filter_In, Z.leb_le. reflexivity.
    + intros r. unfold trimmed. rewrite filter_In, Z.leb_le. reflexivity.
    + reflexivity.
    + reflexivity.
    + reflexivity.
    + intros Hasc. now apply filter_ascending.
    + rewrite data_mod_done.
      * rewrite !stored_nights_written, !stored_sun_written.
        cbn [all_sleep_descr_df_pkl all_sleep_event_df_pkl
             new_garmin_sleep_json].
        unfold trimmed. rewrite !filter_idem.
        destruct (all_sleep_descr_df_pkl data_backup),
                 (all_sleep_event_df_pkl data_backup);
          cbn [option_map]; rewrite ?filter_idem; reflexivity.
      * destruct H as [H1 [H2 _]]. unfold four_tables.
        cbn [garmin_sleep_df_pkl sun_df_pkl all_sleep_descr_df_pkl
             all_sleep_event_df_pkl].
        destruct (all_sleep_descr_df_pkl data_backup); [|now contradiction H1].
        destruct (all_sleep_event_df_pkl data_backup); [|now contradiction H2].
        repeat split; discriminate.
Qed.

Lemma data_mod_trims_witness :
  snd (data_mod backup_disk empty_disk) = None
  /\ stored_nights (fst (data_mod backup_disk empty_disk))
     = [night_of (days_from_civil 2019 12 5) (Some 27000);
        night_of (days_from_civil 2019 12 6) (Some 25200)]
  /\ data_mod (fst (data_mod backup_disk empty_disk))
              (fst (data_mod backup_disk empty_disk))
     = (fst (data_mod backup_disk empty_disk), None).
Proof.
  assert (H : four_tables backup_disk)
    by (repeat split; discriminate).
  destruct (data_mod_trims backup_disk empty_disk) as [Hiff Hrows].
  split; [now apply Hiff|].
  split; [vm_compute; reflexivity|].
  apply (Hrows H).
Defined.

(** X21.  After data_mod.py, the update script starts over from the trim
    date: whatever its range, step0 on the trimmed data directory reports
    every date of the range after 6 December 2019 as missing, and of the
    earlier dates exactly those the backup archive did not have (all of
    them when no archived night is left). *)
Theorem step0_after_data_mod (w : World) (data_backup data : Disk) (d : Z) :
  four_tables data_backup ->
  start_date w <= d <= end_date w ->
  let missing := snd (step0 w (fst (data_mod data_backup data))) in
  (trim_date < d -> In d missing)
  /\ (In d missing ->
      trim_date < d \/ ~ In d (map Prev_Day (stored_nights data_backup)))
  /\ (~ In d (map Prev_Day (stored_nights data_backup)) -> In d missing).
Proof.
  intros H Hd missing. subst missing.
  rewrite (data_mod_done data_backup data H). cbn [fst].
  unfold step0. cbn [snd garmin_sleep_df_pkl].
  set (kept := trimmed Prev_Day (stored_nights data_backup)).
  assert (Hrange : In d (daterange (start_date w) (end_date w)))
    by (apply daterange_In; lia).
  assert (Hkept : forall x, In x (map Prev_Day kept) <->
                            In x (map Prev_Day (stored_nights data_backup))
                            /\ x <= trim_date).
  { intros x. unfold kept, trimmed. rewrite !in_map_iff. split.
    - intros [r [<- Hr]]. apply filter_In in Hr. destruct Hr as [Hr Hle].
      apply Z.leb_le in Hle. split; [now exists r | exact Hle].
    - intros [[r [<- Hr]] Hle]. exists r. split; [reflexivity|].
      apply filter_In. split; [exact Hr | now apply Z.leb_le]. }
  destruct (0 <? length kept)%nat eqn:Elen.
  - split; [|split].
    + intros Hlate. apply setdiff1d_In. split; [exact Hrange|].
      intros Hin. apply Hkept in Hin. lia.
    + intros Hin. apply setdiff1d_In in Hin. destruct Hin as [_ Hnot].
      destruct (Z_lt_le_dec trim_date d) as [Hlt | Hle]; [now left|].
      right. intros Hin. apply Hnot, Hkept. now split.
    + intros Hnot. apply setdiff1d_In. split; [exact Hrange|].
      intros Hin. apply Hkept in Hin. now apply Hnot.
  - split; [|split].
    + intros _. exact Hrange.
    + intros _.
      destruct (Z_lt_le_dec trim_date d) as [Hlt | Hle]; [now left|].
      right. intros Hin.
      assert (Hk : In d (map Prev_Day kept)) by (apply Hkept; now split).
      apply Nat.ltb_ge in Elen.
      destruct kept as [|r t]; [exact Hk | simpl in Elen; lia].
    + intros _. exact Hrange.
Qed.

Lemma step0_after_data_mod_witness :
  In (days_from_civil 2019 12 8)
     (snd (step0 december_world (fst (data_mod backup_disk empty_disk)))).
Proof.
  destruct (step0_after_data_mod december_world backup_disk empty_disk
              (days_from_civil 2019 12 8)) as [Hlate _].
  - repeat split; discriminate.
  - vm_compute. split; discriminate.
  - apply Hlate. vm_compute. reflexivity.
Defined.

(** X22.  When a table is missing from the backup directory, data_mod.py
    stops at it, with the tables before it already replaced: the
    description table of the data directory is the trimmed backup whenever
    the backup has one, the event table whenever the backup has both, and
    the night archive, which comes last, is never replaced by a run that
    fails.  A table whose backup is missing keeps its old content. *)
Theorem data_mod_missing_backup (data_backup data : Disk) (fn : string) :
  snd (data_mod data_backup data) = Some fn ->
  let data' := fst (data_mod data_backup data) in
  ~ four_tables data_backup
  /\ garmin_sleep_df_pkl data' = garmin_sleep_df_pkl data
  /\ new_garmin_sleep_json data' = new_garmin_sleep_json data
  /\ (forall descr,
         all_sleep_descr_df_pkl data_backup = Some descr ->
         all_sleep_descr_df_pkl data' = Some (trimmed d_Prev_Day descr))
  /\ (forall descr events,
         all_sleep_descr_df_pkl data_backup = Some descr ->
         all_sleep_event_df_pkl data_backup = Some events ->
         all_sleep_event_df_pkl data' = Some (trimmed e_Prev_Day events))
  /\ (all_sleep_descr_df_pkl data_backup = None -> data' = data)
  /\ (all_sleep_event_df_pkl data_backup = None ->
      all_sleep_event_df_pkl data' = all_sleep_event_df_pkl data)
  /\ (sun_df_pkl data_backup = None -> sun_df_pkl data' = sun_df_pkl data).
Proof.
  unfold data_mod, four_tables.
  destruct (all_sleep_descr_df_pkl data_backup) as [descr|].
  2:{ intros _. cbn [fst]. split; [intros [H _]; now apply H|].
      repeat split; try reflexivity; intros; discriminate. }
  destruct (all_sleep_event_df_pkl data_backup) as [events|].
  2:{ intros _. cbn [fst garmin_sleep_df_pkl new_garmin_sleep_json
                     all_sleep_descr_df_pkl all_sleep_event_df_pkl sun_df_pkl].
      split; [intros [_ [H _]]; now apply H|].
      split; [reflexivity|]. split; [reflexivity|].
      split; [intros d0 Hd; now inversion Hd|].
      split; [intros; discriminate|]. split; [intros; discriminate|].
      split; reflexivity. }
  destruct (sun_df_pkl data_backup) as [sun|].
  2:{ intros _. cbn [fst garmin_sleep_df_pkl new_garmin_sleep_json
                     all_sleep_descr_df_pkl all_sleep_event_df_pkl sun_df_pkl].
      split; [intros [_ [_ [H _]]]; now apply H|].
      split; [reflexivity|]. split; [reflexivity|].
      split; [intros d0 Hd; now inversion Hd|].
      split; [intros d0 e0 _ He; now inversion He|].
      split; [intros; discriminate|]. split; [intros; discriminate|].
      reflexivity. }
  destruct (garmin_sleep_df_pkl data_backup) as [garmin|].
  - cbn [snd]. discriminate.
  - intros _. cbn [fst garmin_sleep_df_pkl new_garmin_sleep_json
                   all_sleep_descr_df_pkl all_sleep_event_df_pkl sun_df_pkl].
    split; [intros [_ [_ [_ H]]]; now apply H|].
    split; [reflexivity|]. split; [reflexivity|].
    split; [intros d0 Hd; now inversion Hd|].
    split; [intros d0 e0 _ He; now inversion He|].
    split; [intros; discriminate|]. split; intros; discriminate.
Qed.

Lemma data_mod_missing_backup_witness :
  snd (data_mod backup_without_sun empty_disk)
  = Some "data_backup/sun_df.pkl"%string
  /\ garmin_sleep_df_pkl (fst (data_mod backup_without_sun empty_disk)) = None
  /\ all_sleep_descr_df_pkl (fst (data_mod backup_without_sun empty_disk))
     = Some christmas_descr.
Proof.
  split; [vm_compute; reflexivity|].
  destruct (data_mod_missing_backup backup_without_sun empty_disk
              "data_backup/sun_df.pkl"%string) as [_ [Hg [_ [Hd _]]]].
  - vm_compute. reflexivity.
  - split; [exact Hg|]. rewrite (Hd christmas_descr eq_refl).
    vm_compute. reflexivity.
Defined.

(* ------------------------------------------------------------------ *)
(** ** app.py: the filter buttons *)

Lemma react_clicks_spec (n : option Z) :
  react_clicks n
  = (button_on n, if button_on n then "primary"%string else "light"%string).
Proof.
  unfold react_clicks, button_on.
  set (k := match n with None => 0 | Some n0 => n0 end).
  rewrite (Zmod_even k). destruct (Z.even k); reflexivity.
Qed.

(** X23.  The filter buttons.  A button is on, and shown in the primary
    colour, exactly after an even number of clicks (no click at all
    included).  The day filter holds exactly the days whose button is on,
    and the type-of-day filter holds "workday" exactly when the work-nights
    button is on and "not a workday" exactly when the off-nights button is
    on. *)
Theorem filter_buttons (mon tue wed thu fri sat sun wn offn : option Z) :
  (forall n, fst (react_clicks n) = button_on n
             /\ (snd (react_clicks n) = "primary"%string
                 <-> button_on n = true))
  /\ (forall d, In d (snd (react_dow_clicks mon tue wed thu fri sat sun))
                <-> button_on (day_clicks mon tue wed thu fri sat sun d) = true)
  /\ (forall b, In b (snd (react_tod_clicks wn offn))
                <-> button_on (if b then wn else offn) = true).
Proof.
  split; [|split].
  - intros n. rewrite react_clicks_spec. cbn [fst snd].
    split; [reflexivity|]. destruct (button_on n); split; intros H;
      try reflexivity; discriminate.
  - intros d. unfold react_dow_clicks. rewrite !react_clicks_spec.
    unfold enumerate_if.
    destruct d; cbn [day_clicks];
      destruct (button_on mon), (button_on tue), (button_on wed),
        (button_on thu), (button_on fri), (button_on sat), (button_on sun);
      cbn [snd fst combine filter map In]; intuition congruence.
  - intros b. unfold react_tod_clicks. rewrite !react_clicks_spec.
    unfold enumerate_if.
    destruct b; destruct (button_on wn), (button_on offn);
      cbn [snd fst combine filter map In]; intuition congruence.
Qed.

(* ------------------------------------------------------------------ *)
(** ** app.py: the rows of the overview graph *)

Lemma iloc_slice_to_last {A} (rows : list A) (final : A) (a : Z) :
  0 <= a ->
  iloc_slice (rows ++ [final]) a (Z.of_nat (length rows))
  = skipn (Z.to_nat a) rows.
Proof.
  intros Ha. unfold iloc_slice, slice_bound.
  rewrite length_app. cbn [length].
  replace (Z.of_nat (length rows + 1)) with (Z.of_nat (length rows) + 1)
    by lia.
  destruct (a <? 0) eqn:Ea; [apply Z.ltb_lt in Ea; lia|].
  destruct (Z.of_nat (length rows) <? 0) eqn:El; [apply Z.ltb_lt in El; lia|].
  rewrite (Z.min_l (Z.of_nat (length rows))) by lia.
  destruct (Z_le_gt_dec a (Z.of_nat (length rows))) as [Hle | Hgt].
  - rewrite Z.min_l by lia.
    rewrite skipn_app.
    replace (Z.to_nat a - length rows)%nat with 0%nat by lia.
    cbn [skipn]. rewrite firstn_app.
    rewrite length_skipn.
    replace (Z.to_nat (Z.of_nat (length rows) - a)
             - (length rows - Z.to_nat a))%nat with 0%nat by lia.
    cbn [firstn]. rewrite app_nil_r. apply firstn_all2.
    rewrite length_skipn. lia.
  - rewrite Z.min_r by lia.
    replace (Z.to_nat (Z.of_nat (length rows) - (Z.of_nat (length rows) + 1)))
      with 0%nat by lia.
    cbn [firstn]. symmetry. apply skipn_all2. lia.
Qed.

(** X24.  After a sync the right handle of the date slider stands at the
    position of the last row of the description table, and the graph
    takes the rows from the left handle up to, but not including, the right
    one: with the slider set by the sync, the last night of the table is
    not among the plotted rows, whatever the buttons say.  Before the
    slider is set the graph filters the whole table. *)
Theorem slider_hides_last_row (rows : list DescrRow) (final : DescrRow)
    (overview_slider_vals : option (Z * Z)) (dow_filter : list DayName)
    (tod_filter : list bool) :
  let sleep_descr_df := rows ++ [final] in
  let date_range := snd (overview_slider overview_slider_vals sleep_descr_df) in
  let left_val :=
    match overview_slider_vals with None => 0 | Some v => fst v end in
  overview_slider overview_slider_vals sleep_descr_df
  = (0, Z.of_nat (length rows), (left_val, Z.of_nat (length rows)))
  /\ (0 <= left_val ->
      mask_df_of (Some date_range) dow_filter tod_filter sleep_descr_df
      = mask_df_of None dow_filter tod_filter
                   (skipn (Z.to_nat left_val) rows))
  /\ mask_df_of None dow_filter tod_filter sleep_descr_df
     = mask_df_of None dow_filter tod_filter rows
       ++ mask_df_of None dow_filter tod_filter [final].
Proof.
  intros sleep_descr_df date_range left_val.
  assert (Hs : overview_slider overview_slider_vals sleep_descr_df
               = (0, Z.of_nat (length rows),
                  (left_val, Z.of_nat (length rows)))).
  { unfold overview_slider, sleep_descr_df, left_val.
    rewrite length_app. cbn [length].
    replace (Z.of_nat (length rows + 1) - 1) with (Z.of_nat (length rows))
      by lia.
    destruct overview_slider_vals as [[l r]|]; reflexivity. }
  split; [exact Hs|]. split.
  - intros Hleft. unfold date_range. rewrite Hs. cbn [snd].
    unfold mask_df_of, sleep_descr_df.
    now rewrite iloc_slice_to_last.
  - unfold mask_df_of, sleep_descr_df. apply filter_app.
Qed.

Lemma slider_hides_last_row_witness :
  mask_df_of (Some (snd (overview_slider None christmas_descr)))
             [Monday; Wednesday; Saturday] [true; false] christmas_descr
  = removelast christmas_descr.
Proof.
  destruct (slider_hides_last_row (removelast christmas_descr)
              (last christmas_descr (mkDescrRow 0 0 None None None None 0
                                                None false false))
              None [Monday; Wednesday; Saturday] [true; false])
    as [_ [H _]].
  change (removelast christmas_descr
          ++ [last christmas_descr
                (mkDescrRow 0 0 None None None None 0 None false false)])
    with christmas_descr in H.
  rewrite H; [|lia]. vm_compute. reflexivity.
Defined.

Lemma subtable_refl {A} (l : list A) : subtable l l.
Proof. induction l; constructor; assumption. Qed.

Lemma subtable_In {A} (s l : list A) (x : A) :
  subtable s l -> In x s -> In x l.
Proof.
  induction 1 as [|y s l _ IH|y s l _ IH]; simpl; [tauto| |]; intuition.
Qed.

Lemma subtable_trans {A} (a b c : list A) :
  subtable a b -> subtable b c -> subtable a c.
Proof.
  intros Hab Hbc. revert a Hab.
  induction Hbc as [|x b c _ IH|x b c _ IH]; intros a Hab.
  - exact Hab.
  - apply subtable_skip. now apply IH.
  - inversion Hab; subst.
    + apply subtable_skip. now apply IH.
    + apply subtable_keep. now apply IH.
Qed.

Lemma subtable_filter {A} (f : A -> bool) (l : list A) :
  subtable (filter f l) l.
Proof.
  induction l as [|x t IH]; simpl; [constructor|].
  destruct (f x); constructor; assumption.
Qed.

Lemma subtable_nil_l {A} (l : list A) : subtable [] l.
Proof. induction l; constructor; assumption. Qed.

Lemma subtable_skipn {A} (n : nat) (l : list A) : subtable (skipn n l) l.
Proof.
  revert l. induction n as [|n IH]; intros [|x t]; simpl;
    try apply subtable_refl.
  apply subtable_skip. apply IH.
Qed.

Lemma subtable_firstn {A} (n : nat) (l : list A) : subtable (firstn n l) l.
Proof.
  revert l. induction n as [|n IH]; intros [|x t]; simpl;
    try apply subtable_nil_l.
  apply subtable_keep. apply IH.
Qed.

Lemma mask_df_of_subtable (date_range : option (Z * Z))
    (dow_filter : list DayName) (tod_filter : list bool)
    (sleep_descr_df : list DescrRow) :
  subtable (mask_df_of date_range dow_filter tod_filter sleep_descr_df)
           sleep_descr_df.
Proof.
  unfold mask_df_of.
  eapply subtable_trans; [apply subtable_filter|].
  destruct date_range as [[a b]|]; [|apply subtable_refl].
  unfold iloc_slice.
  eapply subtable_trans; [apply subtable_firstn | apply subtable_skipn].
Qed.

Lemma map_filter_comm {A B} (f : A -> B) (p : B -> bool) (l : list A) :
  map f (filter (fun x => p (f x)) l) = filter p (map f l).
Proof.
  induction l as [|x t IH]; [reflexivity|]. simpl.
  destruct (p (f x)); simpl; now rewrite IH.
Qed.

Lemma filter_expected_subtable (s l : list DescrRow) :
  NoDup (map d_Sleep_Session_ID l) ->
  subtable s l ->
  filter (fun h => isin (fst (fst h)) (map d_Sleep_Session_ID s))
         (flat_map expected_events l)
  = flat_map expected_events s.
Proof.
  intros Hnd Hsub. induction Hsub as [|x s l Hsub IH|x s l Hsub IH].
  - reflexivity.
  - inversion Hnd as [|? ? Hx Hnd']; subst.
    cbn [flat_map expected_events app filter fst].
    assert (Hout : isin (d_Sleep_Session_ID x) (map d_Sleep_Session_ID s)
                   = false).
    { apply isin_false. intros Hin. apply Hx.
      apply in_map_iff in Hin. destruct Hin as [r [Hr Hin]].
      rewrite <- Hr. apply in_map. now apply (subtable_In s l). }
    rewrite Hout. now apply IH.
  - inversion Hnd as [|? ? Hx Hnd']; subst.
    cbn [flat_map expected_events app filter fst map].
    assert (Hin : isin (d_Sleep_Session_ID x)
                       (d_Sleep_Session_ID x :: map d_Sleep_Session_ID s)
                  = true) by (apply isin_In; now left).
    rewrite Hin. f_equal. f_equal. rewrite <- (IH Hnd').
    apply filter_ext_in. intros h Hh.
    unfold isin. cbn [existsb].
    destruct (fst (fst h) =? d_Sleep_Session_ID x) eqn:E; [|reflexivity].
    exfalso. apply Z.eqb_eq in E. apply Hx.
    apply in_flat_map in Hh. destruct Hh as [r [Hr Hh]].
    rewrite <- E. apply in_map_iff. exists r. split; [|exact Hr].
    cbn [expected_events In] in Hh.
    destruct Hh as [<- | [<- | []]]; reflexivity.
Qed.

Lemma session_ids_NoDup (descr : list DescrRow) :
  map d_Sleep_Session_ID descr = map Z.of_nat (seq 0 (length descr)) ->
  NoDup (map d_Sleep_Session_ID descr).
Proof.
  intros ->. generalize (seq_NoDup (length descr) 0).
  generalize (seq 0 (length descr)) as l.
  induction l as [|x t IH]; intros Hnd; [constructor|].
  inversion Hnd as [|? ? Hx Ht]; subst. cbn [map].
  constructor; [|now apply IH].
  intros Hin. apply in_map_iff in Hin. destruct Hin as [y [Hy Hin]].
  apply Nat2Z.inj in Hy. now subst.
Qed.

Lemma update_graph_unfold (date_range : option (Z * Z))
    (mon tue wed thu fri sat sun wn offn : option Z)
    (sleep_descr_df : list DescrRow) (sleep_event_df : list EventRow) :
  update_graph date_range mon tue wed thu fri sat sun wn offn
               sleep_descr_df sleep_event_df
  = (mask_df_of date_range
                (snd (react_dow_clicks mon tue wed thu fri sat sun))
                (snd (react_tod_clicks wn offn)) sleep_descr_df,
     data_df_of
       (mask_df_of date_range
                   (snd (react_dow_clicks mon tue wed thu fri sat sun))
                   (snd (react_tod_clicks wn offn)) sleep_descr_df)
       sleep_event_df).
Proof.
  unfold update_graph.
  destruct (react_tod_clicks wn offn) as [[c1 c2] tod_filter].
  destruct (react_dow_clicks mon tue wed thu fri sat sun)
    as [colors dow_filter].
  reflexivity.
Qed.

(** X25.  The graph on the tables of step3.  Whatever the slider and the
    buttons are set to, the description rows the graph plots are rows of
    the description table, in its order, and the event rows it plots are
    exactly the two events ("fell asleep", then "woke up") of each plotted
    description row, in the same order: no plotted night lacks its events,
    and no event of a night that was filtered out is shown. *)
Theorem plotted_events_match_plotted_nights (w : World)
    (nights_df : list Night) (descr : list DescrRow)
    (events : list EventRow) (complete : list Z)
    (date_range : option (Z * Z))
    (mon tue wed thu fri sat sun wn offn : option Z) :
  derive w nights_df = Ok (descr, events, complete) ->
  let shown :=
    update_graph date_range mon tue wed thu fri sat sun wn offn
                 descr events in
  subtable (fst shown) descr
  /\ map event_head (snd shown) = flat_map expected_events (fst shown)
  /\ length (snd shown) = (2 * length (fst shown))%nat.
Proof.
  intros H shown. subst shown. rewrite update_graph_unfold. cbn [fst snd].
  destruct (derive_sessions _ _ _ _ _ H) as [Hids [_ Hev]].
  set (mask_df := mask_df_of date_range _ _ descr).
  assert (Hsub : subtable mask_df descr) by apply mask_df_of_subtable.
  assert (Hheads : map event_head (data_df_of mask_df events)
                   = flat_map expected_events mask_df).
  { unfold data_df_of.
    rewrite (map_filter_comm event_head
               (fun h => isin (fst (fst h)) (map d_Sleep_Session_ID mask_df))).
    rewrite Hev. apply filter_expected_subtable; [|exact Hsub].
    now apply session_ids_NoDup. }
  split; [exact Hsub|]. split; [exact Hheads|].
  rewrite <- (length_map event_head), Hheads.
  generalize mask_df as l.
  induction l as [|r t IH]; [reflexivity|].
  cbn [flat_map expected_events app length]. rewrite IH. lia.
Qed.

Lemma plotted_events_match_plotted_nights_witness :
  length (snd (update_graph (Some (1, 3)) None None None None None (Some 1)
                            None None None
                            (fst (fst march_tables)) (snd (fst march_tables))))
  = (2 * length (fst (update_graph (Some (1%Z, 3%Z)) None None None None
                                   None (Some 1%Z) None None None
                                   (fst (fst march_tables))
                                   (snd (fst march_tables)))))%nat
  /\ length (fst (update_graph (Some (1, 3)) None None None None None
                               (Some 1) None None None
                               (fst (fst march_tables))
                               (snd (fst march_tables)))) = 2%nat.
Proof.
  split; [|vm_compute; reflexivity].
  apply (plotted_events_match_plotted_nights march_world march_archive
           (fst (fst march_tables)) (snd (fst march_tables))
           (snd march_tables) (Some (1, 3))).
  vm_compute. reflexivity.
Defined.

(* ------------------------------------------------------------------ *)
(** ** The calendar: years and their first days *)

Lemma year_spec (z : Z) :
  exists era doe yoe,
    z = era * 146097 + doe - 719468
    /\ 0 <= doe < 146097
    /\ 0 <= yoe <= 399
    /\ year_start yoe <= doe
    /\ (doe < year_start (yoe + 1) \/ yoe = 399)
    /\ year z = yoe + era * 400
                 + (if 306 <=? doe - year_start yoe then 1 else 0).
Proof.
  unfold year, civil_from_days. cbv zeta.
  set (z' := z + 719468). set (era := z' / 146097).
  set (doe := z' - era * 146097).
  set (yoe := (doe - doe / 1460 + doe / 36524 - doe / 146096) / 365).
  change (365 * yoe + yoe / 4 - yoe / 100) with (year_start yoe).
  set (doy := doe - year_start yoe).
  set (mp := (5 * doy + 2) / 153).
  assert (Hdoe : 0 <= doe < 146097).
  { subst doe era. Z.div_mod_to_equations. lia. }
  assert (Hyoe : 0 <= yoe <= 399 /\ year_start yoe <= doe
                 /\ (doe < year_start (yoe + 1) \/ yoe = 399)).
  { subst yoe. unfold year_start. clearbody doe. clear - Hdoe.
    Z.div_mod_to_equations. lia. }
  exists era, doe, yoe.
  split; [subst doe z'; lia|]. split; [exact Hdoe|].
  destruct Hyoe as [H1 [H2 H3]].
  split; [exact H1|]. split; [exact H2|]. split; [exact H3|].
  cbn [fst].
  assert (Hmp : mp < 10 <-> doy < 306).
  { subst mp. clearbody doy. clear. Z.div_mod_to_equations. lia. }
  assert (Hmp0 : 0 <= mp).
  { subst mp doy. clearbody yoe doe. clear - H2.
    Z.div_mod_to_equations. lia. }
  assert (Hmp11 : mp <= 11).
  { subst mp doy. unfold year_start in *. clearbody yoe doe.
    clear - H1 H2 H3 Hdoe. Z.div_mod_to_equations. lia. }
  change (doe - year_start yoe) with doy.
  destruct (306 <=? doy) eqn:E1;
    [apply Z.leb_le in E1 | apply Z.leb_gt in E1];
    (destruct (mp <? 10) eqn:E2;
     [apply Z.ltb_lt in E2 | apply Z.ltb_ge in E2]); try lia.
  - destruct (mp - 9 <=? 2) eqn:E3; [lia|]. apply Z.leb_gt in E3. lia.
  - destruct (mp + 3 <=? 2) eqn:E3; [|lia]. apply Z.leb_le in E3. lia.
Qed.

Lemma jan1_spec (y : Z) :
  exists era yoe,
    y - 1 = yoe + era * 400
    /\ 0 <= yoe < 400
    /\ days_from_civil y 1 1
       = era * 146097 + year_start yoe + 306 - 719468.
Proof.
  unfold days_from_civil. cbv zeta.
  change (Z.leb 1 2) with true. change (Z.ltb 2 1) with false. cbv iota.
  exists ((y - 1) / 400), (y - 1 - (y - 1) / 400 * 400).
  split; [lia|]. split; [Z.div_mod_to_equations; lia|].
  unfold year_start. change ((153 * (1 + 9) + 2) / 5) with 306. lia.
Qed.

Lemma jan1_le (z : Z) : days_from_civil (year z) 1 1 <= z.
Proof.
  destruct (year_spec z) as [era [doe [yoe [Hz [Hdoe [Hyoe [Hlo [Hhi Hy]]]]]]]].
  destruct (jan1_spec (year z)) as [era' [yoe' [Hy' [Hyoe' ->]]]].
  rewrite Hy in Hy'. clear Hy. unfold year_start in *.
  destruct (306 <=? doe - _) eqn:E;
    [apply Z.leb_le in E | apply Z.leb_gt in E].
  - assert (era' = era /\ yoe' = yoe) as [-> ->] by lia. lia.
  - assert ((era' = era /\ yoe' = yoe - 1)
            \/ (era' = era - 1 /\ yoe' = 399 /\ yoe = 0))
      as [[-> ->] | [-> [-> ->]]] by lia.
    + Z.div_mod_to_equations. lia.
    + Z.div_mod_to_equations. lia.
Qed.

Lemma lt_next_jan1 (z : Z) : z < days_from_civil (year z + 1) 1 1.
Proof.
  destruct (year_spec z) as [era [doe [yoe [Hz [Hdoe [Hyoe [Hlo [Hhi Hy]]]]]]]].
  destruct (jan1_spec (year z + 1)) as [era' [yoe' [Hy' [Hyoe' ->]]]].
  rewrite Hy in Hy'. clear Hy. unfold year_start in *.
  destruct (306 <=? doe - _) eqn:E;
    [apply Z.leb_le in E | apply Z.leb_gt in E].
  - assert ((era' = era /\ yoe' = yoe + 1)
            \/ (era' = era + 1 /\ yoe' = 0 /\ yoe = 399))
      as [[-> ->] | [-> [-> ->]]] by lia.
    + Z.div_mod_to_equations. lia.
    + Z.div_mod_to_equations. lia.
  - assert (era' = era /\ yoe' = yoe) as [-> ->] by lia. lia.
Qed.

Lemma jan1_lt (y1 y2 : Z) :
  y1 < y2 -> days_from_civil y1 1 1 < days_from_civil y2 1 1.
Proof.
  intros H.
  destruct (jan1_spec y1) as [e1 [o1 [H1 [Ho1 ->]]]].
  destruct (jan1_spec y2) as [e2 [o2 [H2 [Ho2 ->]]]].
  unfold year_start.
  assert (e1 <= e2) by lia.
  assert (0 <= 365 * o1 + o1 / 4 - o1 / 100 <= 145731 /\
          0 <= 365 * o2 + o2 / 4 - o2 / 100 <= 145731)
    by (Z.div_mod_to_equations; lia).
  destruct (Z.eq_dec e1 e2) as [-> | Hne]; [|lia].
  assert (o1 < o2) by lia.
  Z.div_mod_to_equations. lia.
Qed.

Lemma jan1_mono (y1 y2 : Z) :
  y1 <= y2 -> days_from_civil y1 1 1 <= days_from_civil y2 1 1.
Proof.
  intros H. destruct (Z.eq_dec y1 y2) as [-> | Hne]; [lia|].
  apply Z.lt_le_incl, jan1_lt. lia.
Qed.

Lemma year_mono (z1 z2 : Z) : z1 <= z2 -> year z1 <= year z2.
Proof.
  intros H. destruct (Z_le_gt_dec (year z1) (year z2)) as [Hle | Hgt];
    [exact Hle|].
  pose proof (jan1_le z1). pose proof (lt_next_jan1 z2).
  pose proof (jan1_mono (year z2 + 1) (year z1)). lia.
Qed.

Lemma year_jan1 (y : Z) : year (days_from_civil y 1 1) = y.
Proof.
  pose proof (jan1_le (days_from_civil y 1 1)) as H1.
  pose proof (lt_next_jan1 (days_from_civil y 1 1)) as H2.
  set (y' := year (days_from_civil y 1 1)) in *.
  destruct (Z.lt_trichotomy y' y) as [Hlt | [Heq | Hgt]]; [|exact Heq|].
  - pose proof (jan1_mono (y' + 1) y). lia.
  - pose proof (jan1_lt y y' Hgt). lia.
Qed.

(* ------------------------------------------------------------------ *)
(** ** app.py: the marks of the date slider *)

Lemma index_found (x : Z) (ls : list Z) :
  In x ls ->
  exists k, index x ls = Ok k
            /\ nth_error ls k = Some x
            /\ forall j d, (j < k)%nat -> nth_error ls j = Some d -> d <> x.
Proof.
  induction ls as [|y t IH]; intros Hin; [destruct Hin|].
  cbn [index]. destruct (y =? x) eqn:E.
  - apply Z.eqb_eq in E. subst y. exists 0%nat.
    split; [reflexivity|]. split; [reflexivity|]. intros j d Hj. lia.
  - apply Z.eqb_neq in E. destruct Hin as [Hin | Hin]; [contradiction|].
    destruct (IH Hin) as [k [Hk [Hnth Hfirst]]]. exists (S k).
    rewrite Hk. split; [reflexivity|]. split; [exact Hnth|].
    intros [|j] d Hj Hd.
    + cbn in Hd. inversion Hd. now subst.
    + apply (Hfirst j d); [lia | exact Hd].
Qed.

Lemma mark_dict_keys_found (prev_day_ls year_ls : list Z) :
  (forall y, In y year_ls -> In (days_from_civil y 1 1) prev_day_ls) ->
  exists keys,
    mark_dict_keys prev_day_ls year_ls = Ok keys
    /\ Forall2 (fun k y => index (days_from_civil y 1 1) prev_day_ls = Ok k)
               keys year_ls.
Proof.
  induction year_ls as [|y t IH]; intros H.
  - exists []. split; [reflexivity | constructor].
  - destruct (index_found (days_from_civil y 1 1) prev_day_ls)
      as [k [Hk _]]; [apply H; now left|].
    destruct IH as [keys [Hkeys Hall]]; [intros y' Hy'; apply H; now right|].
    exists (k :: keys). cbn [mark_dict_keys]. rewrite Hk, Hkeys.
    split; [reflexivity|]. now constructor.
Qed.

Lemma Forall2_combine_In {A B} (P : A -> B -> Prop) (la : list A)
    (lb : list B) (a : A) (b : B) :
  Forall2 P la lb -> In (a, b) (combine la lb) -> P a b.
Proof.
  induction 1 as [|x y la lb Hxy _ IH]; intros Hin; [destruct Hin|].
  destruct Hin as [Heq | Hin]; [now inversion Heq; subst | now apply IH].
Qed.

Lemma Forall2_combine_snd {A B} (P : A -> B -> Prop) (la : list A)
    (lb : list B) :
  Forall2 P la lb -> map snd (combine la lb) = lb.
Proof.
  induction 1 as [|x y la lb _ _ IH]; [reflexivity|].
  cbn [combine map snd]. now rewrite IH.
Qed.

Lemma strongly_sorted_nth (l : list Z) (i j : nat) (a b : Z) :
  StronglySorted Z.le l -> (i <= j)%nat ->
  nth_error l i = Some a -> nth_error l j = Some b -> a <= b.
Proof.
  intros Hs. revert i j. induction Hs as [|x t Ht IH Hx]; intros i j Hij Hi Hj.
  - destruct i; discriminate.
  - destruct i as [|i], j as [|j]; cbn in Hi, Hj.
    + inversion Hi; inversion Hj; lia.
    + inversion Hi; subst. rewrite Forall_forall in Hx. apply Hx.
      now apply nth_error_In in Hj.
    + lia.
    + apply (IH i j); [lia | assumption | assumption].
Qed.

Lemma tl_strict_above (l : list Z) (y : Z) :
  StronglySorted Z.lt l -> In y (tl l) ->
  exists y0, In y0 l /\ y0 < y /\ In y l.
Proof.
  intros Hs Hin. destruct l as [|y0 t]; [destruct Hin|].
  inversion Hs as [|? ? _ Hx]; subst. rewrite Forall_forall in Hx.
  exists y0. split; [now left|]. split; [now apply Hx | now right].
Qed.

(** X26.  The slider marks on the tables of step3.  When no index label
    of the combined table is as large as its length, so that the gap fill
    adds a row for every missing day, the last sync callback finds on the
    description table derived by step3, for every year of the table but the
    first, the row of 1 January of that year ([list.index] does not raise):
    the table has a row for every day between its first and its last date.
    The mark of a year stands at the first row of that year: every row
    before it is of an earlier year, every row from it on of that year or a
    later one. *)
Theorem slider_marks_found (w : World) (nights_df : list Night)
    (descr : list DescrRow) (events : list EventRow) (complete : list Z) :
  derive w nights_df = Ok (descr, events, complete) ->
  labels_below (all_df_index w (all_df_of w nights_df))
               (all_df_of w nights_df) ->
  exists marks,
    overview_slider_marks descr = Ok marks
    /\ map snd marks = tl (unique (map year (map d_Prev_Day descr)))
    /\ forall k y, In (k, y) marks ->
         nth_error (map d_Prev_Day descr) k = Some (days_from_civil y 1 1)
         /\ forall j d, nth_error (map d_Prev_Day descr) j = Some d ->
                        ((j < k)%nat -> year d < y)
                        /\ ((k <= j)%nat -> y <= year d).
Proof.
  intros H Hlab.
  destruct (derive_dates _ _ _ _ _ H Hlab) as [[lo [hi [Hle [_ Hdates]]]] _].
  destruct (derive_sessions _ _ _ _ _ H) as [_ [Hsorted _]].
  unfold overview_slider_marks.
  set (prev_day_ls := map d_Prev_Day descr) in *.
  set (year_ls := tl (unique (map year prev_day_ls))).
  assert (Hjan : forall y, In y year_ls ->
                           In (days_from_civil y 1 1) prev_day_ls).
  { intros y Hy. apply (tl_strict_above _ _ (unique_strict _)) in Hy.
    destruct Hy as [y0 [Hy0 [Hlt Hy]]].
    apply unique_In, in_map_iff in Hy0. destruct Hy0 as [d0 [<- Hd0]].
    apply unique_In, in_map_iff in Hy. destruct Hy as [d [<- Hd]].
    apply Hdates in Hd0. apply Hdates in Hd. apply Hdates.
    pose proof (jan1_le d) as Hj. split; [|lia].
    destruct (Z_le_gt_dec lo (days_from_civil (year d) 1 1)) as [Hok | Hbad];
      [exact Hok|].
    exfalso.
    assert (Hm : year (days_from_civil (year d) 1 1) <= year d0)
      by (apply year_mono; lia).
    rewrite year_jan1 in Hm. lia. }
  destruct (mark_dict_keys_found prev_day_ls year_ls Hjan)
    as [keys [Hkeys Hall]].
  exists (combine keys year_ls). rewrite Hkeys. cbn [bind].
  split; [reflexivity|].
  split; [exact (Forall2_combine_snd _ _ _ Hall)|].
  intros k y Hin.
  pose proof (Forall2_combine_In _ _ _ _ _ Hall Hin) as Hk.
  assert (Hy : In y year_ls).
  { rewrite <- (Forall2_combine_snd _ _ _ Hall).
    apply in_map_iff. exists (k, y). now split. }
  destruct (index_found _ _ (Hjan y Hy)) as [k' [Hk' [Hnth Hfirst]]].
  rewrite Hk in Hk'. inversion Hk'; subst k'. clear Hk'.
  split; [exact Hnth|]. intros j d Hd. split.
  - intros Hj.
    assert (Hdle : d <= days_from_civil y 1 1)
      by (apply (strongly_sorted_nth prev_day_ls j k); auto; lia).
    assert (Hne : d <> days_from_civil y 1 1) by (now apply (Hfirst j)).
    destruct (Z_lt_le_dec (year d) y) as [Hlt | Hge]; [exact Hlt|].
    exfalso. pose proof (jan1_le d). pose proof (jan1_mono y (year d) Hge).
    lia.
  - intros Hj.
    assert (Hdge : days_from_civil y 1 1 <= d)
      by (apply (strongly_sorted_nth prev_day_ls k j); auto).
    rewrite <- (year_jan1 y) at 1. now apply year_mono.
Qed.

Lemma slider_marks_found_witness :
  exists marks,
    overview_slider_marks (fst (fst new_year_tables)) = Ok marks
    /\ marks = [(2%nat, 2020)].
Proof.
  destruct (slider_marks_found one_night_world new_year_archive
              (fst (fst new_year_tables)) (snd (fst new_year_tables))
              (snd new_year_tables)) as [marks [Hm _]].
  - vm_compute. reflexivity.
  - apply positional_labels_below.
  - exists marks. split; [exact Hm|].
    assert (Hc : overview_slider_marks (fst (fst new_year_tables))
                 = Ok [(2%nat, 2020)]) by (vm_compute; reflexivity).
    rewrite Hc in Hm. now inversion Hm.
Defined.

Lemma index_Ok_In (x : Z) (ls : list Z) (k : nat) :
  index x ls = Ok k -> In x ls.
Proof.
  revert k. induction ls as [|y t IH]; intros k H; [discriminate|].
  cbn [index] in H. destruct (y =? x) eqn:E.
  - apply Z.eqb_eq in E. now left.
  - destruct (index x t) as [k'|e]; [|discriminate]. right. now apply (IH k').
Qed.

Lemma index_Raise (x : Z) (ls : list Z) (e : exn) :
  index x ls = Raise e -> e = ValueError.
Proof.
  induction ls as [|y t IH]; intros H; [now inversion H|].
  cbn [index] in H. destruct (y =? x); [discriminate|].
  destruct (index x t) as [k'|e']; [discriminate|].
  cbn [bind] in H. inversion H; subst. now apply IH.
Qed.

Lemma mark_dict_keys_Raise (prev_day_ls year_ls : list Z) (y : Z) :
  In y year_ls -> ~ In (days_from_civil y 1 1) prev_day_ls ->
  mark_dict_keys prev_day_ls year_ls = Raise ValueError.
Proof.
  intros Hy Hjan. induction year_ls as [|y0 t IH]; [destruct Hy|].
  cbn [mark_dict_keys].
  destruct (index (days_from_civil y0 1 1) prev_day_ls) as [k|e] eqn:E.
  - cbn [bind]. destruct Hy as [-> | Hy].
    + exfalso. apply Hjan. now apply (index_Ok_In _ _ k).
    + now rewrite (IH Hy).
  - cbn [bind]. now rewrite (index_Raise _ _ _ E).
Qed.

(** X28.  The slider marks need a row for every 1 January.  If the
    description table has dates of some year after its first year but no
    row dated 1 January of that year, [prev_day_ls.index] raises and the
    last sync callback ends in [ValueError] without returning any slider
    setting.  This is what happens on the tables step3 derives when the
    gap fill overwrote rows and left 1 January without a row. *)
Theorem slider_marks_need_new_year (sleep_descr_df : list DescrRow) (y : Z) :
  In y (tl (unique (map year (map d_Prev_Day sleep_descr_df)))) ->
  ~ In (days_from_civil y 1 1) (map d_Prev_Day sleep_descr_df) ->
  overview_slider_marks sleep_descr_df = Raise ValueError.
Proof.
  intros Hy Hjan. unfold overview_slider_marks.
  now rewrite (mark_dict_keys_Raise _ _ y Hy Hjan).
Qed.

Lemma slider_marks_need_new_year_witness :
  derive stale_world stale_archive = Ok stale_tables
  /\ map d_Prev_Day (fst (fst stale_tables))
     = [days_from_civil 2019 12 30; days_from_civil 2020 1 2;
        days_from_civil 2020 1 3]
  /\ overview_slider_marks (fst (fst stale_tables)) = Raise ValueError.
Proof.
  split; [vm_compute; reflexivity|]. split; [vm_compute; reflexivity|].
  apply (slider_marks_need_new_year (fst (fst stale_tables)) 2020).
  - vm_compute. left. reflexivity.
  - vm_compute. intros [H | [H | [H | []]]]; discriminate.
Defined.
